(** * CertificateApp: a shallow embedding of [src/CertificateApp.js]

    The script is a thin orchestration layer over four platform services
    (Drive, Slides, Sheets, Mail).  The embedding keeps the three classes of
    the source ([User], [Certificate], [BatchProcessor]) with their private
    closure variables as record fields, threads the outside world through an
    explicit state-and-exception monad, and records every mutating call to a
    platform service in a trace.

    Conventions.
    - A JavaScript value that the code only stores, compares or coerces is a
      [JsVal]; a number [JNum z] stands for an integer of magnitude below
      10^21, the ones that print in plain decimal (larger numbers print
      with an exponent; fractions and Dates never matter to the code
      below).
    - A string is a [string] of code units below 256.
    - [Ok]/[Throw] is the completion of a statement; an uncaught exception of
      a service or a [TypeError] of the language propagates to the caller, as
      nothing in the source catches. *)

From Stdlib Require Import ZArith Ascii String.
From stdpp Require Import gmap strings list fin_maps pretty.

Open Scope string_scope.

(* ===================================================================== *)
(** ** JavaScript values *)
(* ===================================================================== *)

Module JS.

Inductive JsVal : Type :=
| JUndefined
| JNull
| JBool (b : bool)
| JNum (z : Z)
| JStr (s : string).

#[global] Instance JsVal_eq_dec : EqDecision JsVal.
Proof. solve_decision. Defined.

#[global] Instance JsVal_inhabited : Inhabited JsVal := populate JUndefined.

(** ToBoolean: the test behind [!x], [x || y] and [if (x)]. *)
Definition truthy (v : JsVal) : bool :=
  match v with
  | JUndefined | JNull => false
  | JBool b => b
  | JNum z => negb (z =? 0)%Z
  | JStr s => negb (String.eqb s "")
  end.

(** [a || b] *)
Definition js_or (a b : JsVal) : JsVal := if truthy a then a else b.

(** [a === b] on primitives *)
Definition strict_eq (a b : JsVal) : bool := bool_decide (a = b).

Definition is_string (v : JsVal) : Prop :=
  match v with JStr _ => True | _ => False end.

(** ToString, the coercion of a template literal [`${v}`]; the digits of a
    number are those of an integer of magnitude below 10^21. *)
Definition ToString (v : JsVal) : string :=
  match v with
  | JUndefined => "undefined"
  | JNull => "null"
  | JBool true => "true"
  | JBool false => "false"
  | JNum z => pretty z
  | JStr s => s
  end.

(** Property access on something that may or may not be an object:
    [o?.k] and [o[k]] for a plain object whose properties hold primitives. *)
Inductive JsArg : Type :=
| ArgVal (v : JsVal)
| ArgObj (o : gmap string JsVal).

(** [o?.k]: [undefined] when [o] is nullish, when [o] is a primitive without
    that property, and when the object lacks the key. *)
Definition opt_get (a : JsArg) (k : string) : JsVal :=
  match a with
  | ArgVal _ => JUndefined
  | ArgObj o => default JUndefined (o !! k)
  end.

(** *** Strings *)

Definition chr (n : nat) : string := String (ascii_of_nat n) EmptyString.

(** WhiteSpace and LineTerminator code units below 256. *)
Definition is_ws (a : ascii) : bool :=
  let n := nat_of_ascii a in
  ((9 <=? n) && (n <=? 13) || (n =? 32) || (n =? 160))%nat.

Fixpoint trimStart (s : string) : string :=
  match s with
  | EmptyString => EmptyString
  | String c r => if is_ws c then trimStart r else s
  end.

Fixpoint trimEnd (s : string) : string :=
  match s with
  | EmptyString => EmptyString
  | String c r =>
      match trimEnd r with
      | EmptyString => if is_ws c then EmptyString else String c EmptyString
      | r' => String c r'
      end
  end.

(** [String.prototype.trim] *)
Definition trim (s : string) : string := trimEnd (trimStart s).

Definition starts_ws (s : string) : bool :=
  match s with
  | EmptyString => false
  | String c _ => is_ws c
  end.

Fixpoint ends_ws (s : string) : bool :=
  match s with
  | EmptyString => false
  | String c EmptyString => is_ws c
  | String _ r => ends_ws r
  end.

Definition lower (a : ascii) : ascii :=
  let n := nat_of_ascii a in
  if ((65 <=? n) && (n <=? 90))%nat then ascii_of_nat (n + 32) else a.

(** [needle] is a prefix of [s], letter case ignored. *)
Fixpoint prefix_ci (needle s : string) : bool :=
  match needle, s with
  | EmptyString, _ => true
  | String a n', String b s' => Ascii.eqb (lower a) (lower b) && prefix_ci n' s'
  | String _ _, EmptyString => false
  end.

Fixpoint prefix_cs (needle s : string) : bool :=
  match needle, s with
  | EmptyString, _ => true
  | String a n', String b s' => Ascii.eqb a b && prefix_cs n' s'
  | String _ _, EmptyString => false
  end.



End JS.
Export JS.

(* ===================================================================== *)
(** ** Completions and the state-and-exception monad *)
(* ===================================================================== *)

Module Eff.

Inductive Exn : Type :=
| TypeError (msg : string)      (* raised by the language *)
| ServiceError (msg : string).  (* raised by a platform service *)

Inductive Outcome (A : Type) : Type :=
| Ok (a : A)
| Throw (e : Exn).
Arguments Ok {A} a.
Arguments Throw {A} e.

(** A computation over a state [S]: the state after a [Throw] is the state
    at the point where the exception was raised. *)
Definition M (S A : Type) : Type := S -> Outcome A * S.

Definition ret {S A} (a : A) : M S A := fun s => (Ok a, s).

Definition bind {S A B} (m : M S A) (k : A -> M S B) : M S B :=
  fun s =>
    match m s with
    | (Ok a, s') => k a s'
    | (Throw e, s') => (Throw e, s')
    end.

Definition throw {S A} (e : Exn) : M S A := fun s => (Throw e, s).
Definition gets {S A} (f : S -> A) : M S A := fun s => (Ok (f s), s).
Definition modify {S} (f : S -> S) : M S unit := fun s => (Ok tt, f s).

(** Run a computation on the second component of a paired state. *)
Definition liftW {X S A} (m : M S A) : M (X * S) A :=
  fun xs =>
    match m (snd xs) with
    | (r, s') => (r, (fst xs, s'))
    end.

End Eff.
Export Eff.

Notation "x <- m ;; k" := (bind m (fun x => k))
  (at level 100, m at next level, right associativity).
Notation "m ;;; k" := (bind m (fun _ => k))
  (at level 100, right associativity).

(* ===================================================================== *)
(** ** The platform services the script calls *)
(* ===================================================================== *)

(** The services are collaborators outside the repository.  Each is modelled
    by its documented contract, as far as the script depends on it: a lookup
    of an unknown identifier raises, a write is recorded in the trace and
    changes the store.  Quotas, network failures and mail delivery are left
    out. *)

Module Platform.

(** A Drive file: a slide deck or an exported document, with the text of
    its shapes. *)
Record File : Type := mkFile {
  f_name : string;
  f_mime : string;
  f_parent : string;
  f_texts : list string;
  f_trashed : bool
}.

(** What [getAs] hands over: a named blob with the rendered text. *)
Record Blob : Type := mkBlob {
  b_name : string;
  b_mime : string;
  b_texts : list string
}.

(** The argument object of [MailApp.sendEmail]. *)
Record Mail : Type := mkMail {
  m_name : JsVal;
  m_to : JsVal;
  m_subject : JsVal;
  m_htmlBody : JsVal;
  m_attachments : list string
}.

(** A request of [Slides.Presentations.batchUpdate]. *)
Inductive Request : Type :=
| ReplaceAllText (replaceText : JsVal) (text : string) (matchCase : bool).

(** A row handed to [setValues]: a possibly sparse array, whose holes are
    [None]. *)
Abbreviation Row := (list (option JsVal)).

Inductive Event : Type :=
| EvMakeCopy (src copy : string)
| EvMoveTo (file folder : string)
| EvSetName (file name : string)
| EvBatchUpdate (presentation : string) (requests : list Request)
| EvGetAs (file mime : string)
| EvCreateFile (folder file : string)
| EvSetTrashed (file : string) (trashed : bool)
| EvSendEmail (m : Mail)
| EvConsoleLog (msg : string)
| EvToast (msg : string)
| EvSetValues (spreadsheet sheet : string) (row col numRows numCols : nat)
              (values : list Row).

#[global] Instance Request_eq_dec : EqDecision Request.
Proof. solve_decision. Defined.
#[global] Instance Mail_eq_dec : EqDecision Mail.
Proof. solve_decision. Defined.
#[global] Instance Event_eq_dec : EqDecision Event.
Proof. solve_decision. Defined.

Record World : Type := mkWorld {
  (** spreadsheet id, then sheet name, to the grid of cells (row-major,
      an empty cell is the empty string) *)
  spreadsheets : gmap string (gmap string (list (list JsVal)));
  (** whether the script is bound to a spreadsheet ([getActive()]) *)
  activeSpreadsheet : bool;
  files : gmap string File;
  folders : gset string;
  trace : list Event
}.

Definition log (e : Event) (w : World) : World :=
  mkWorld (spreadsheets w) (activeSpreadsheet w) (files w) (folders w)
          (trace w ++ [e]).

Definition put_file (id : string) (f : File) (w : World) : World :=
  mkWorld (spreadsheets w) (activeSpreadsheet w) (<[id := f]> (files w))
          (folders w) (trace w).

Definition emit (e : Event) : M World unit := modify (log e).

(** *** Drive *)

(** Drive hands out an identifier that no file or folder has yet. *)
Definition newId (w : World) : string := fresh (dom (files w) ∪ folders w).

Definition DriveApp_getFolderById (id : string) : M World string :=
  fun w =>
    if bool_decide (id ∈ folders w) then (Ok id, w)
    else (Throw (ServiceError "folder not found"), w).

Definition DriveApp_getFileById (id : JsVal) : M World string :=
  fun w =>
    match id with
    | JStr s =>
        match files w !! s with
        | Some _ => (Ok s, w)
        | None => (Throw (ServiceError "file not found"), w)
        end
    | _ => (Throw (ServiceError "invalid argument: id"), w)
    end.

Definition with_file {A} (fid : string) (k : File -> M World A) : M World A :=
  fun w =>
    match files w !! fid with
    | Some f => k f w
    | None => (Throw (ServiceError "file not found"), w)
    end.

(** [file.makeCopy()]: a copy next to the original, named "Copy of ...". *)
Definition File_makeCopy (fid : string) : M World string :=
  with_file fid (fun f =>
    id <- gets newId ;;
    modify (put_file id (mkFile ("Copy of " +:+ f_name f) (f_mime f)
                                 (f_parent f) (f_texts f) false)) ;;;
    emit (EvMakeCopy fid id) ;;;
    ret id).

Definition File_moveTo (fid folder : string) : M World string :=
  with_file fid (fun f =>
    modify (put_file fid (mkFile (f_name f) (f_mime f) folder (f_texts f)
                                  (f_trashed f))) ;;;
    emit (EvMoveTo fid folder) ;;;
    ret fid).

Definition File_setName (fid name : string) : M World string :=
  with_file fid (fun f =>
    modify (put_file fid (mkFile name (f_mime f) (f_parent f) (f_texts f)
                                  (f_trashed f))) ;;;
    emit (EvSetName fid name) ;;;
    ret fid).

Fixpoint has_period (s : string) : bool :=
  match s with
  | EmptyString => false
  | String c r => Ascii.eqb c "."%char || has_period r
  end.

(** A file name without what follows its last period, which the conversion
    takes for an extension; a name without a period is kept whole. *)
Fixpoint without_extension (s : string) : string :=
  match s with
  | EmptyString => EmptyString
  | String c r =>
      if has_period r then String c (without_extension r)
      else if Ascii.eqb c "."%char then EmptyString
      else s
  end.

(** [file.getAs('application/pdf')]: the rendering keeps the text; the blob
    is named after the file, the extension of the name replaced or, when the
    name has none, added. *)
Definition File_getAs (fid mime : string) : M World Blob :=
  with_file fid (fun f =>
    emit (EvGetAs fid mime) ;;;
    ret (mkBlob (without_extension (f_name f) +:+ ".pdf") mime (f_texts f))).

Definition Folder_createFile (folder : string) (b : Blob) : M World string :=
  id <- gets newId ;;
  modify (put_file id (mkFile (b_name b) (b_mime b) folder (b_texts b) false)) ;;;
  emit (EvCreateFile folder id) ;;;
  ret id.

Definition File_setTrashed (fid : string) (t : bool) : M World string :=
  with_file fid (fun f =>
    modify (put_file fid (mkFile (f_name f) (f_mime f) (f_parent f)
                                  (f_texts f) t)) ;;;
    emit (EvSetTrashed fid t) ;;;
    ret fid).

(** *** Slides *)

(** Replace every occurrence of [needle], scanning left to right; [skip]
    counts the code units of a match still to be passed over. *)
Fixpoint replace_go (matchCase : bool) (needle repl : string) (skip : nat)
                    (s : string) : string :=
  match s with
  | EmptyString => EmptyString
  | String c r =>
      match skip with
      | S k => replace_go matchCase needle repl k r
      | O =>
          if (if matchCase then prefix_cs needle s else prefix_ci needle s)
          then repl +:+ replace_go matchCase needle repl
                                   (String.length needle - 1) r
          else String c (replace_go matchCase needle repl 0 r)
      end
  end.

Definition replaceAllText (matchCase : bool) (needle repl s : string) : string :=
  replace_go matchCase needle repl 0 s.

(** One request applied to the text of a deck; the service rejects an empty
    search text and a replacement that is not a string. *)
Definition apply_request (r : Request) (texts : list string)
  : Outcome (list string) :=
  match r with
  | ReplaceAllText (JStr repl) text mc =>
      if String.eqb text "" then Throw (ServiceError "empty containsText")
      else Ok (map (replaceAllText mc text repl) texts)
  | ReplaceAllText _ _ _ => Throw (ServiceError "invalid replaceText")
  end.

Fixpoint apply_requests (rs : list Request) (texts : list string)
  : Outcome (list string) :=
  match rs with
  | [] => Ok texts
  | r :: rs' =>
      match apply_request r texts with
      | Ok texts' => apply_requests rs' texts'
      | Throw e => Throw e
      end
  end.

(** [Slides.Presentations.batchUpdate({requests}, presentationId)]: all
    requests are applied, or none. *)
Definition Slides_batchUpdate (rs : list Request) (pid : string) : M World unit :=
  with_file pid (fun f =>
    match apply_requests rs (f_texts f) with
    | Ok texts' =>
        modify (put_file pid (mkFile (f_name f) (f_mime f) (f_parent f) texts'
                                      (f_trashed f))) ;;;
        emit (EvBatchUpdate pid rs)
    | Throw e => throw e
    end).

(** *** Mail *)

Definition MailApp_sendEmail (m : Mail) : M World unit := emit (EvSendEmail m).

(** *** Feedback: [showFeedback] of the source (lines 417-420) *)

Definition showFeedback (feedback : string) : M World unit :=
  emit (EvConsoleLog feedback) ;;;
  active <- gets activeSpreadsheet ;;
  if active then emit (EvToast feedback)
  else throw (TypeError "Cannot read properties of null (reading 'toast')").

End Platform.
Export Platform.

(* ===================================================================== *)
(** ** Sheets: grids of cells, ranges, reads and writes *)
(* ===================================================================== *)

Module Sheets.

(** The cell at a zero-based position; outside the stored rows the sheet is
    empty. *)
Definition cellAt (g : list (list JsVal)) (r c : nat) : JsVal :=
  default (JStr "") (row ← g !! r; row !! c).

Definition is_blank (v : JsVal) : bool := bool_decide (v = JStr "").

(** Length of the shortest prefix of [l] that holds every non-blank item. *)
Fixpoint extent {A} (blank : A -> bool) (l : list A) : nat :=
  match l with
  | [] => 0
  | x :: r =>
      match extent blank r with
      | O => if blank x then 0 else 1
      | S k => S (S k)
      end
  end.

Definition getLastRow (g : list (list JsVal)) : nat :=
  extent (fun row => Nat.eqb (extent is_blank row) 0) g.

Definition getLastColumn (g : list (list JsVal)) : nat :=
  foldr (fun row m => Nat.max (extent is_blank row) m) 0%nat g.

Definition getMaxColumns (g : list (list JsVal)) : nat :=
  Nat.max 1 (foldr (fun row m => Nat.max (length row) m) 0%nat g).

(** The values of the range with zero-based corner [(r0, c0)]. *)
Definition range_values (g : list (list JsVal)) (r0 c0 numRows numCols : nat)
  : list (list JsVal) :=
  map (fun r => map (fun c => cellAt g r c) (seq c0 numCols)) (seq r0 numRows).

(** What a written item becomes in its cell: a hole, [undefined] and
    [null] clear the cell. *)
Definition written (v : option JsVal) : JsVal :=
  match v with
  | None | Some JUndefined | Some JNull => JStr ""
  | Some v => v
  end.

(** The grid after writing [rows] at the zero-based corner [(r0, c0)]; the
    sheet grows when the range reaches past its last row or column. *)
Definition write_range (g : list (list JsVal)) (r0 c0 numCols : nat)
                       (rows : list Row) : list (list JsVal) :=
  let R := Nat.max (length g) (r0 + length rows) in
  let C := Nat.max (foldr (fun row m => Nat.max (length row) m) 0%nat g)
                   (c0 + numCols) in
  map (fun r =>
         map (fun c =>
                if ((r0 <=? r) && (r <? r0 + length rows) &&
                    (c0 <=? c) && (c <? c0 + numCols))%nat
                then written (mjoin (row ← rows !! (r - r0)%nat;
                                     Some (mjoin (row !! (c - c0)%nat))))
                else cellAt g r c)
             (seq 0 C))
      (seq 0 R).

(** A sheet handle: spreadsheet id and sheet name. *)
Definition Sheet : Type := (string * string)%type.

Definition SpreadsheetApp_openById (id : string) : M World string :=
  fun w =>
    match spreadsheets w !! id with
    | Some _ => (Ok id, w)
    | None => (Throw (ServiceError "spreadsheet not found"), w)
    end.

(** [getSheetByName] answers [null] for an unknown name. *)
Definition Spreadsheet_getSheetByName (ss name : string) : M World (option Sheet) :=
  fun w =>
    match spreadsheets w !! ss ≫= (.!! name) with
    | Some _ => (Ok (Some (ss, name)), w)
    | None => (Ok None, w)
    end.

(** A method call on what may be [null]. *)
Definition deref {S A} (o : option A) (method : string) : M S A :=
  match o with
  | Some a => ret a
  | None => throw (TypeError ("Cannot read properties of null (reading '"
                              +:+ method +:+ "')"))
  end.

Definition with_grid {A} (sh : Sheet) (k : list (list JsVal) -> M World A)
  : M World A :=
  fun w =>
    match spreadsheets w !! sh.1 ≫= (.!! sh.2) with
    | Some g => k g w
    | None => (Throw (ServiceError "sheet not found"), w)
    end.

(** The values of the data range: from A1 to the last cell with content,
    at least one cell. *)
Definition data_range_values (g : list (list JsVal)) : list (list JsVal) :=
  range_values g 0 0 (Nat.max 1 (getLastRow g)) (Nat.max 1 (getLastColumn g)).

(** [sheet.getDataRange().getValues()] *)
Definition Sheet_getDataRange_getValues (sh : Sheet) : M World (list (list JsVal)) :=
  with_grid sh (fun g => ret (data_range_values g)).

Definition Sheet_getMaxColumns (sh : Sheet) : M World nat :=
  with_grid sh (fun g => ret (getMaxColumns g)).

(** A range, by its one-based corner and its size; [getRange] refuses an
    empty range. *)
Record Range : Type := mkRange {
  rg_sheet : Sheet;
  rg_row : nat; rg_col : nat; rg_numRows : nat; rg_numCols : nat
}.

Definition Sheet_getRange (sh : Sheet) (row col numRows numCols : nat)
  : M World Range :=
  if ((1 <=? row) && (1 <=? col) && (1 <=? numRows) && (1 <=? numCols))%nat
  then ret (mkRange sh row col numRows numCols)
  else throw (ServiceError "invalid range").

Definition Range_getValues (rg : Range) : M World (list (list JsVal)) :=
  with_grid (rg_sheet rg) (fun g =>
    ret (range_values g (rg_row rg - 1) (rg_col rg - 1)
                      (rg_numRows rg) (rg_numCols rg))).

Definition set_grid (sh : Sheet) (g : list (list JsVal)) : M World unit :=
  modify (fun w =>
    mkWorld (<[sh.1 := <[sh.2 := g]> (default ∅ (spreadsheets w !! sh.1))]>
               (spreadsheets w))
            (activeSpreadsheet w) (files w) (folders w) (trace w)).

(** [range.setValues(rows)]: the data must have the size of the range. *)
Definition Range_setValues (rg : Range) (rows : list Row) : M World unit :=
  with_grid (rg_sheet rg) (fun g =>
    if (Nat.eqb (length rows) (rg_numRows rg) &&
        forallb (fun row : Row => Nat.eqb (length row) (rg_numCols rg)) rows)
    then
      set_grid (rg_sheet rg)
               (write_range g (rg_row rg - 1) (rg_col rg - 1) (rg_numCols rg) rows) ;;;
      emit (EvSetValues (rg_sheet rg).1 (rg_sheet rg).2 (rg_row rg) (rg_col rg)
                        (rg_numRows rg) (rg_numCols rg) rows)
    else throw (ServiceError "data does not match the size of the range")).

(** *** Arrays of the language *)

(** [arr[i]] for a dense array and any integer index. *)
Definition arr_get (a : list JsVal) (i : Z) : JsVal :=
  if (i <? 0)%Z then JUndefined else default JUndefined (a !! Z.to_nat i).

Fixpoint indexOf_from (a : list JsVal) (x : JsVal) (i : Z) : Z :=
  match a with
  | [] => (-1)%Z
  | y :: r => if strict_eq y x then i else indexOf_from r x (i + 1)%Z
  end.

(** [arr.indexOf(x)] *)
Definition indexOf (a : list JsVal) (x : JsVal) : Z := indexOf_from a x 0.

(** [arr[i] = v] on a possibly sparse array: an index past the end grows
    the array and leaves holes; a negative index sets a property that is not
    an element, so the elements and the length stay as they are. *)
Definition arr_set (a : Row) (i : Z) (v : JsVal) : Row :=
  if (i <? 0)%Z then a
  else
    let k := Z.to_nat i in
    if (k <? length a)%nat then <[k := Some v]> a
    else (a ++ replicate (k - length a) None ++ [Some v])%list.

(** [v.toString()] *)
Definition toString {S} (v : JsVal) : M S string :=
  match v with
  | JUndefined => throw (TypeError "Cannot read properties of undefined (reading 'toString')")
  | JNull => throw (TypeError "Cannot read properties of null (reading 'toString')")
  | _ => ret (ToString v)
  end.

(** [arr.forEach(f)] for a callback that leaves the array itself alone. *)
Fixpoint forEach {S A} (f : A -> M S unit) (l : list A) : M S unit :=
  match l with
  | [] => ret tt
  | x :: r => f x ;;; forEach f r
  end.

(** [arr.forEach(f)] over an array of objects that the callback may mutate:
    the callback runs on the object paired with the rest of the state.  When
    it throws, the object keeps what was assigned so far and the objects
    after it are untouched. *)
Fixpoint forEachObj {X S} (f : M (X * S) unit) (l : list X) (s : S)
  : Outcome unit * (list X * S) :=
  match l with
  | [] => (Ok tt, ([], s))
  | x :: r =>
      match f (x, s) with
      | (Ok _, (x', s')) =>
          match forEachObj f r s' with
          | (o, (r', s'')) => (o, (x' :: r', s''))
          end
      | (Throw e, (x', s')) => (Throw e, (x' :: r, s'))
      end
  end.

(** Run a method of a local object [x]; the object is handed back when the
    method returns and is out of reach when it throws. *)
Definition scoped {X Y S A} (x : X) (m : M (X * S) A) : M (Y * S) (A * X) :=
  fun ys =>
    match m (x, snd ys) with
    | (Ok a, (x', s')) => (Ok (a, x'), (fst ys, s'))
    | (Throw e, (_, s')) => (Throw e, (fst ys, s'))
    end.

End Sheets.
Export Sheets.

(* ===================================================================== *)
(** ** The module-level configuration (lines 7-9, [init] at 395-399) *)
(* ===================================================================== *)

Record Config : Type := mkConfig {
  BASE_PRESENTATION_ID : string;
  DESTINATION_FOLDER_ID : string;
  PLACEHOLDER : string
}.

Definition init (basePresentationID destinationFolderID placeholder : string)
  : Config :=
  mkConfig basePresentationID destinationFolderID placeholder.

(* ===================================================================== *)
(** ** class User (lines 15-125) *)
(* ===================================================================== *)

Module User.

(** The three closure variables.  The setters and [fromJSON] store whatever
    they are given, so a field is a [JsVal]. *)
Record t : Type := mk {
  _name : JsVal;
  _email : JsVal;
  _certificateID : JsVal
}.

#[global] Instance t_eq_dec : EqDecision t.
Proof. solve_decision. Defined.

(** [new User()] *)
Definition new : t := mk (JStr "") (JStr "") (JStr "").

Definition setName (name : JsVal) (u : t) : t :=
  mk name (_email u) (_certificateID u).
Definition getName (u : t) : JsVal := _name u.
Definition setEmail (email : JsVal) (u : t) : t :=
  mk (_name u) email (_certificateID u).
Definition getEmail (u : t) : JsVal := _email u.
Definition setCertificateID (certificateID : JsVal) (u : t) : t :=
  mk (_name u) (_email u) certificateID.
Definition getCertificateID (u : t) : JsVal := _certificateID u.

(** [toJSON] (lines 86-92): an object with exactly three keys. *)
Definition toJSON (u : t) : gmap string JsVal :=
  <["name" := _name u]>
    (<["email" := _email u]>
       (<["certificateID" := _certificateID u]> ∅)).

(** [fromJSON] (lines 99-103) *)
Definition fromJSON (jsonObject : JsArg) (u : t) : t :=
  mk (opt_get jsonObject "name")
     (opt_get jsonObject "email")
     (js_or (opt_get jsonObject "certificateID") (JStr "")).

Definition default_subject : string :=
  "Certificado de Participa" +:+ chr 231 +:+ chr 227 +:+ "o no Treinamento".

Definition default_htmlBody (name : JsVal) : string :=
  "<div dir=" +:+ chr 34 +:+ "ltr" +:+ chr 34 +:+ ">Oi " +:+ ToString name
  +:+ "!<br><br>Agradecemos muito a sua participa" +:+ chr 231 +:+ chr 227
  +:+ "o no nosso treinamento.<br><br>Esperamos que tenha gostado dele!"
  +:+ "<br><br>Aqui est" +:+ chr 225
  +:+ " o seu certificado de participa" +:+ chr 231 +:+ chr 227
  +:+ "o.</div>" +:+ chr 13 +:+ chr 10.

(** The argument of [MailApp.sendEmail] (lines 115-121), but for the
    attachment. *)
Definition message (u : t) (params : JsArg) (attachment : string) : Mail :=
  mkMail (js_or (opt_get params "senderName") (JStr ""))
         (_email u)
         (js_or (opt_get params "subject") (JStr default_subject))
         (js_or (opt_get params "htmlBody") (JStr (default_htmlBody (_name u))))
         [attachment].

(** [sendEmail] (lines 110-123) *)
Definition sendEmail (params : JsArg) (u : t) : M World unit :=
  if negb (truthy (_certificateID u)) then ret tt
  else
    attachment <- DriveApp_getFileById (_certificateID u) ;;
    MailApp_sendEmail (message u params attachment) ;;;
    showFeedback ("Email to " +:+ ToString (_name u) +:+ " successfully sent").

End User.

(* ===================================================================== *)
(** ** class Certificate (lines 131-211) *)
(* ===================================================================== *)

Module Certificate.

Record t : Type := mk {
  _placeholderReplacement : JsVal;
  _certificateName : string;
  _deletePresentation : bool;
  _certificateID : string
}.

(** [new Certificate()] *)
Definition new : t := mk (JStr "") "" false "".

Definition setPlaceholderReplacement (placeholderReplacement : JsVal) (c : t) : t :=
  mk placeholderReplacement (_certificateName c) (_deletePresentation c)
     (_certificateID c).
Definition setCertificateName (certificateName : string) (c : t) : t :=
  mk (_placeholderReplacement c) certificateName (_deletePresentation c)
     (_certificateID c).
Definition deletePresentation (deletePresentation : bool) (c : t) : t :=
  mk (_placeholderReplacement c) (_certificateName c) deletePresentation
     (_certificateID c).
Definition getCertificateID (c : t) : string := _certificateID c.

Definition set_certificateID (id : string) (c : t) : t :=
  mk (_placeholderReplacement c) (_certificateName c) (_deletePresentation c) id.

(** The request built at lines 193-201. *)
Definition request (cfg : Config) (c : t) : Request :=
  ReplaceAllText (_placeholderReplacement c) (PLACEHOLDER cfg) false.

(** The writes of one run of [createCertificate], for the identifiers Drive
    gives to the copy and to the stored document. *)
Definition certificate_events (cfg : Config) (c : t) (copy pdf : string)
  : list Event :=
  [EvMakeCopy (BASE_PRESENTATION_ID cfg) copy;
   EvMoveTo copy (DESTINATION_FOLDER_ID cfg);
   EvSetName copy (_certificateName c);
   EvBatchUpdate copy [request cfg c];
   EvGetAs copy "application/pdf";
   EvCreateFile (DESTINATION_FOLDER_ID cfg) pdf;
   EvSetTrashed copy (_deletePresentation c);
   EvConsoleLog (_certificateName c +:+ " successfully created");
   EvToast (_certificateName c +:+ " successfully created")].

(** The text of the deck after the replacement of line 202. *)
Definition rendered (cfg : Config) (repl : string) (template : File) : list string :=
  map (replaceAllText false (PLACEHOLDER cfg) repl) (f_texts template).

(** [createCertificate] (lines 186-209) *)
Definition createCertificate (cfg : Config) : M (t * World) unit :=
  this <- gets fst ;;
  destinationFolder <- liftW (DriveApp_getFolderById (DESTINATION_FOLDER_ID cfg)) ;;
  base <- liftW (DriveApp_getFileById (JStr (BASE_PRESENTATION_ID cfg))) ;;
  copy <- liftW (File_makeCopy base) ;;
  moved <- liftW (File_moveTo copy destinationFolder) ;;
  presentationBlob <- liftW (File_setName moved (_certificateName this)) ;;
  let presentationBlobID := presentationBlob in
  liftW (Slides_batchUpdate [request cfg this] presentationBlobID) ;;;
  pdfBlob <- liftW (File_getAs presentationBlob "application/pdf") ;;
  certificate <- liftW (Folder_createFile destinationFolder pdfBlob) ;;
  modify (fun cw => (set_certificateID certificate (fst cw), snd cw)) ;;;
  liftW (File_setTrashed presentationBlob (_deletePresentation this)) ;;;
  liftW (showFeedback (_certificateName this +:+ " successfully created")).

End Certificate.

(* ===================================================================== *)
(** ** class BatchProcessor (lines 217-361) *)
(* ===================================================================== *)

Module BatchProcessor.

(** [_users] holds the only references to its [User] objects (no method
    hands one out), so the array is a list of values. *)
Record t : Type := mk {
  _users : list User.t;
  _spreadsheetID : string;
  _sheetName : string;
  _namesColumnHeader : JsVal;
  _emailsColumnHeader : JsVal;
  _certificatesIDColumnHeader : JsVal;
  _deletePresentations : bool
}.

(** [new BatchProcessor()] *)
Definition new : t := mk [] "" "" (JStr "") (JStr "") (JStr "") false.

Definition set_users (us : list User.t) (bp : t) : t :=
  mk us (_spreadsheetID bp) (_sheetName bp) (_namesColumnHeader bp)
     (_emailsColumnHeader bp) (_certificatesIDColumnHeader bp)
     (_deletePresentations bp).

Definition setSpreadsheetID (spreadsheetID : string) (bp : t) : t :=
  mk (_users bp) spreadsheetID (_sheetName bp) (_namesColumnHeader bp)
     (_emailsColumnHeader bp) (_certificatesIDColumnHeader bp)
     (_deletePresentations bp).
Definition setSheetName (sheetName : string) (bp : t) : t :=
  mk (_users bp) (_spreadsheetID bp) sheetName (_namesColumnHeader bp)
     (_emailsColumnHeader bp) (_certificatesIDColumnHeader bp)
     (_deletePresentations bp).
Definition setNamesColumnHeader (h : JsVal) (bp : t) : t :=
  mk (_users bp) (_spreadsheetID bp) (_sheetName bp) h
     (_emailsColumnHeader bp) (_certificatesIDColumnHeader bp)
     (_deletePresentations bp).
Definition setEmailsColumnHeader (h : JsVal) (bp : t) : t :=
  mk (_users bp) (_spreadsheetID bp) (_sheetName bp) (_namesColumnHeader bp)
     h (_certificatesIDColumnHeader bp) (_deletePresentations bp).
Definition setCertificatesIDColumnHeader (h : JsVal) (bp : t) : t :=
  mk (_users bp) (_spreadsheetID bp) (_sheetName bp) (_namesColumnHeader bp)
     (_emailsColumnHeader bp) h (_deletePresentations bp).
Definition deletePresentations (b : bool) (bp : t) : t :=
  mk (_users bp) (_spreadsheetID bp) (_sheetName bp) (_namesColumnHeader bp)
     (_emailsColumnHeader bp) (_certificatesIDColumnHeader bp) b.

(** The sheet both [getUsersFromSheet] and [saveUsersToSheet] open first
    (lines 298-299, 319-320); the method named is the first one called on
    the result. *)
Definition open_sheet (method : string) : M (t * World) Sheet :=
  this <- gets fst ;;
  ss <- liftW (SpreadsheetApp_openById (_spreadsheetID this)) ;;
  sheet <- liftW (Spreadsheet_getSheetByName ss (_sheetName this)) ;;
  deref sheet method.

(** The guard of line 306. *)
Definition skipped (namesColumn emailsColumn : Z) (row : list JsVal) : bool :=
  negb (truthy (arr_get row namesColumn)) || negb (truthy (arr_get row emailsColumn)).

(** The user built at lines 307-309 from a row whose three cells have a
    string value. *)
Definition recipient_of_row (namesColumn emailsColumn certificatesIDColumn : Z)
                            (row : list JsVal) : User.t :=
  User.mk (JStr (trim (ToString (arr_get row namesColumn))))
          (JStr (trim (ToString (arr_get row emailsColumn))))
          (JStr (trim (ToString (arr_get row certificatesIDColumn)))).

(** A value on which [.toString()] can be called. *)
Definition has_toString (v : JsVal) : bool :=
  match v with JUndefined | JNull => false | _ => true end.

(** The callback of [data.forEach] (lines 305-311). *)
Definition load_row (namesColumn emailsColumn certificatesIDColumn : Z)
                    (row : list JsVal) : M (t * World) unit :=
  if skipped namesColumn emailsColumn row then ret tt
  else
    name <- toString (arr_get row namesColumn) ;;
    email <- toString (arr_get row emailsColumn) ;;
    certificateID <- toString (arr_get row certificatesIDColumn) ;;
    let user := User.setCertificateID (JStr (trim certificateID))
                  (User.setEmail (JStr (trim email))
                     (User.setName (JStr (trim name)) User.new)) in
    modify (fun bw => (set_users (_users (fst bw) ++ [user]) (fst bw), snd bw)).

(** [getUsersFromSheet] (lines 297-312) *)
Definition getUsersFromSheet : M (t * World) unit :=
  this <- gets fst ;;
  sheet <- open_sheet "getDataRange" ;;
  values <- liftW (Sheet_getDataRange_getValues sheet) ;;
  match values with
  | [] => throw (TypeError "Cannot read properties of undefined (reading 'indexOf')")
  | headers :: data =>
      let namesColumn := indexOf headers (_namesColumnHeader this) in
      let emailsColumn := indexOf headers (_emailsColumnHeader this) in
      let certificatesIDColumn := indexOf headers (_certificatesIDColumnHeader this) in
      forEach (load_row namesColumn emailsColumn certificatesIDColumn) data
  end.

(** The row built for one user (lines 327-330). *)
Definition build_row (namesColumn emailsColumn certificatesIDColumn : Z)
                     (user : User.t) : Row :=
  arr_set (arr_set (arr_set [] namesColumn (User.getName user))
                   emailsColumn (User.getEmail user))
          certificatesIDColumn (User.getCertificateID user).

(** The length of a row built from three column indices: the largest one
    plus one; none when no column is resolved (all -1). *)
Definition row_width (namesColumn emailsColumn certificatesIDColumn : Z) : nat :=
  Z.to_nat (Z.max namesColumn (Z.max emailsColumn certificatesIDColumn) + 1).

(** What a row holds at an index: [None] for a hole and past the end. *)
Definition row_item (row : Row) (k : nat) : option JsVal := mjoin (row !! k).

(** The header row as [saveUsersToSheet] reads it (line 321). *)
Definition live_headers (g : list (list JsVal)) : list JsVal :=
  map (fun c => cellAt g 0 c) (seq 0 (getMaxColumns g)).

(** [saveUsersToSheet] (lines 318-334) *)
Definition saveUsersToSheet : M (t * World) unit :=
  this <- gets fst ;;
  sheet <- open_sheet "getRange" ;;
  maxColumns <- liftW (Sheet_getMaxColumns sheet) ;;
  headerRange <- liftW (Sheet_getRange sheet 1 1 1 maxColumns) ;;
  headerValues <- liftW (Range_getValues headerRange) ;;
  match headerValues with
  | [] => throw (TypeError "Cannot read properties of undefined (reading 'indexOf')")
  | headers :: _ =>
      let namesColumn := indexOf headers (_namesColumnHeader this) in
      let emailsColumn := indexOf headers (_emailsColumnHeader this) in
      let certificatesIDColumn := indexOf headers (_certificatesIDColumnHeader this) in
      let rows := map (build_row namesColumn emailsColumn certificatesIDColumn)
                      (_users this) in
      match rows with
      | [] => throw (TypeError "Cannot read properties of undefined (reading 'length')")
      | row0 :: _ =>
          range <- liftW (Sheet_getRange sheet 2 1 (length rows) (length row0)) ;;
          liftW (Range_setValues range rows)
      end
  end.

(** The certificate that line 342-344 configure for a user. *)
Definition configured_for (deletePresentations : bool) (user : User.t)
  : Certificate.t :=
  Certificate.deletePresentation deletePresentations
    (Certificate.setPlaceholderReplacement (User.getName user)
       (Certificate.setCertificateName
          ("Certificate: " +:+ ToString (User.getName user))
          Certificate.new)).

(** The callback of [_users.forEach] in [createAllCertificates]
    (lines 341-347), run on one user. *)
Definition create_for (cfg : Config) (deletePresentations : bool)
  : M (User.t * World) unit :=
  user <- gets fst ;;
  r <- scoped (configured_for deletePresentations user)
              (Certificate.createCertificate cfg) ;;
  let certificate := snd r in
  modify (fun uw => (User.setCertificateID
                       (JStr (Certificate.getCertificateID certificate)) (fst uw),
                     snd uw)).

(** [createAllCertificates] (lines 340-348) *)
Definition createAllCertificates (cfg : Config) : M (t * World) unit :=
  fun bw =>
    match forEachObj (create_for cfg (_deletePresentations (fst bw)))
                     (_users (fst bw)) (snd bw) with
    | (o, (users', w')) => (o, (set_users users' (fst bw), w'))
    end.

(** [sendEmails] (lines 355-359) *)
Definition sendEmails (params : JsArg) : M (t * World) unit :=
  this <- gets fst ;;
  forEach (fun user => liftW (User.sendEmail params user)) (_users this).

End BatchProcessor.

(* ===================================================================== *)
(** ** Observations on a trace *)
(* ===================================================================== *)

(** The messages handed to the mail service, oldest first. *)
Definition sent_mails (tr : list Event) : list Mail :=
  flat_map (fun e => match e with EvSendEmail m => [m] | _ => [] end) tr.

(** The replacement requests handed to the slides service, with the deck
    each was issued against. *)
Definition batch_updates (tr : list Event) : list (string * list Request) :=
  flat_map (fun e => match e with EvBatchUpdate p rs => [(p, rs)] | _ => [] end) tr.


(** What the loop of [createAllCertificates] needs of the world, and keeps:
    the destination folder, the template, an active spreadsheet. *)
Definition ready (cfg : Config) (template : File) (w : World) : Prop :=
  DESTINATION_FOLDER_ID cfg ∈ folders w /\
  files w !! BASE_PRESENTATION_ID cfg = Some template /\
  activeSpreadsheet w = true.

(* ===================================================================== *)
(** ** A sample world: one roster, one template, one stored certificate *)
(* ===================================================================== *)

Module Sample.

Definition roster : list (list JsVal) :=
  [[JStr "Name"; JStr "Email"; JStr "Certificate ID"];
   [JStr "Ana Silva"; JStr " ana@x.org "; JStr ""];
   [JStr "Bob"; JStr ""; JStr ""];
   [JStr "Carla"; JStr "carla@x.org"; JStr "cert-1"]].

Definition template : File :=
  mkFile "Template" "application/vnd.google-apps.presentation" "root"
         ["Certificate of attendance"; "Awarded to {{Name}}, thank you {{name}}"]
         false.

Definition stored : File :=
  mkFile "Certificate: Carla.pdf" "application/pdf" "dest"
         ["Certificate of attendance"; "Awarded to Carla, thank you Carla"] false.

Definition world : World :=
  mkWorld {["ss" := {["Sheet1" := roster]}]} true
          (<["tpl" := template]> {["cert-1" := stored]})
          {["dest"; "root"]} [].

(** The same roster without the certificate column. *)
Definition roster_two_columns : list (list JsVal) :=
  [[JStr "Name"; JStr "Email"];
   [JStr "Ana Silva"; JStr "ana@x.org"]].

(** A roster whose second row has the number 0 as its name. *)
Definition roster_zero : list (list JsVal) :=
  [[JStr "Name"; JStr "Email"; JStr "Certificate ID"];
   [JStr "Ana Silva"; JStr "ana@x.org"; JStr ""];
   [JNum 0; JStr "zero@x.org"; JStr ""]].

Definition world_two_columns : World :=
  mkWorld {["ss" := {["Sheet1" := roster_two_columns]}]} true
          {["tpl" := template]} {["dest"; "root"]} [].

Definition world_zero : World :=
  mkWorld {["ss" := {["Sheet1" := roster_zero]}]} true
          {["tpl" := template]} {["dest"; "root"]} [].


(** A roster with a column between the name and the email. *)
Definition roster_notes : list (list JsVal) :=
  [[JStr "Name"; JStr "Notes"; JStr "Email"; JStr "Certificate ID"];
   [JStr "Carla"; JStr "paid"; JStr "carla@x.org"; JStr ""]].

Definition world_notes : World :=
  mkWorld {["ss" := {["Sheet1" := roster_notes]}]} true
          (<["tpl" := template]> {["cert-1" := stored]})
          {["dest"; "root"]} [].

Definition config : Config := init "tpl" "dest" "{{name}}".

Definition processor : BatchProcessor.t :=
  BatchProcessor.deletePresentations true
    (BatchProcessor.setCertificatesIDColumnHeader (JStr "Certificate ID")
       (BatchProcessor.setEmailsColumnHeader (JStr "Email")
          (BatchProcessor.setNamesColumnHeader (JStr "Name")
             (BatchProcessor.setSheetName "Sheet1"
                (BatchProcessor.setSpreadsheetID "ss" BatchProcessor.new))))).

Definition ana : User.t :=
  User.mk (JStr "Ana Silva") (JStr "ana@x.org") (JStr "").

Definition carla : User.t :=
  User.mk (JStr "Carla") (JStr "carla@x.org") (JStr "cert-1").

(** The processor after [getUsersFromSheet] on the sample roster. *)
Definition processor_loaded : BatchProcessor.t :=
  BatchProcessor.set_users [ana; carla] processor.

Definition emailData : JsArg :=
  ArgObj (<["subject" := JStr "Your certificate"]> {["senderName" := JStr ""]}).

End Sample.

(* ===================================================================== *)
(** ** The module object (lines 363-400) and [getApp] (lines 408-410) *)
(* ===================================================================== *)

Module CertificateApp.

Definition newUser : User.t := User.new.
Definition newCertificate : Certificate.t := Certificate.new.
Definition newBatchProcessor : BatchProcessor.t := BatchProcessor.new.

End CertificateApp.

(* ===================================================================== *)
(** ** Notions used to state what the batch operations keep *)
(* ===================================================================== *)

(** The messages [sendEmail] gives rise to for one user: none without a
    certificate ID, one otherwise. *)
Definition mail_for (params : JsArg) (u : User.t) : list Mail :=
  if truthy (User._certificateID u)
  then [User.message u params (ToString (User._certificateID u))]
  else [].

(** A user whose certificate, if it has one, is a file of the world. *)
Definition certificate_on_file (w : World) (u : User.t) : Prop :=
  truthy (User._certificateID u) = true ->
  exists id, User._certificateID u = JStr id /\ is_Some (files w !! id).

(** A user as [getUsersFromSheet] builds them: three strings, none with
    white space at either end. *)
Definition trimmed (s : string) : Prop := starts_ws s = false /\ ends_ws s = false.

Definition loaded_shape (u : User.t) : Prop :=
  exists name email certificateID,
    u = User.mk (JStr name) (JStr email) (JStr certificateID) /\
    trimmed name /\ trimmed email /\ trimmed certificateID.

(** A string of white space only. *)
Fixpoint all_ws (s : string) : bool :=
  match s with
  | EmptyString => true
  | String c r => is_ws c && all_ws r
  end.

(** Two worlds that differ at most in Drive and in the trace. *)
Definition same_outside_drive (w w' : World) : Prop :=
  spreadsheets w' = spreadsheets w /\ folders w' = folders w /\
  activeSpreadsheet w' = activeSpreadsheet w.

(** A computation that, whatever its completion, changes at most Drive and
    the trace. *)
Definition drive_only {A} (m : M World A) : Prop :=
  forall w, same_outside_drive w (m w).2.

Definition drive_only_in {X A} (m : M (X * World) A) : Prop :=
  forall x w, same_outside_drive w (m (x, w)).2.2.

(** A certificate ID that a run of [createAllCertificates] in [w], ending
    in [w'], has made: new, not empty, and naming at the end a document
    that sits in the destination folder and is not trashed. *)
Definition made_between (cfg : Config) (w w' : World) (pdf : string) : Prop :=
  pdf <> "" /\ files w !! pdf = None /\
  exists f, files w' !! pdf = Some f /\
            f_parent f = DESTINATION_FOLDER_ID cfg /\ f_trashed f = false.

(** Every file of [w] is in [w'], unchanged. *)
Definition keeps_files (w w' : World) : Prop :=
  forall id f, files w !! id = Some f -> files w' !! id = Some f.

(** A row that passes the guard of line 306. *)
Definition passes_guard (namesColumn emailsColumn : Z) (row : list JsVal) : bool :=
  truthy (arr_get row namesColumn) && truthy (arr_get row emailsColumn).




(* ===================================================================== *)
(** ** Facts on traces *)
(* ===================================================================== *)

Lemma sent_mails_app tr1 tr2 :
  sent_mails (tr1 ++ tr2) = (sent_mails tr1 ++ sent_mails tr2)%list.
Proof. unfold sent_mails. apply flat_map_app. Qed.

Lemma batch_updates_app tr1 tr2 :
  batch_updates (tr1 ++ tr2) = (batch_updates tr1 ++ batch_updates tr2)%list.
Proof. unfold batch_updates. apply flat_map_app. Qed.

(* ===================================================================== *)
(** ** Basic facts on values *)
(* ===================================================================== *)

Lemma truthy_JStr s : truthy (JStr s) = true <-> s <> "".
Proof.
  simpl. destruct (String.eqb_spec s ""); simpl; split; intros; congruence.
Qed.

Lemma js_or_truthy a b : truthy a = true -> js_or a b = a.
Proof. unfold js_or. now intros ->. Qed.

Lemma js_or_falsy a b : truthy a = false -> js_or a b = b.
Proof. unfold js_or. now intros ->. Qed.

Lemma js_or_string_default (s : string) : js_or (JStr s) (JStr "") = JStr s.
Proof.
  unfold js_or. simpl. destruct (String.eqb_spec s ""); simpl; congruence.
Qed.

(** [trim] leaves no white space at either end. *)
Lemma trimStart_clean s : starts_ws (trimStart s) = false.
Proof.
  induction s as [| c s IH]; [reflexivity |].
  simpl. destruct (is_ws c) eqn:Hc; [exact IH | simpl; exact Hc].
Qed.

Lemma trimEnd_ends_clean s : ends_ws (trimEnd s) = false.
Proof.
  induction s as [| c s IH]; [reflexivity |].
  simpl. destruct (trimEnd s) as [| d r].
  - destruct (is_ws c) eqn:Hc; [reflexivity | simpl; exact Hc].
  - exact IH.
Qed.

Lemma trimEnd_starts_clean s : starts_ws s = false -> starts_ws (trimEnd s) = false.
Proof.
  destruct s as [| c s]; [reflexivity |]. simpl. intros Hc.
  destruct (trimEnd s); [by rewrite Hc | exact Hc].
Qed.

Lemma trim_clean s : starts_ws (trim s) = false /\ ends_ws (trim s) = false.
Proof.
  unfold trim. split; [apply trimEnd_starts_clean, trimStart_clean |].
  apply trimEnd_ends_clean.
Qed.

(* ===================================================================== *)
(** ** User: serialization *)
(* ===================================================================== *)

Lemma opt_get_toJSON_name u : opt_get (ArgObj (User.toJSON u)) "name" = User._name u.
Proof. unfold opt_get, User.toJSON. by simplify_map_eq. Qed.

Lemma opt_get_toJSON_email u : opt_get (ArgObj (User.toJSON u)) "email" = User._email u.
Proof. unfold opt_get, User.toJSON. by simplify_map_eq. Qed.

Lemma opt_get_toJSON_certificateID u :
  opt_get (ArgObj (User.toJSON u)) "certificateID" = User._certificateID u.
Proof. unfold opt_get, User.toJSON. by simplify_map_eq. Qed.

(** C6, as stated, fails: a User whose certificate ID was set to [null]
    (or to the number 0) comes back from [toJSON] and [fromJSON] with the
    empty string as certificate ID, so it is not equal in all three
    fields. *)
Lemma C6_counterexample :
  User._certificateID
    (User.fromJSON
       (ArgObj (User.toJSON (User.setCertificateID JNull Sample.ana))) User.new)
  = JStr ""
  /\ User.fromJSON
       (ArgObj (User.toJSON (User.setCertificateID JNull Sample.ana))) User.new
     <> User.setCertificateID JNull Sample.ana
  /\ User.fromJSON
       (ArgObj (User.toJSON (User.setCertificateID (JNum 0) Sample.ana))) User.new
     <> User.setCertificateID (JNum 0) Sample.ana.
Proof. vm_compute. repeat split; discriminate. Qed.

(** C6, amended.  [fromJSON] after [toJSON] always gives back the name and
    the email, whatever they hold, and gives back the certificate ID exactly
    when it is the empty string or a truthy value; so the User is equal in
    its three fields whenever its certificate ID is a string, empty or not.
    A certificate ID that is falsy comes back as the empty string.  A record
    that has a name and an email but no [certificateID] key is read with the
    certificate ID set to the empty string.  The state of the User that
    reads plays no part. *)
Theorem C6_fromJSON_toJSON_roundtrip :
  forall (r u0 : User.t) (o : gmap string JsVal),
    let r' := User.fromJSON (ArgObj (User.toJSON r)) u0 in
    User._name r' = User._name r
    /\ User._email r' = User._email r
    /\ (r' = r <->
        User._certificateID r = JStr "" \/ truthy (User._certificateID r) = true)
    /\ (is_string (User._certificateID r) -> r' = r)
    /\ (truthy (User._certificateID r) = false -> User._certificateID r' = JStr "")
    /\ (is_Some (o !! "name") -> is_Some (o !! "email") ->
        o !! "certificateID" = None ->
        User._certificateID (User.fromJSON (ArgObj o) u0) = JStr "").
Proof.
  intros [n e c] u0 o. cbn zeta. unfold User.fromJSON.
  rewrite opt_get_toJSON_name, opt_get_toJSON_email, opt_get_toJSON_certificateID.
  simpl.
  split; [reflexivity |]. split; [reflexivity |]. split; [| split; [| split]].
  - split.
    + intros Heq. injection Heq as Hc.
      destruct (truthy c) eqn:Ht; [by right | left].
      by rewrite (js_or_falsy _ _ Ht) in Hc.
    + intros [-> | Ht]; [reflexivity | by rewrite (js_or_truthy _ _ Ht)].
  - intros Hs. destruct c; try contradiction. by rewrite js_or_string_default.
  - apply js_or_falsy.
  - intros _ _ Hnone. by rewrite Hnone.
Qed.

(** C6 at Carla, who has a certificate, at Ana, who has none, and at a
    record with a name and an email only. *)
Lemma C6_witness :
  User.fromJSON (ArgObj (User.toJSON Sample.carla)) User.new = Sample.carla
  /\ User._certificateID Sample.carla = JStr "cert-1"
  /\ User.fromJSON (ArgObj (User.toJSON Sample.ana)) Sample.carla = Sample.ana
  /\ User._certificateID
       (User.fromJSON
          (ArgObj (<["name" := JStr "Ana Silva"]> {["email" := JStr "ana@x.org"]}))
          Sample.carla)
     = JStr "".
Proof.
  destruct (C6_fromJSON_toJSON_roundtrip
              Sample.carla User.new
              (<["name" := JStr "Ana Silva"]> {["email" := JStr "ana@x.org"]}))
    as (_ & _ & _ & Hcarla & _ & _).
  destruct (C6_fromJSON_toJSON_roundtrip
              Sample.ana Sample.carla
              (<["name" := JStr "Ana Silva"]> {["email" := JStr "ana@x.org"]}))
    as (_ & _ & Hana & _ & _ & Hkey).
  split; [apply Hcarla; exact I |]. split; [reflexivity |].
  split; [apply Hana; left; reflexivity |].
  apply Hkey.
  - eexists. vm_compute. reflexivity.
  - eexists. vm_compute. reflexivity.
  - vm_compute. reflexivity.
Defined.

(** C10, as stated, fails: a record whose [certificateID] is a number is
    read with that number as the certificate ID, which is then not a
    string. *)
Lemma C10_counterexample :
  ~ is_string
      (User._certificateID
         (User.fromJSON
            (ArgObj (<["name" := JStr "Ana"]>
                       (<["email" := JStr "ana@x.org"]>
                          (<["certificateID" := JNum 42]> ∅))))
            User.new)).
Proof. vm_compute. exact (fun H => H). Qed.

(** C10, amended.  [fromJSON] reads a missing [name] or [email] key as
    [undefined], and a missing [certificateID] key as the empty string.  The
    certificate ID is never [undefined] after [fromJSON]: it is the value
    the record holds under the key when that value is truthy, and the empty
    string otherwise, so it is a string whenever the record holds a string
    there or lacks the key. *)
Theorem C10_fromJSON_defaults :
  forall (o : gmap string JsVal) (u0 : User.t),
    let u := User.fromJSON (ArgObj o) u0 in
    (o !! "name" = None -> User._name u = JUndefined) /\
    (o !! "email" = None -> User._email u = JUndefined) /\
    (o !! "certificateID" = None -> User._certificateID u = JStr "") /\
    (User._certificateID u = JStr "" \/ truthy (User._certificateID u) = true) /\
    ((forall v, o !! "certificateID" = Some v -> is_string v) ->
     is_string (User._certificateID u)) /\
    (forall v, o !! "certificateID" = Some v ->
       User._certificateID u = if truthy v then v else JStr "").
Proof.
  intros o u0. cbn zeta. unfold User.fromJSON. simpl.
  repeat split.
  - by intros ->.
  - by intros ->.
  - by intros ->.
  - unfold js_or. destruct (truthy (default JUndefined (o !! "certificateID"))) eqn:E;
      [right; exact E | by left].
  - intros Hs. destruct (o !! "certificateID") as [v|] eqn:E; simpl.
    + specialize (Hs v eq_refl). destruct v; try contradiction.
      by rewrite js_or_string_default.
    + exact I.
  - intros v ->. reflexivity.
Qed.

(** C10 at a record that has only an email. *)
Lemma C10_witness :
  User._name (User.fromJSON (ArgObj (<["email" := JStr "ana@x.org"]> ∅)) User.new)
  = JUndefined
  /\ User._certificateID
       (User.fromJSON (ArgObj (<["email" := JStr "ana@x.org"]> ∅)) User.new)
     = JStr "".
Proof.
  pose proof (C10_fromJSON_defaults (<["email" := JStr "ana@x.org"]> ∅) User.new)
    as (Hn & _ & Hc & _).
  split; [apply Hn | apply Hc]; reflexivity.
Defined.

(* ===================================================================== *)
(** ** User: notification *)
(* ===================================================================== *)

Lemma sendEmail_falsy params u w :
  truthy (User._certificateID u) = false ->
  User.sendEmail params u w = (Ok tt, w).
Proof. intros H. unfold User.sendEmail. by rewrite H. Qed.

(** With a certificate ID that names a Drive file, [sendEmail] hands one
    message to the mail service and then gives feedback; the toast is what
    can still fail. *)
Lemma sendEmail_sends params u w id f :
  User._certificateID u = JStr id -> id <> "" ->
  files w !! id = Some f ->
  exists o w',
    User.sendEmail params u w = (o, w') /\
    o = (if activeSpreadsheet w then Ok tt
         else Throw (TypeError "Cannot read properties of null (reading 'toast')")) /\
    files w' = files w /\ spreadsheets w' = spreadsheets w /\
    folders w' = folders w /\ activeSpreadsheet w' = activeSpreadsheet w /\
    trace w' =
      (trace w ++
       [EvSendEmail (User.message u params id);
        EvConsoleLog ("Email to " +:+ ToString (User._name u) +:+ " successfully sent")] ++
       (if activeSpreadsheet w
        then [EvToast ("Email to " +:+ ToString (User._name u) +:+ " successfully sent")]
        else []))%list.
Proof.
  intros Hid Hne Hf. unfold User.sendEmail. rewrite Hid.
  apply truthy_JStr in Hne. rewrite Hne. simpl.
  unfold bind, DriveApp_getFileById. rewrite Hf.
  unfold MailApp_sendEmail, showFeedback, emit, modify, bind, gets. simpl.
  destruct (activeSpreadsheet w) eqn:Ha; simpl.
  - eexists _, _. split; [reflexivity |]. simpl.
    rewrite <- !app_assoc. simpl. by repeat split.
  - unfold throw. eexists _, _. split; [reflexivity |]. simpl.
    rewrite <- !app_assoc. simpl. by repeat split.
Qed.

(** C7.  With an empty certificate ID, [sendEmail] returns normally and
    leaves the world as it was, whatever the parameters: nothing is sent.
    With a non-empty certificate ID that names a Drive file, exactly one
    message is sent: its only attachment is that file, it goes to the
    user's email, and each of subject, body and sender name is the
    parameter when it is provided (a truthy value) and otherwise the default
    (for the body, the text with the user's name spliced in; for the sender
    name, the empty string). *)
Theorem C7_sendEmail :
  forall (u : User.t) (params : JsArg) (w : World),
    (User._certificateID u = JStr "" -> User.sendEmail params u w = (Ok tt, w)) /\
    (forall id, User._certificateID u = JStr id -> id <> "" ->
       is_Some (files w !! id) ->
       exists o w' m,
         User.sendEmail params u w = (o, w') /\
         sent_mails (trace w') = (sent_mails (trace w) ++ [m])%list /\
         m_attachments m = [id] /\
         m_to m = User._email u /\
         (truthy (opt_get params "subject") = true ->
            m_subject m = opt_get params "subject") /\
         (truthy (opt_get params "subject") = false ->
            m_subject m = JStr User.default_subject) /\
         (truthy (opt_get params "htmlBody") = true ->
            m_htmlBody m = opt_get params "htmlBody") /\
         (truthy (opt_get params "htmlBody") = false ->
            m_htmlBody m = JStr (User.default_htmlBody (User._name u))) /\
         (truthy (opt_get params "senderName") = true ->
            m_name m = opt_get params "senderName") /\
         (truthy (opt_get params "senderName") = false ->
            m_name m = JStr "")).
Proof.
  intros u params w. split.
  - intros H. apply sendEmail_falsy. by rewrite H.
  - intros id Hid Hne [f Hf].
    destruct (sendEmail_sends params u w id f Hid Hne Hf)
      as (o & w' & Hrun & _ & _ & _ & _ & _ & Htr).
    exists o, w', (User.message u params id).
    split; [exact Hrun |]. split.
    + rewrite Htr, sent_mails_app. f_equal.
      destruct (activeSpreadsheet w); reflexivity.
    + split; [reflexivity |]. split; [reflexivity |]. simpl.
      repeat split; (apply js_or_truthy || apply js_or_falsy).
Qed.

(** C7 at the sample world: nothing is sent for a user without a
    certificate, one message for Carla. *)
Lemma C7_witness :
  User.sendEmail Sample.emailData
    (User.setCertificateID (JStr "") Sample.carla) Sample.world
  = (Ok tt, Sample.world)
  /\ exists o w' m,
       User.sendEmail Sample.emailData Sample.carla Sample.world = (o, w') /\
       sent_mails (trace w') = [m] /\
       m_attachments m = ["cert-1"] /\
       m_subject m = JStr "Your certificate" /\
       m_name m = JStr "".
Proof.
  destruct (C7_sendEmail (User.setCertificateID (JStr "") Sample.carla)
              Sample.emailData Sample.world) as [Hempty _].
  split; [apply Hempty; reflexivity |].
  destruct (C7_sendEmail Sample.carla Sample.emailData Sample.world) as [_ Hsend].
  destruct (Hsend "cert-1") as (o & w' & m & Hrun & Hsent & Hatt & _ & Hs & _ & _ & _ & _ & Hn).
  - reflexivity.
  - discriminate.
  - eexists. vm_compute. reflexivity.
  - exists o, w', m. repeat split.
    + exact Hrun.
    + exact Hsent.
    + exact Hatt.
    + apply Hs. vm_compute. reflexivity.
    + apply Hn. vm_compute. reflexivity.
Defined.

(* ===================================================================== *)
(** ** BatchProcessor: loading the roster *)
(* ===================================================================== *)

Section Load.

Variables namesColumn emailsColumn certificatesIDColumn : Z.

Abbreviation load := (BatchProcessor.load_row namesColumn emailsColumn certificatesIDColumn).
Abbreviation skip := (BatchProcessor.skipped namesColumn emailsColumn).
Abbreviation recipient :=
  (BatchProcessor.recipient_of_row namesColumn emailsColumn certificatesIDColumn).

Lemma truthy_has_toString v :
  truthy v = true -> BatchProcessor.has_toString v = true.
Proof. by destruct v. Qed.

(** One row: skipped, or refused because the certificate cell has no
    [toString], or pushed. *)
Lemma load_row_spec row bp w :
  load row (bp, w) =
    if skip row then (Ok tt, (bp, w))
    else if BatchProcessor.has_toString (arr_get row certificatesIDColumn)
    then (Ok tt, (BatchProcessor.set_users
                    (BatchProcessor._users bp ++ [recipient row]) bp, w))
    else (Throw (TypeError
                   ("Cannot read properties of "
                    +:+ ToString (arr_get row certificatesIDColumn)
                    +:+ " (reading 'toString')")), (bp, w)).
Proof.
  unfold BatchProcessor.load_row, BatchProcessor.skipped.
  destruct (truthy (arr_get row namesColumn)) eqn:Hn; simpl; [| reflexivity].
  destruct (truthy (arr_get row emailsColumn)) eqn:He; simpl; [| reflexivity].
  unfold BatchProcessor.recipient_of_row.
  destruct (arr_get row namesColumn) eqn:En; try discriminate;
  destruct (arr_get row emailsColumn) eqn:Ee; try discriminate;
  destruct (arr_get row certificatesIDColumn) eqn:Ec; reflexivity.
Qed.

(** The loop over the data rows pushes onto whatever [_users] holds, and
    reads the same users whatever it holds. *)
Lemma forEach_load_row_appends data :
  forall bp w,
    forEach load data (bp, w) =
      ((forEach load data (BatchProcessor.set_users [] bp, w)).1,
       (BatchProcessor.set_users
          (BatchProcessor._users bp ++
           BatchProcessor._users
             (forEach load data (BatchProcessor.set_users [] bp, w)).2.1) bp,
        w)).
Proof.
  induction data as [| row data IH]; intros bp w.
  - simpl. rewrite app_nil_r. by destruct bp.
  - cbn [forEach]. unfold bind. rewrite !load_row_spec.
    destruct (skip row); [apply IH |].
    destruct (BatchProcessor.has_toString (arr_get row certificatesIDColumn)).
    + rewrite IH.
      rewrite (IH (BatchProcessor.set_users
                     (BatchProcessor._users (BatchProcessor.set_users [] bp)
                      ++ [recipient row])
                     (BatchProcessor.set_users [] bp)) w).
      simpl. by rewrite <- app_assoc.
    + simpl. rewrite app_nil_r. by destruct bp.
Qed.

(** When every row that passes the guard has a certificate cell with a
    string value, the loop returns normally and pushes one user per such
    row, in row order. *)
Lemma forEach_load_row_ok data :
  Forall (fun row => skip row = false ->
                     BatchProcessor.has_toString (arr_get row certificatesIDColumn) = true)
         data ->
  forall bp w,
    forEach load data (bp, w) =
      (Ok tt,
       (BatchProcessor.set_users
          (BatchProcessor._users bp ++
           map recipient (List.filter (fun row => negb (skip row)) data)) bp,
        w)).
Proof.
  induction 1 as [| row data Hrow _ IH]; intros bp w.
  - simpl. rewrite app_nil_r. by destruct bp.
  - cbn [forEach List.filter]. unfold bind. rewrite load_row_spec.
    destruct (skip row) eqn:Hs; simpl.
    + apply IH.
    + rewrite (Hrow eq_refl). rewrite IH. simpl. by rewrite <- app_assoc.
Qed.

(** The loop stops at the first row that passes the guard and whose
    certificate cell has no [toString]; up to there it pushes one user per
    row that passes the guard, in row order, onto what [_users] holds. *)
Lemma forEach_load_row_prefix data :
  forall bp w,
    exists (k : nat) (o : Outcome unit),
      k <= length data /\
      forEach load data (bp, w) =
        (o,
         (BatchProcessor.set_users
            (BatchProcessor._users bp ++
             map recipient (List.filter (fun row => negb (skip row)) (take k data)))
            bp,
          w)) /\
      (o = Ok tt /\ k = length data \/
       exists row,
         data !! k = Some row /\ skip row = false /\
         BatchProcessor.has_toString (arr_get row certificatesIDColumn) = false /\
         o = Throw (TypeError
                      ("Cannot read properties of "
                       +:+ ToString (arr_get row certificatesIDColumn)
                       +:+ " (reading 'toString')"))).
Proof.
  induction data as [| row data IH]; intros bp w.
  - exists 0, (Ok tt). simpl. rewrite app_nil_r.
    split; [lia |]. split; [by destruct bp | by left].
  - cbn [forEach]. unfold bind. rewrite load_row_spec.
    destruct (skip row) eqn:Hs.
    + destruct (IH bp w) as (k & o & Hk & Hrun & Hend).
      exists (S k), o. cbn [take firstn List.filter length]. rewrite Hs. simpl negb.
      cbv iota. split; [lia |]. split; [exact Hrun |].
      destruct Hend as [[-> ->] | Hrow]; [by left | right; exact Hrow].
    + destruct (BatchProcessor.has_toString (arr_get row certificatesIDColumn)) eqn:Ht.
      * destruct (IH (BatchProcessor.set_users
                        (BatchProcessor._users bp ++ [recipient row]) bp) w)
          as (k & o & Hk & Hrun & Hend).
        exists (S k), o. cbn [take firstn List.filter length]. rewrite Hs. simpl negb.
        cbv iota. split; [lia |]. split.
        -- rewrite Hrun. simpl. by rewrite <- app_assoc.
        -- destruct Hend as [[-> ->] | Hrow]; [by left | right; exact Hrow].
      * eexists 0, _. simpl. rewrite app_nil_r.
        split; [lia |]. split; [by destruct bp |].
        right. exists row. by repeat split.
Qed.

End Load.

(** [getUsersFromSheet], with the monad unfolded: the two ways in which the
    sheet can be missing, and then the loop over the data rows. *)
Lemma getUsersFromSheet_unfold bp w :
  BatchProcessor.getUsersFromSheet (bp, w) =
    match spreadsheets w !! BatchProcessor._spreadsheetID bp with
    | None => (Throw (ServiceError "spreadsheet not found"), (bp, w))
    | Some book =>
        match book !! BatchProcessor._sheetName bp with
        | None =>
            (Throw (TypeError "Cannot read properties of null (reading 'getDataRange')"),
             (bp, w))
        | Some g =>
            match data_range_values g with
            | [] =>
                (Throw (TypeError
                          "Cannot read properties of undefined (reading 'indexOf')"),
                 (bp, w))
            | headers :: data =>
                forEach
                  (BatchProcessor.load_row
                     (indexOf headers (BatchProcessor._namesColumnHeader bp))
                     (indexOf headers (BatchProcessor._emailsColumnHeader bp))
                     (indexOf headers (BatchProcessor._certificatesIDColumnHeader bp)))
                  data (bp, w)
            end
        end
    end.
Proof.
  unfold BatchProcessor.getUsersFromSheet, BatchProcessor.open_sheet.
  unfold bind, gets, liftW, SpreadsheetApp_openById, Spreadsheet_getSheetByName,
    Sheet_getDataRange_getValues, with_grid, deref, ret, throw.
  simpl.
  destruct (spreadsheets w !! BatchProcessor._spreadsheetID bp) as [book |] eqn:Hb;
    simpl; [| reflexivity].
  rewrite Hb. simpl.
  destruct (book !! BatchProcessor._sheetName bp) as [g |] eqn:Hg; simpl; [| reflexivity].
  rewrite Hb. simpl. rewrite Hg.
  destruct (data_range_values g); reflexivity.
Qed.

Lemma set_users_same bp : BatchProcessor.set_users (BatchProcessor._users bp) bp = bp.
Proof. by destruct bp. Qed.

(** C8.  [getUsersFromSheet] appends what it reads from the sheet to what
    [_users] holds, and never resets the list.  With the sheet at hand, the
    list after the call is the list before it followed by one user for each
    data row that passes the guard of line 306, in row order, up to the
    first such row whose certificate cell has no [toString] (where the call
    ends with a [TypeError]) or, when there is no such row, to the last
    row, and the call then returns normally; a further call appends the same
    users once more.  Without the sheet the call fails and the list is as
    it was.  In every case the list after the call is the list before it
    followed by what the same call reads into an empty list, and the
    completion and the world do not depend on what the list held. *)
Theorem C8_getUsersFromSheet_accumulates :
  forall (bp : BatchProcessor.t) (w : World),
    (forall (book : gmap string (list (list JsVal))) (g : list (list JsVal))
            (headers : list JsVal) (data : list (list JsVal)),
       spreadsheets w !! BatchProcessor._spreadsheetID bp = Some book ->
       book !! BatchProcessor._sheetName bp = Some g ->
       data_range_values g = headers :: data ->
       let namesColumn := indexOf headers (BatchProcessor._namesColumnHeader bp) in
       let emailsColumn := indexOf headers (BatchProcessor._emailsColumnHeader bp) in
       let certificatesIDColumn :=
         indexOf headers (BatchProcessor._certificatesIDColumnHeader bp) in
       let read (k : nat) :=
         map (BatchProcessor.recipient_of_row namesColumn emailsColumn
                                              certificatesIDColumn)
             (List.filter (passes_guard namesColumn emailsColumn) (take k data)) in
       exists (k : nat) (o : Outcome unit),
         k <= length data /\
         BatchProcessor.getUsersFromSheet (bp, w) =
           (o, (BatchProcessor.set_users (BatchProcessor._users bp ++ read k) bp, w)) /\
         (o = Ok tt /\ k = length data \/
          exists row e,
            data !! k = Some row /\
            passes_guard namesColumn emailsColumn row = true /\
            BatchProcessor.has_toString (arr_get row certificatesIDColumn) = false /\
            o = Throw (TypeError e)) /\
         (Forall (fun row =>
                    passes_guard namesColumn emailsColumn row = true ->
                    BatchProcessor.has_toString (arr_get row certificatesIDColumn)
                    = true) data ->
          o = Ok tt /\ k = length data) /\
         BatchProcessor.getUsersFromSheet
           (BatchProcessor.set_users (BatchProcessor._users bp ++ read k) bp, w) =
           (o, (BatchProcessor.set_users
                  (BatchProcessor._users bp ++ read k ++ read k) bp, w)))
    /\ (spreadsheets w !! BatchProcessor._spreadsheetID bp = None \/
        (exists book, spreadsheets w !! BatchProcessor._spreadsheetID bp = Some book /\
                      book !! BatchProcessor._sheetName bp = None) ->
        exists e, BatchProcessor.getUsersFromSheet (bp, w) = (Throw e, (bp, w)))
    /\ (let fresh_run :=
          BatchProcessor.getUsersFromSheet (BatchProcessor.set_users [] bp, w) in
        BatchProcessor.getUsersFromSheet (bp, w) =
          (fresh_run.1,
           (BatchProcessor.set_users
              (BatchProcessor._users bp ++ BatchProcessor._users fresh_run.2.1) bp,
            w))).
Proof.
  intros bp w.
  assert (Hacc : forall bp0,
            BatchProcessor.getUsersFromSheet (bp0, w) =
              ((BatchProcessor.getUsersFromSheet
                  (BatchProcessor.set_users [] bp0, w)).1,
               (BatchProcessor.set_users
                  (BatchProcessor._users bp0 ++
                   BatchProcessor._users
                     (BatchProcessor.getUsersFromSheet
                        (BatchProcessor.set_users [] bp0, w)).2.1) bp0,
                w))).
  { intros bp0. rewrite !getUsersFromSheet_unfold. simpl.
    destruct (spreadsheets w !! BatchProcessor._spreadsheetID bp0) as [book |];
      [| simpl; by rewrite app_nil_r, set_users_same].
    destruct (book !! BatchProcessor._sheetName bp0) as [g |];
      [| simpl; by rewrite app_nil_r, set_users_same].
    destruct (data_range_values g) as [| headers data];
      [simpl; by rewrite app_nil_r, set_users_same |].
    apply forEach_load_row_appends. }
  split; [| split; [| exact (Hacc bp)]].
  - intros book g headers data Hb Hg Hv n e c read.
    assert (Hskip : forall row,
              negb (BatchProcessor.skipped n e row) = passes_guard n e row).
    { intros row. unfold BatchProcessor.skipped, passes_guard.
      by rewrite negb_orb, !negb_involutive. }
    assert (Hread : forall k,
              map (BatchProcessor.recipient_of_row n e c)
                  (List.filter (fun row => negb (BatchProcessor.skipped n e row))
                               (take k data)) = read k).
    { intros k. unfold read. f_equal. apply List.filter_ext. exact Hskip. }
    destruct (forEach_load_row_prefix n e c data bp w)
      as (k & o & Hk & Hloop & Hend).
    rewrite Hread in Hloop.
    assert (Hrun : BatchProcessor.getUsersFromSheet (bp, w) =
                     (o, (BatchProcessor.set_users
                            (BatchProcessor._users bp ++ read k) bp, w))).
    { rewrite getUsersFromSheet_unfold, Hb, Hg, Hv. exact Hloop. }
    exists k, o. split; [exact Hk |]. split; [exact Hrun |].
    split; [| split].
    + destruct Hend as [Hok | (row & Hrow & Hs & Ht & ->)]; [by left | right].
      eexists row, _. split; [exact Hrow |].
      split; [by rewrite <- Hskip, Hs |]. split; [exact Ht | reflexivity].
    + intros Hall.
      destruct Hend as [Hok | (row & Hrow & Hs & Ht & _)]; [exact Hok |].
      rewrite Forall_lookup in Hall. specialize (Hall k row Hrow).
      rewrite <- Hskip, Hs in Hall. specialize (Hall eq_refl). congruence.
    + pose proof (Hacc bp) as H1. rewrite Hrun in H1.
      injection H1 as Ho Hus.
      assert (Hnew : read k =
                BatchProcessor._users
                  (BatchProcessor.getUsersFromSheet
                     (BatchProcessor.set_users [] bp, w)).2.1).
      { by apply app_inv_head in Hus. }
      rewrite Hacc.
      change (BatchProcessor.set_users []
                (BatchProcessor.set_users (BatchProcessor._users bp ++ read k) bp))
        with (BatchProcessor.set_users [] bp).
      rewrite <- Ho, <- Hnew. simpl. by rewrite <- app_assoc.
  - rewrite getUsersFromSheet_unfold.
    intros [-> | (book & -> & ->)]; eexists; reflexivity.
Qed.

(** C8 at the sample roster, read by a processor that has read it before:
    Ana and Carla are in the list twice, and three times after one more
    call. *)
Lemma C8_witness :
  BatchProcessor.getUsersFromSheet (Sample.processor_loaded, Sample.world) =
    (Ok tt,
     (BatchProcessor.set_users
        [Sample.ana; Sample.carla; Sample.ana; Sample.carla] Sample.processor,
      Sample.world))
  /\ BatchProcessor.getUsersFromSheet
       (BatchProcessor.set_users
          [Sample.ana; Sample.carla; Sample.ana; Sample.carla] Sample.processor,
        Sample.world) =
     (Ok tt,
      (BatchProcessor.set_users
         [Sample.ana; Sample.carla; Sample.ana; Sample.carla;
          Sample.ana; Sample.carla] Sample.processor,
       Sample.world)).
Proof.
  destruct (C8_getUsersFromSheet_accumulates Sample.processor_loaded Sample.world)
    as [Hread _].
  destruct (Hread {["Sheet1" := Sample.roster]} Sample.roster
                  [JStr "Name"; JStr "Email"; JStr "Certificate ID"]
                  (tail Sample.roster))
    as (k & o & _ & Hrun & _ & Hall & Hagain).
  - vm_compute. reflexivity.
  - vm_compute. reflexivity.
  - vm_compute. reflexivity.
  - destruct Hall as [-> ->]; [repeat constructor |].
    split; [exact Hrun | exact Hagain].
Defined.

(** *** The certificate column, when its header is found *)

Lemma indexOf_from_bound a x i :
  indexOf_from a x i = (-1)%Z \/
  (i <= indexOf_from a x i < i + Z.of_nat (length a))%Z.
Proof.
  revert i. induction a as [| y a IH]; intros i; simpl; [by left |].
  destruct (strict_eq y x); [right; lia |].
  destruct (IH (i + 1)%Z) as [-> | H]; [by left | right; lia].
Qed.

Lemma elem_of_range_values g r0 c0 numRows numCols row :
  row ∈ range_values g r0 c0 numRows numCols ->
  exists r, row = map (fun c => cellAt g r c) (seq c0 numCols).
Proof.
  unfold range_values. intros Hin.
  apply list_elem_of_fmap in Hin as (r & -> & _). by exists r.
Qed.

(** In a grid whose cells all have a string value, as the cells of a sheet
    do, a header that is found gives every data row a certificate cell with
    a string value: the hypothesis of the loop is then met. *)
Lemma resolved_column_has_toString g headers data x :
  data_range_values g = headers :: data ->
  (forall r k, BatchProcessor.has_toString (cellAt g r k) = true) ->
  (0 <= indexOf headers x)%Z ->
  Forall (fun row => BatchProcessor.has_toString (arr_get row (indexOf headers x)) = true)
         data.
Proof.
  intros Hv Hcells Hfound.
  set (C := Nat.max 1 (getLastColumn g)).
  assert (Hrows : forall row, row ∈ headers :: data ->
                              exists r, row = map (fun c => cellAt g r c) (seq 0 C)).
  { intros row Hin. rewrite <- Hv in Hin. by apply elem_of_range_values in Hin. }
  destruct (Hrows headers) as [r0 Hh]; [apply list_elem_of_here |].
  assert (Hlt : (indexOf headers x < Z.of_nat C)%Z).
  { assert (Hlen : length headers = C) by (by rewrite Hh, length_map, length_seq).
    destruct (indexOf_from_bound headers x 0) as [H | H]; unfold indexOf in *; lia. }
  apply Forall_forall. intros row Hin.
  destruct (Hrows row) as [r ->]; [by apply list_elem_of_further |].
  unfold arr_get. destruct (Z.ltb_spec (indexOf headers x) 0); [lia |].
  rewrite list_lookup_fmap, lookup_seq_lt by lia. simpl. apply Hcells.
Qed.

(** C1, as stated, fails: in a roster whose second data row has the number
    0 in the name cell and an address in the email cell, neither cell is
    empty, and the row gives no user: only the first data row is loaded. *)
Lemma C1_counterexample :
  exists row,
    tail (data_range_values Sample.roster_zero) !! 1%nat = Some row /\
    arr_get row 0 <> JStr "" /\ arr_get row 0 <> JUndefined /\
    arr_get row 1 <> JStr "" /\ arr_get row 1 <> JUndefined /\
    BatchProcessor.getUsersFromSheet (Sample.processor, Sample.world_zero) =
      (Ok tt,
       (BatchProcessor.set_users
          [User.mk (JStr "Ana Silva") (JStr "ana@x.org") (JStr "")]
          Sample.processor,
        Sample.world_zero)).
Proof.
  exists [JNum 0; JStr "zero@x.org"; JStr ""].
  split; [reflexivity |].
  repeat (split; [discriminate |]).
  rewrite getUsersFromSheet_unfold. reflexivity.
Qed.

(** C1, amended.  When every row that passes the guard of line 306 has a
    certificate cell with a string value (the certificate column is
    resolved), [getUsersFromSheet] returns normally, leaves the world as it
    was, and pushes one user for every data row whose name cell and email
    cell are both truthy, in row order; the user's three fields are the
    string values of the three cells, trimmed.  A row whose name or email
    cell is the empty string or absent gives no user, and a row whose name
    and email cells are non-empty strings gives one. *)
Theorem C1_getUsersFromSheet_loads_valid_rows :
  forall (bp : BatchProcessor.t) (w : World) (book : gmap string (list (list JsVal)))
         (g : list (list JsVal)) (headers : list JsVal) (data : list (list JsVal)),
    spreadsheets w !! BatchProcessor._spreadsheetID bp = Some book ->
    book !! BatchProcessor._sheetName bp = Some g ->
    data_range_values g = headers :: data ->
    let namesColumn := indexOf headers (BatchProcessor._namesColumnHeader bp) in
    let emailsColumn := indexOf headers (BatchProcessor._emailsColumnHeader bp) in
    let certificatesIDColumn :=
      indexOf headers (BatchProcessor._certificatesIDColumnHeader bp) in
    let loaded (row : list JsVal) :=
      truthy (arr_get row namesColumn) && truthy (arr_get row emailsColumn) in
    Forall (fun row => loaded row = true ->
                       BatchProcessor.has_toString (arr_get row certificatesIDColumn) = true)
           data ->
    BatchProcessor.getUsersFromSheet (bp, w) =
      (Ok tt,
       (BatchProcessor.set_users
          (BatchProcessor._users bp ++
           map (BatchProcessor.recipient_of_row namesColumn emailsColumn
                                                certificatesIDColumn)
               (List.filter loaded data)) bp,
        w))
    /\ (forall row, arr_get row namesColumn = JStr "" \/
                    arr_get row namesColumn = JUndefined \/
                    arr_get row emailsColumn = JStr "" \/
                    arr_get row emailsColumn = JUndefined ->
                    loaded row = false)
    /\ (forall row s1 s2, arr_get row namesColumn = JStr s1 ->
                          arr_get row emailsColumn = JStr s2 ->
                          s1 <> "" -> s2 <> "" -> loaded row = true).
Proof.
  intros bp w book g headers data Hb Hg Hv n e c loaded Hall.
  assert (Hskip : forall row, negb (BatchProcessor.skipped n e row) = loaded row).
  { intros row. unfold BatchProcessor.skipped, loaded.
    by rewrite negb_orb, !negb_involutive. }
  split; [| split].
  - rewrite getUsersFromSheet_unfold, Hb, Hg, Hv. fold n e c.
    rewrite forEach_load_row_ok.
    + do 5 f_equal. apply List.filter_ext. exact Hskip.
    + eapply Forall_impl; [exact Hall |].
      intros row Hrow Hs. apply Hrow. rewrite <- Hskip. by rewrite Hs.
  - intros row [H | [H | [H | H]]]; unfold loaded; rewrite H; simpl;
      by rewrite ?andb_false_r.
  - intros row s1 s2 H1 H2 Hn1 Hn2. unfold loaded. rewrite H1, H2.
    apply truthy_JStr in Hn1, Hn2. by rewrite Hn1, Hn2.
Qed.

(** C1 at the sample roster: Ana and Carla are loaded, Bob (no email) is
    not. *)
Lemma C1_witness :
  BatchProcessor.getUsersFromSheet (Sample.processor, Sample.world) =
    (Ok tt,
     (BatchProcessor.set_users
        [User.mk (JStr "Ana Silva") (JStr "ana@x.org") (JStr ""); Sample.carla]
        Sample.processor,
      Sample.world)).
Proof.
  destruct (C1_getUsersFromSheet_loads_valid_rows
              Sample.processor Sample.world {["Sheet1" := Sample.roster]}
              Sample.roster
              [JStr "Name"; JStr "Email"; JStr "Certificate ID"]
              (tail Sample.roster))
    as [Hrun _].
  - vm_compute. reflexivity.
  - vm_compute. reflexivity.
  - vm_compute. reflexivity.
  - repeat constructor.
  - exact Hrun.
Defined.

(** A header that the header row does not hold resolves to -1, and a dense
    array has nothing at -1. *)
Lemma arr_get_unresolved row : arr_get row (-1) = JUndefined.
Proof. reflexivity. Qed.

(** Whenever the certificate header is not in the header row, the first row
    that passes the guard of line 306 ends the loop with a [TypeError]. *)
Lemma load_row_unresolved_throws n e row bp w :
  BatchProcessor.skipped n e row = false ->
  BatchProcessor.load_row n e (-1) row (bp, w) =
    (Throw (TypeError "Cannot read properties of undefined (reading 'toString')"),
     (bp, w)).
Proof. intros Hs. rewrite load_row_spec, Hs. reflexivity. Qed.

(** The loop with the certificate header not found: the rows before the
    first one that passes the guard are skipped, and that one ends the loop;
    nothing is pushed. *)
Lemma forEach_load_row_unresolved n e data :
  Exists (fun row => BatchProcessor.skipped n e row = false) data ->
  forall bp w,
    forEach (BatchProcessor.load_row n e (-1)) data (bp, w) =
      (Throw (TypeError "Cannot read properties of undefined (reading 'toString')"),
       (bp, w)).
Proof.
  intros Hex bp w. induction data as [| row data IH]; [by apply Exists_nil in Hex |].
  cbn [forEach]. unfold bind.
  destruct (BatchProcessor.skipped n e row) eqn:Hs.
  - rewrite load_row_spec, Hs. apply IH.
    apply Exists_cons in Hex as [Hrow | Hrest]; [congruence | exact Hrest].
  - by rewrite (load_row_unresolved_throws n e row bp w Hs).
Qed.

(** With the column present and the cell empty, the row is loaded and the
    certificate ID is the empty string. *)
Lemma load_row_empty_certificate_cell n e c row bp w :
  BatchProcessor.skipped n e row = false ->
  arr_get row c = JStr "" ->
  exists user,
    BatchProcessor.load_row n e c row (bp, w) =
      (Ok tt, (BatchProcessor.set_users (BatchProcessor._users bp ++ [user]) bp, w)) /\
    User._certificateID user = JStr "".
Proof.
  intros Hs Hc. eexists. rewrite load_row_spec, Hs, Hc. simpl.
  split; [reflexivity |]. simpl. by rewrite Hc.
Qed.

(** C4, on the code.  When the certificate header is not in the header row
    and some data row has a truthy name cell and a truthy email cell,
    [getUsersFromSheet] does not load that row with an empty certificate ID:
    it ends with the [TypeError] of [undefined.toString()] (line 309) and
    [_users] is as it was. *)
Theorem C4_getUsersFromSheet_unresolved_certificate_column :
  forall (bp : BatchProcessor.t) (w : World) (book : gmap string (list (list JsVal)))
         (g : list (list JsVal)) (headers : list JsVal) (data : list (list JsVal)),
    spreadsheets w !! BatchProcessor._spreadsheetID bp = Some book ->
    book !! BatchProcessor._sheetName bp = Some g ->
    data_range_values g = headers :: data ->
    indexOf headers (BatchProcessor._certificatesIDColumnHeader bp) = (-1)%Z ->
    Exists (fun row =>
              truthy (arr_get row (indexOf headers (BatchProcessor._namesColumnHeader bp)))
              && truthy (arr_get row (indexOf headers (BatchProcessor._emailsColumnHeader bp)))
              = true)
           data ->
    BatchProcessor.getUsersFromSheet (bp, w) =
      (Throw (TypeError "Cannot read properties of undefined (reading 'toString')"),
       (bp, w)).
Proof.
  intros bp w book g headers data Hb Hg Hv Hc Hex.
  rewrite getUsersFromSheet_unfold, Hb, Hg, Hv, Hc.
  apply forEach_load_row_unresolved.
  eapply Exists_impl; [exact Hex |].
  intros row Hrow. unfold BatchProcessor.skipped.
  apply andb_prop in Hrow as [-> ->]. reflexivity.
Qed.

(** C4 at the roster without a certificate column. *)
Lemma C4_witness :
  BatchProcessor.getUsersFromSheet (Sample.processor, Sample.world_two_columns) =
    (Throw (TypeError "Cannot read properties of undefined (reading 'toString')"),
     (Sample.processor, Sample.world_two_columns)).
Proof.
  apply (C4_getUsersFromSheet_unresolved_certificate_column
           Sample.processor Sample.world_two_columns
           {["Sheet1" := Sample.roster_two_columns]} Sample.roster_two_columns
           [JStr "Name"; JStr "Email"] [[JStr "Ana Silva"; JStr "ana@x.org"]]).
  - vm_compute. reflexivity.
  - vm_compute. reflexivity.
  - vm_compute. reflexivity.
  - vm_compute. reflexivity.
  - apply Exists_cons_hd. vm_compute. reflexivity.
Defined.

(* ===================================================================== *)
(** ** BatchProcessor: saving the roster *)
(* ===================================================================== *)

Lemma getMaxColumns_pos g : (1 <=? getMaxColumns g)%nat = true.
Proof. apply Nat.leb_le. unfold getMaxColumns. lia. Qed.

(** [saveUsersToSheet], with the monad unfolded. *)
Lemma saveUsersToSheet_unfold bp w :
  BatchProcessor.saveUsersToSheet (bp, w) =
    match spreadsheets w !! BatchProcessor._spreadsheetID bp with
    | None => (Throw (ServiceError "spreadsheet not found"), (bp, w))
    | Some book =>
        match book !! BatchProcessor._sheetName bp with
        | None =>
            (Throw (TypeError "Cannot read properties of null (reading 'getRange')"),
             (bp, w))
        | Some g =>
            let headers := BatchProcessor.live_headers g in
            let rows :=
              map (BatchProcessor.build_row
                     (indexOf headers (BatchProcessor._namesColumnHeader bp))
                     (indexOf headers (BatchProcessor._emailsColumnHeader bp))
                     (indexOf headers (BatchProcessor._certificatesIDColumnHeader bp)))
                  (BatchProcessor._users bp) in
            match rows with
            | [] =>
                (Throw (TypeError
                          "Cannot read properties of undefined (reading 'length')"),
                 (bp, w))
            | row0 :: _ =>
                liftW (range <- Sheet_getRange
                                  (BatchProcessor._spreadsheetID bp,
                                   BatchProcessor._sheetName bp)
                                  2 1 (length rows) (length row0) ;;
                       Range_setValues range rows) (bp, w)
            end
        end
    end.
Proof.
  destruct (spreadsheets w !! BatchProcessor._spreadsheetID bp) as [book |] eqn:Hb.
  2:{ unfold BatchProcessor.saveUsersToSheet, BatchProcessor.open_sheet.
      unfold bind, gets, liftW, SpreadsheetApp_openById. simpl. by rewrite Hb. }
  destruct (book !! BatchProcessor._sheetName bp) as [g |] eqn:Hg.
  2:{ unfold BatchProcessor.saveUsersToSheet, BatchProcessor.open_sheet.
      unfold bind, gets, liftW, SpreadsheetApp_openById, Spreadsheet_getSheetByName.
      simpl. rewrite Hb. simpl. rewrite Hb. simpl. by rewrite Hg. }
  unfold BatchProcessor.saveUsersToSheet, BatchProcessor.open_sheet.
  unfold bind, gets, liftW, SpreadsheetApp_openById, Spreadsheet_getSheetByName,
    Sheet_getMaxColumns, Range_getValues, with_grid, deref, ret.
  simpl. rewrite Hb. simpl. rewrite Hb. simpl. rewrite Hg. simpl.
  rewrite Hb. simpl. rewrite Hg.
  unfold Sheet_getRange at 1. rewrite getMaxColumns_pos. simpl.
  rewrite Hb. simpl. rewrite Hg.
  change (range_values g 0 0 1 (getMaxColumns g))
    with [BatchProcessor.live_headers g].
  cbv beta iota zeta.
  destruct (map _ (BatchProcessor._users bp)) as [| row0 rows]; [reflexivity |].
  simpl.
  destruct (Sheet_getRange _ 2 1 _ _ w) as [[rg | ex] w1]; [| reflexivity].
  reflexivity.
Qed.

(** C5, on the code.  With an empty [_users], [createAllCertificates] and
    [sendEmails] return normally and leave the world as it was.
    [saveUsersToSheet] writes nothing either, but it never returns normally:
    in every world it ends with an exception, and where the sheet exists the
    exception is the [TypeError] of [rows[0].length] on an empty [rows]
    (line 333). *)
Theorem C5_empty_list_saveUsersToSheet_throws :
  forall (cfg : Config) (params : JsArg) (bp : BatchProcessor.t) (w : World),
    let bp0 := BatchProcessor.set_users [] bp in
    BatchProcessor.createAllCertificates cfg (bp0, w) = (Ok tt, (bp0, w)) /\
    BatchProcessor.sendEmails params (bp0, w) = (Ok tt, (bp0, w)) /\
    (exists e, BatchProcessor.saveUsersToSheet (bp0, w) = (Throw e, (bp0, w))) /\
    BatchProcessor.saveUsersToSheet (Sample.processor, Sample.world) =
      (Throw (TypeError "Cannot read properties of undefined (reading 'length')"),
       (Sample.processor, Sample.world)).
Proof.
  intros cfg params bp w bp0.
  split; [reflexivity |]. split; [reflexivity |]. split.
  - rewrite saveUsersToSheet_unfold. simpl.
    destruct (spreadsheets w !! BatchProcessor._spreadsheetID bp) as [book |];
      [| by eexists].
    destruct (book !! BatchProcessor._sheetName bp) as [g |]; by eexists.
  - rewrite saveUsersToSheet_unfold. reflexivity.
Qed.

(** *** Sparse rows *)

Lemma length_arr_set (a : Row) i v :
  length (arr_set a i v) = Nat.max (length a) (Z.to_nat (i + 1)).
Proof.
  unfold arr_set. destruct (Z.ltb_spec i 0); [lia |].
  destruct (Nat.ltb_spec (Z.to_nat i) (length a)).
  - rewrite length_insert. lia.
  - rewrite !length_app, length_replicate. simpl. lia.
Qed.

(** An assignment at a resolved index is read back there and changes no
    other item; an assignment at -1 changes no item. *)
Lemma row_item_arr_set (a : Row) i v k :
  BatchProcessor.row_item (arr_set a i v) k =
    if bool_decide ((0 <= i)%Z /\ k = Z.to_nat i) then Some v
    else BatchProcessor.row_item a k.
Proof.
  unfold BatchProcessor.row_item, arr_set.
  destruct (Z.ltb_spec i 0).
  - rewrite bool_decide_eq_false_2; [reflexivity | lia].
  - destruct (Nat.ltb_spec (Z.to_nat i) (length a)).
    + case_bool_decide as Hk.
      * destruct Hk as [_ ->]. by rewrite list_lookup_insert_eq.
      * rewrite list_lookup_insert_ne; [reflexivity | lia].
    + case_bool_decide as Hk.
      * destruct Hk as [_ ->].
        rewrite lookup_app_r by lia.
        rewrite lookup_app_r by (rewrite length_replicate; lia).
        rewrite length_replicate.
        by replace (Z.to_nat i - length a - (Z.to_nat i - length a))%nat with 0%nat by lia.
      * destruct (Nat.lt_ge_cases k (length a)) as [Hlt | Hge].
        { by rewrite lookup_app_l. }
        rewrite (lookup_ge_None_2 a k) by lia.
        rewrite lookup_app_r by lia.
        destruct (Nat.lt_ge_cases (k - length a) (Z.to_nat i - length a)) as [Hlt' | Hge'].
        { rewrite lookup_app_l by (rewrite length_replicate; lia).
          by rewrite lookup_replicate_2. }
        rewrite lookup_app_r by (rewrite length_replicate; lia).
        rewrite length_replicate.
        rewrite lookup_ge_None_2; [reflexivity | simpl; lia].
Qed.

Lemma length_build_row n e c user :
  length (BatchProcessor.build_row n e c user) = BatchProcessor.row_width n e c.
Proof.
  unfold BatchProcessor.build_row, BatchProcessor.row_width.
  rewrite !length_arr_set. simpl. lia.
Qed.

(** The last assignment to an index wins: certificate ID, then email, then
    name. *)
Lemma row_item_build_row n e c user k :
  BatchProcessor.row_item (BatchProcessor.build_row n e c user) k =
    if bool_decide ((0 <= c)%Z /\ k = Z.to_nat c) then Some (User._certificateID user)
    else if bool_decide ((0 <= e)%Z /\ k = Z.to_nat e) then Some (User._email user)
    else if bool_decide ((0 <= n)%Z /\ k = Z.to_nat n) then Some (User._name user)
    else None.
Proof.
  unfold BatchProcessor.build_row. rewrite !row_item_arr_set.
  unfold BatchProcessor.row_item. by rewrite lookup_nil.
Qed.

Lemma indexOf_from_ge a x i : (-1 <= i)%Z -> (-1 <= indexOf_from a x i)%Z.
Proof.
  revert i. induction a as [| y a IH]; intros i Hi; simpl; [lia |].
  destruct (strict_eq y x); [lia |]. apply IH. lia.
Qed.

Lemma indexOf_ge a x : (-1 <= indexOf a x)%Z.
Proof. apply indexOf_from_ge. lia. Qed.

(** *** Writing a range *)

Lemma length_le_widest (g : list (list JsVal)) r row :
  g !! r = Some row ->
  (length row <= foldr (fun row m => Nat.max (length row) m) 0 g)%nat.
Proof.
  revert r. induction g as [| row' g IH]; intros r Hr; [by rewrite lookup_nil in Hr |].
  destruct r as [| r]; simpl in *.
  - injection Hr as ->. lia.
  - specialize (IH r Hr). lia.
Qed.

(** A cell after a write: what was written, inside the range; what it was,
    outside. *)
Lemma cellAt_write_range g r0 c0 numCols rows r k :
  cellAt (write_range g r0 c0 numCols rows) r k =
    if ((r0 <=? r) && (r <? r0 + length rows) &&
        (c0 <=? k) && (k <? c0 + numCols))%nat
    then written (mjoin (row ← rows !! (r - r0)%nat;
                         Some (BatchProcessor.row_item row (k - c0))))
    else cellAt g r k.
Proof.
  unfold write_range, cellAt.
  set (R := Nat.max (length g) (r0 + length rows)).
  set (C := Nat.max (foldr (fun row m => Nat.max (length row) m) 0%nat g)
                    (c0 + numCols)).
  rewrite list_lookup_fmap.
  destruct (Nat.lt_ge_cases r R) as [Hr | Hr].
  - rewrite lookup_seq_lt by exact Hr. simpl.
    rewrite list_lookup_fmap.
    destruct (Nat.lt_ge_cases k C) as [Hk | Hk].
    + rewrite lookup_seq_lt by exact Hk. reflexivity.
    + rewrite lookup_seq_ge by exact Hk. simpl.
      assert ((k <? c0 + numCols)%nat = false) as -> by (apply Nat.ltb_ge; lia).
      rewrite andb_false_r.
      destruct (g !! r) as [row |] eqn:Hg; simpl; [| reflexivity].
      apply length_le_widest in Hg.
      rewrite lookup_ge_None_2; [reflexivity | lia].
  - rewrite lookup_seq_ge by exact Hr. simpl.
    assert ((r <? r0 + length rows)%nat = false) as -> by (apply Nat.ltb_ge; lia).
    rewrite andb_false_r. simpl.
    rewrite (lookup_ge_None_2 g r) by lia. reflexivity.
Qed.

Lemma Range_setValues_run sh row col numRows numCols rows w book g :
  spreadsheets w !! sh.1 = Some book ->
  book !! sh.2 = Some g ->
  length rows = numRows ->
  Forall (fun r : Row => length r = numCols) rows ->
  Range_setValues (mkRange sh row col numRows numCols) rows w =
    (Ok tt,
     mkWorld (<[sh.1 := <[sh.2 := write_range g (row - 1) (col - 1) numCols rows]> book]>
                (spreadsheets w))
             (activeSpreadsheet w) (files w) (folders w)
             (trace w ++ [EvSetValues sh.1 sh.2 row col numRows numCols rows])).
Proof.
  intros Hb Hg Hlen Hall.
  unfold Range_setValues, with_grid. simpl. rewrite Hb. simpl. rewrite Hg.
  rewrite Hlen, Nat.eqb_refl. simpl.
  assert (forallb (fun r : Row => Nat.eqb (length r) numCols) rows = true) as ->.
  { apply forallb_forall. intros r Hin.
    rewrite Forall_forall in Hall. apply Nat.eqb_eq, Hall.
    by apply list_elem_of_In. }
  unfold bind, set_grid, emit, modify. simpl. by rewrite Hb.
Qed.

(** C9.  With a non-empty [_users], a sheet that exists and at least one
    header resolved, every row built by [saveUsersToSheet] is as long as the
    largest resolved index plus one and holds a value only at the resolved
    indices.  The call returns normally after one write of the range that
    starts at row 2, column 1 and is one row per user long and that wide.
    After it, a cell of the range holds what its row holds at that column
    and is empty where the row has a hole, whatever the sheet held there
    before; every cell outside the range is as it was. *)
Theorem C9_saveUsersToSheet_overwrites_range :
  forall (bp : BatchProcessor.t) (w : World)
         (book : gmap string (list (list JsVal))) (g : list (list JsVal)),
    BatchProcessor._users bp <> [] ->
    spreadsheets w !! BatchProcessor._spreadsheetID bp = Some book ->
    book !! BatchProcessor._sheetName bp = Some g ->
    let headers := BatchProcessor.live_headers g in
    let n := indexOf headers (BatchProcessor._namesColumnHeader bp) in
    let e := indexOf headers (BatchProcessor._emailsColumnHeader bp) in
    let c := indexOf headers (BatchProcessor._certificatesIDColumnHeader bp) in
    let width := BatchProcessor.row_width n e c in
    let rows := map (BatchProcessor.build_row n e c) (BatchProcessor._users bp) in
    (1 <= width)%nat ->
    Forall (fun row : Row =>
              length row = width /\
              forall k v, BatchProcessor.row_item row k = Some v ->
                          Z.of_nat k = n \/ Z.of_nat k = e \/ Z.of_nat k = c)
           rows
    /\ exists w' g',
         BatchProcessor.saveUsersToSheet (bp, w) = (Ok tt, (bp, w')) /\
         trace w' =
           (trace w ++
            [EvSetValues (BatchProcessor._spreadsheetID bp) (BatchProcessor._sheetName bp)
                         2 1 (length (BatchProcessor._users bp)) width rows])%list /\
         files w' = files w /\
         spreadsheets w' !! BatchProcessor._spreadsheetID bp
           ≫= (.!! BatchProcessor._sheetName bp) = Some g' /\
         (forall i user k,
            BatchProcessor._users bp !! i = Some user -> (k < width)%nat ->
            cellAt g' (1 + i) k
            = written (BatchProcessor.row_item (BatchProcessor.build_row n e c user) k)) /\
         (forall i k,
            (i < length (BatchProcessor._users bp))%nat -> (k < width)%nat ->
            Z.of_nat k <> n -> Z.of_nat k <> e -> Z.of_nat k <> c ->
            cellAt g' (1 + i) k = JStr "") /\
         (forall r k,
            ~ ((1 <= r < 1 + length (BatchProcessor._users bp))%nat /\ (k < width)%nat) ->
            cellAt g' r k = cellAt g r k).
Proof.
  intros bp w book g Hne Hb Hg headers n e c width rows Hw.
  assert (Hn : (-1 <= n)%Z) by apply indexOf_ge.
  assert (He : (-1 <= e)%Z) by apply indexOf_ge.
  assert (Hc : (-1 <= c)%Z) by apply indexOf_ge.
  assert (Hlens : Forall (fun r : Row => length r = width) rows).
  { apply Forall_forall. intros r Hin. apply list_elem_of_fmap in Hin as (u & -> & _).
    by apply length_build_row. }
  split.
  { apply Forall_forall. intros r Hin. apply list_elem_of_fmap in Hin as (u & -> & _).
    split; [by apply length_build_row |].
    intros k v. rewrite row_item_build_row.
    repeat case_bool_decide; intros; try discriminate; lia. }
  assert (Hcell : forall i user k,
             BatchProcessor._users bp !! i = Some user -> (k < width)%nat ->
             cellAt (write_range g 1 0 width rows) (1 + i) k
             = written (BatchProcessor.row_item (BatchProcessor.build_row n e c user) k)).
  { intros i user k Hi Hk. rewrite cellAt_write_range.
    pose proof (lookup_lt_Some _ _ _ Hi) as Hlt.
    unfold rows. rewrite length_map.
    assert (((1 <=? 1 + i) && (1 + i <? 1 + length (BatchProcessor._users bp)) &&
             (0 <=? k) && (k <? 0 + width))%nat = true) as ->.
    { repeat (apply andb_true_intro; split);
        (apply Nat.leb_le || apply Nat.ltb_lt); lia. }
    replace (1 + i - 1)%nat with i by lia.
    rewrite list_lookup_fmap, Hi. simpl. by rewrite Nat.sub_0_r. }
  exists (mkWorld
            (<[BatchProcessor._spreadsheetID bp :=
                 <[BatchProcessor._sheetName bp := write_range g 1 0 width rows]> book]>
               (spreadsheets w))
            (activeSpreadsheet w) (files w) (folders w)
            (trace w ++
             [EvSetValues (BatchProcessor._spreadsheetID bp) (BatchProcessor._sheetName bp)
                          2 1 (length (BatchProcessor._users bp)) width rows])),
         (write_range g 1 0 width rows).
  split; [| split; [reflexivity | split; [reflexivity | split; [| split; [| split]]]]].
  - rewrite saveUsersToSheet_unfold, Hb, Hg. cbv zeta.
    fold headers. fold n e c. fold rows.
    destruct (BatchProcessor._users bp) as [| u us] eqn:Hus; [done |].
    unfold rows at 1. cbn [map].
    rewrite (length_build_row n e c u). fold width.
    unfold liftW, bind, Sheet_getRange. simpl.
    destruct width as [| width'] eqn:Hwidth; [lia |]. unfold ret.
    erewrite (Range_setValues_run
                (BatchProcessor._spreadsheetID bp, BatchProcessor._sheetName bp)
                2 1 (S (length (map (BatchProcessor.build_row n e c) us))) (S width') rows
                w book g Hb Hg); [| | exact Hlens].
    + simpl. rewrite length_map. reflexivity.
    + unfold rows. simpl. rewrite !length_map. reflexivity.
  - simpl. rewrite lookup_insert_eq. simpl. by rewrite lookup_insert_eq.
  - exact Hcell.
  - intros i k Hi Hk Hkn Hke Hkc.
    destruct (lookup_lt_is_Some_2 _ _ Hi) as [user Hu].
    rewrite (Hcell i user k Hu Hk), row_item_build_row.
    repeat case_bool_decide; try lia. reflexivity.
  - intros r k Hout. rewrite cellAt_write_range.
    unfold rows. rewrite length_map.
    destruct ((1 <=? r) && (r <? 1 + length (BatchProcessor._users bp)) &&
              (0 <=? k) && (k <? 0 + width))%nat eqn:Hin; [| reflexivity].
    exfalso. apply Hout.
    repeat (apply andb_prop in Hin as [Hin ?]).
    repeat match goal with
           | H : (_ <=? _)%nat = true |- _ => apply Nat.leb_le in H
           | H : (_ <? _)%nat = true |- _ => apply Nat.ltb_lt in H
           end.
    lia.
Qed.

(* ===================================================================== *)
(** ** Certificate: one run of [createCertificate] *)
(* ===================================================================== *)

Lemma bind_liftW {X A B} (m : M World A) (k : A -> M (X * World) B) x w :
  bind (liftW m) k (x, w) =
    match m w with
    | (Ok a, w') => k a (x, w')
    | (Throw e, w') => (Throw e, (x, w'))
    end.
Proof. unfold bind, liftW. simpl. by destruct (m w) as [[a | e] w']. Qed.

Lemma getFolderById_run id w :
  id ∈ folders w -> DriveApp_getFolderById id w = (Ok id, w).
Proof. intros H. unfold DriveApp_getFolderById. by rewrite bool_decide_eq_true_2. Qed.

Lemma getFileById_run id f w :
  files w !! id = Some f -> DriveApp_getFileById (JStr id) w = (Ok id, w).
Proof. intros H. unfold DriveApp_getFileById. by rewrite H. Qed.

Lemma makeCopy_run fid f w :
  files w !! fid = Some f ->
  File_makeCopy fid w =
    (Ok (newId w),
     log (EvMakeCopy fid (newId w))
         (put_file (newId w)
                   (mkFile ("Copy of " +:+ f_name f) (f_mime f) (f_parent f)
                           (f_texts f) false) w)).
Proof. intros H. unfold File_makeCopy, with_file. by rewrite H. Qed.

Lemma moveTo_run fid folder f w :
  files w !! fid = Some f ->
  File_moveTo fid folder w =
    (Ok fid,
     log (EvMoveTo fid folder)
         (put_file fid (mkFile (f_name f) (f_mime f) folder (f_texts f) (f_trashed f)) w)).
Proof. intros H. unfold File_moveTo, with_file. by rewrite H. Qed.

Lemma setName_run fid name f w :
  files w !! fid = Some f ->
  File_setName fid name w =
    (Ok fid,
     log (EvSetName fid name)
         (put_file fid (mkFile name (f_mime f) (f_parent f) (f_texts f) (f_trashed f)) w)).
Proof. intros H. unfold File_setName, with_file. by rewrite H. Qed.

Lemma batchUpdate_run pid repl text mc f w :
  files w !! pid = Some f -> text <> "" ->
  Slides_batchUpdate [ReplaceAllText (JStr repl) text mc] pid w =
    (Ok tt,
     log (EvBatchUpdate pid [ReplaceAllText (JStr repl) text mc])
         (put_file pid (mkFile (f_name f) (f_mime f) (f_parent f)
                               (map (replaceAllText mc text repl) (f_texts f))
                               (f_trashed f)) w)).
Proof.
  intros H Hne. unfold Slides_batchUpdate, with_file. rewrite H. simpl.
  destruct (String.eqb_spec text ""); [done |]. reflexivity.
Qed.

Lemma getAs_run fid mime f w :
  files w !! fid = Some f ->
  File_getAs fid mime w =
    (Ok (mkBlob (without_extension (f_name f) +:+ ".pdf") mime (f_texts f)),
     log (EvGetAs fid mime) w).
Proof. intros H. unfold File_getAs, with_file. by rewrite H. Qed.

Lemma createFile_run folder b w :
  Folder_createFile folder b w =
    (Ok (newId w),
     log (EvCreateFile folder (newId w))
         (put_file (newId w) (mkFile (b_name b) (b_mime b) folder (b_texts b) false) w)).
Proof. reflexivity. Qed.

Lemma setTrashed_run fid t f w :
  files w !! fid = Some f ->
  File_setTrashed fid t w =
    (Ok fid,
     log (EvSetTrashed fid t)
         (put_file fid (mkFile (f_name f) (f_mime f) (f_parent f) (f_texts f) t) w)).
Proof. intros H. unfold File_setTrashed, with_file. by rewrite H. Qed.

Lemma showFeedback_run feedback w :
  showFeedback feedback w =
    if activeSpreadsheet w
    then (Ok tt, log (EvToast feedback) (log (EvConsoleLog feedback) w))
    else (Throw (TypeError "Cannot read properties of null (reading 'toast')"),
          log (EvConsoleLog feedback) w).
Proof.
  unfold showFeedback, bind, emit, modify, gets. simpl.
  by destruct (activeSpreadsheet w).
Qed.

(** Drive's new identifier names no file and no folder. *)
Lemma newId_fresh w : files w !! newId w = None /\ newId w ∉ folders w.
Proof.
  pose proof (is_fresh (dom (files w) ∪ folders w)) as H. fold (newId w) in H.
  split; [apply not_elem_of_dom |]; set_solver.
Qed.

(** One run, from a world where the destination folder and the template
    exist, with a non-empty placeholder and a string to put in its place. *)
Lemma createCertificate_run cfg c w template repl :
  DESTINATION_FOLDER_ID cfg ∈ folders w ->
  files w !! BASE_PRESENTATION_ID cfg = Some template ->
  PLACEHOLDER cfg <> "" ->
  Certificate._placeholderReplacement c = JStr repl ->
  exists pdf w',
    Certificate.createCertificate cfg (c, w) =
      ((if activeSpreadsheet w then Ok tt
        else Throw (TypeError "Cannot read properties of null (reading 'toast')")),
       (Certificate.set_certificateID pdf c, w')) /\
    newId w <> pdf /\ files w !! pdf = None /\
    files w' !! pdf =
      Some (mkFile (without_extension (Certificate._certificateName c) +:+ ".pdf")
                   "application/pdf"
                   (DESTINATION_FOLDER_ID cfg)
                   (Certificate.rendered cfg repl template) false) /\
    files w' !! newId w =
      Some (mkFile (Certificate._certificateName c) (f_mime template)
                   (DESTINATION_FOLDER_ID cfg)
                   (Certificate.rendered cfg repl template)
                   (Certificate._deletePresentation c)) /\
    (forall id, id <> newId w -> id <> pdf -> files w' !! id = files w !! id) /\
    folders w' = folders w /\ spreadsheets w' = spreadsheets w /\
    activeSpreadsheet w' = activeSpreadsheet w /\
    trace w' =
      (trace w ++
       take (if activeSpreadsheet w then 9 else 8)
            (Certificate.certificate_events cfg c (newId w) pdf))%list.
Proof.
  intros Hdest Hbase Hph Hrepl.
  unfold Certificate.createCertificate.
  unfold bind at 1. unfold gets at 1. cbn [fst snd].
  rewrite bind_liftW, (getFolderById_run _ _ Hdest).
  rewrite bind_liftW, (getFileById_run _ _ _ Hbase).
  rewrite bind_liftW, (makeCopy_run _ _ _ Hbase).
  set (copy := newId w).
  rewrite bind_liftW. erewrite moveTo_run by (simpl; apply lookup_insert_eq).
  rewrite bind_liftW. erewrite setName_run by (simpl; apply lookup_insert_eq).
  unfold Certificate.request. rewrite Hrepl.
  rewrite bind_liftW. erewrite batchUpdate_run by (simpl; apply lookup_insert_eq || exact Hph).
  rewrite bind_liftW. erewrite getAs_run by (simpl; apply lookup_insert_eq).
  cbn [f_name f_mime f_parent f_texts f_trashed b_name b_mime b_texts].
  rewrite bind_liftW.
  match goal with
  | |- context [Folder_createFile _ _ ?W] => set (w5 := W)
  end.
  rewrite createFile_run.
  set (pdf := newId w5).
  assert (Hcopy5 : files w5 !! copy =
                   Some (mkFile (Certificate._certificateName c) (f_mime template)
                                (DESTINATION_FOLDER_ID cfg)
                                (Certificate.rendered cfg repl template) false)).
  { unfold w5. simpl. apply lookup_insert_eq. }
  destruct (newId_fresh w5) as [Hpdf5 _]. fold pdf in Hpdf5.
  assert (Hne : copy <> pdf) by (intros Heq; rewrite Heq in Hcopy5; congruence).
  unfold bind at 1. unfold modify at 1. cbn [fst snd].
  rewrite bind_liftW.
  erewrite setTrashed_run
    by (simpl; rewrite lookup_insert_ne by (intros Heq; apply Hne; by rewrite Heq);
        exact Hcopy5).
  cbn [f_name f_mime f_parent f_texts f_trashed].
  unfold liftW. cbn [fst snd]. rewrite showFeedback_run.
  cbn [b_name b_mime b_texts].
  match goal with
  | |- context [if activeSpreadsheet ?W then _ else _] =>
      change (activeSpreadsheet W) with (activeSpreadsheet w)
  end.
  assert (Hpdf : files w !! pdf = None).
  { unfold w5 in Hpdf5. simpl in Hpdf5.
    by rewrite !lookup_insert_ne in Hpdf5 by exact Hne. }
  destruct (activeSpreadsheet w) eqn:Hactive;
    (eexists pdf, _; split; [reflexivity |];
     split; [exact Hne |]; split; [exact Hpdf |];
     split; [simpl; rewrite lookup_insert_ne by exact Hne; apply lookup_insert_eq |];
     split; [simpl; apply lookup_insert_eq |];
     split; [intros id Hid1 Hid2; unfold w5; simpl;
             by rewrite !lookup_insert_ne by done |];
     split; [reflexivity |]; split; [reflexivity |]; split; [exact Hactive |];
     unfold w5, Certificate.certificate_events, Certificate.request;
     rewrite Hrepl; simpl; rewrite <- !app_assoc; reflexivity).
Qed.

(** *** The replacement itself *)







(** *** No occurrence is left, or made *)




Section NoOccurrence.

Variables needle repl : string.



End NoOccurrence.






(* ===================================================================== *)
(** ** BatchProcessor: creating all certificates *)
(* ===================================================================== *)

(** One turn of the loop of [createAllCertificates]. *)
Lemma create_for_run cfg d template user w :
  ready cfg template w ->
  PLACEHOLDER cfg <> "" ->
  is_string (User._name user) ->
  exists pdf w',
    BatchProcessor.create_for cfg d (user, w) =
      (Ok tt, (User.setCertificateID (JStr pdf) user, w')) /\
    ready cfg template w' /\
    trace w' =
      (trace w ++
       Certificate.certificate_events
         cfg (BatchProcessor.configured_for d user) (newId w) pdf)%list.
Proof.
  intros (Hdest & Hbase & Hactive) Hph Hname.
  destruct (User._name user) as [| | | | s] eqn:Hs; try contradiction.
  destruct (createCertificate_run cfg (BatchProcessor.configured_for d user) w
              template s Hdest Hbase Hph)
    as (pdf & w' & Hrun & Hne & Hpdf & _ & _ & Hframe & Hfolders & _ & Hact & Htr).
  { simpl. unfold User.getName. by rewrite Hs. }
  exists pdf, w'.
  split; [| split; [split; [| split] |]].
  - unfold BatchProcessor.create_for, bind, gets, scoped, modify. simpl.
    rewrite Hrun, Hactive. reflexivity.
  - by rewrite Hfolders.
  - rewrite Hframe; [exact Hbase | |]; intros Heq; rewrite Heq in Hbase.
    + destruct (newId_fresh w) as [Hfresh _]. congruence.
    + congruence.
  - congruence.
  - rewrite Htr, Hactive. reflexivity.
Qed.

Lemma forEachObj_create_for cfg d template users :
  PLACEHOLDER cfg <> "" ->
  Forall (fun u => is_string (User._name u)) users ->
  forall w,
    ready cfg template w ->
    exists (ids : list (string * string)) w',
      length ids = length users /\
      forEachObj (BatchProcessor.create_for cfg d) users w =
        (Ok tt,
         (zip_with (fun u id => User.setCertificateID (JStr id.2) u) users ids, w')) /\
      trace w' =
        (trace w ++
         concat (zip_with
                   (fun u id => Certificate.certificate_events
                                  cfg (BatchProcessor.configured_for d u) id.1 id.2)
                   users ids))%list.
Proof.
  intros Hph. induction 1 as [| user users Hname _ IH]; intros w Hready.
  - exists [], w. simpl. by rewrite app_nil_r.
  - destruct (create_for_run cfg d template user w Hready Hph Hname)
      as (pdf & w1 & Hrun & Hready1 & Htr1).
    destruct (IH w1 Hready1) as (ids & w' & Hlen & Hloop & Htr).
    exists ((newId w, pdf) :: ids), w'.
    split; [simpl; by rewrite Hlen |]. split.
    + cbn [forEachObj]. rewrite Hrun, Hloop. reflexivity.
    + rewrite Htr, Htr1. simpl. by rewrite <- app_assoc.
Qed.

(** C2.  From a world where the destination folder and the template exist
    and a spreadsheet is active, with a non-empty placeholder and users
    whose names are strings (as every loaded user's is),
    [createAllCertificates] returns normally.  Its writes are, user after
    user in list order, those of one run of [createCertificate] on a new
    certificate named "Certificate: " followed by the user's name, with the
    user's name as replacement text and the processor's flag; and each user
    ends with the identifier of the document stored by its own run as
    certificate ID, name and email untouched. *)
Theorem C2_createAllCertificates_in_order :
  forall (cfg : Config) (bp : BatchProcessor.t) (w : World) (template : File),
    DESTINATION_FOLDER_ID cfg ∈ folders w ->
    files w !! BASE_PRESENTATION_ID cfg = Some template ->
    activeSpreadsheet w = true ->
    PLACEHOLDER cfg <> "" ->
    Forall (fun u => is_string (User._name u)) (BatchProcessor._users bp) ->
    let generator (u : User.t) :=
      Certificate.mk (User._name u) ("Certificate: " +:+ ToString (User._name u))
                     (BatchProcessor._deletePresentations bp) "" in
    exists (ids : list (string * string)) (w' : World),
      length ids = length (BatchProcessor._users bp) /\
      BatchProcessor.createAllCertificates cfg (bp, w) =
        (Ok tt,
         (BatchProcessor.set_users
            (zip_with (fun u id => User.mk (User._name u) (User._email u) (JStr id.2))
                      (BatchProcessor._users bp) ids)
            bp,
          w')) /\
      trace w' =
        (trace w ++
         concat (zip_with
                   (fun u id => Certificate.certificate_events cfg (generator u) id.1 id.2)
                   (BatchProcessor._users bp) ids))%list.
Proof.
  intros cfg bp w template Hdest Hbase Hactive Hph Hnames generator.
  destruct (forEachObj_create_for cfg (BatchProcessor._deletePresentations bp)
              template (BatchProcessor._users bp) Hph Hnames w)
    as (ids & w' & Hlen & Hloop & Htr).
  { by repeat split. }
  exists ids, w'. split; [exact Hlen |]. split.
  - unfold BatchProcessor.createAllCertificates. simpl. by rewrite Hloop.
  - exact Htr.
Qed.

(** C2 at the sample world, for Ana and Carla. *)
Lemma C2_witness :
  exists (ids : list (string * string)) (w' : World),
    length ids = 2%nat /\
    BatchProcessor.createAllCertificates Sample.config
      (Sample.processor_loaded, Sample.world) =
      (Ok tt,
       (BatchProcessor.set_users
          (zip_with (fun u id => User.mk (User._name u) (User._email u) (JStr id.2))
                    [Sample.ana; Sample.carla] ids)
          Sample.processor_loaded,
        w')) /\
    trace w' =
      concat (zip_with
                (fun u id =>
                   Certificate.certificate_events Sample.config
                     (Certificate.mk (User._name u)
                                     ("Certificate: " +:+ ToString (User._name u))
                                     true "")
                     id.1 id.2)
                [Sample.ana; Sample.carla] ids).
Proof.
  apply (C2_createAllCertificates_in_order
           Sample.config Sample.processor_loaded Sample.world Sample.template).
  - vm_compute. reflexivity.
  - vm_compute. reflexivity.
  - reflexivity.
  - discriminate.
  - repeat constructor.
Defined.

(** C9 at a roster with a column between name and email: what that column
    held in the written row is cleared, the header row is untouched. *)
Lemma C9_witness :
  exists w' g',
    BatchProcessor.saveUsersToSheet
      (BatchProcessor.set_users [Sample.carla] Sample.processor, Sample.world_notes)
    = (Ok tt, (BatchProcessor.set_users [Sample.carla] Sample.processor, w')) /\
    spreadsheets w' !! "ss" ≫= (.!! "Sheet1") = Some g' /\
    cellAt Sample.roster_notes 1 1 = JStr "paid" /\
    cellAt g' 1 1 = JStr "" /\
    cellAt g' 1 3 = JStr "cert-1" /\
    cellAt g' 0 1 = JStr "Notes".
Proof.
  destruct (C9_saveUsersToSheet_overwrites_range
              (BatchProcessor.set_users [Sample.carla] Sample.processor)
              Sample.world_notes {["Sheet1" := Sample.roster_notes]}
              Sample.roster_notes)
    as (_ & w' & g' & Hrun & _ & _ & Hg' & Hcell & Hhole & Hframe).
  - discriminate.
  - vm_compute. reflexivity.
  - vm_compute. reflexivity.
  - vm_compute. lia.
  - exists w', g'. split; [exact Hrun |]. split; [exact Hg' |].
    split; [reflexivity |]. split; [| split].
    + apply (Hhole 0%nat 1%nat); vm_compute; (lia || discriminate).
    + apply (Hcell 0%nat Sample.carla 3%nat); [reflexivity | vm_compute; lia].
    + rewrite Hframe; [reflexivity |]. vm_compute. lia.
Defined.

(* ===================================================================== *)
(** ** Further properties: serialization *)
(* ===================================================================== *)

Lemma js_or_idem a b : js_or (js_or a b) b = js_or a b.
Proof.
  unfold js_or. destruct (truthy a) eqn:Ha; [by rewrite Ha |].
  by destruct (truthy b).
Qed.

(** X1.  Whatever [fromJSON] is given (an object, a primitive, [null] or
    [undefined]), the user it produces is kept exactly by a further
    [toJSON] and [fromJSON]: reading normalises once and for all, and the
    state the user had before the read plays no part. *)
Theorem X1_fromJSON_normalises :
  forall (a : JsArg) (u0 u1 : User.t),
    User.fromJSON (ArgObj (User.toJSON (User.fromJSON a u0))) u1 = User.fromJSON a u0.
Proof.
  intros a u0 u1. unfold User.fromJSON at 1.
  rewrite opt_get_toJSON_name, opt_get_toJSON_email, opt_get_toJSON_certificateID.
  unfold User.fromJSON. simpl. by rewrite js_or_idem.
Qed.

(** X2.  [toJSON] loses nothing: its object has exactly the keys [name],
    [email] and [certificateID], and two users with the same object are the
    same user. *)
Theorem X2_toJSON_injective :
  forall (u v : User.t),
    dom (User.toJSON u) = ({["name"; "email"; "certificateID"]} : gset string) /\
    (User.toJSON u = User.toJSON v -> u = v).
Proof.
  intros u v. split.
  - unfold User.toJSON. rewrite !dom_insert_L, dom_empty_L. set_solver.
  - intros Heq.
    pose proof (opt_get_toJSON_name u) as Hn.
    pose proof (opt_get_toJSON_email u) as He.
    pose proof (opt_get_toJSON_certificateID u) as Hc.
    rewrite Heq in Hn, He, Hc.
    rewrite opt_get_toJSON_name in Hn. rewrite opt_get_toJSON_email in He.
    rewrite opt_get_toJSON_certificateID in Hc.
    destruct u, v. simpl in *. congruence.
Qed.

(** X2 at Carla, built in two ways. *)
Lemma X2_witness :
  Sample.carla =
    User.setCertificateID (JStr "cert-1")
      (User.setEmail (JStr "carla@x.org") (User.setName (JStr "Carla") User.new)).
Proof.
  apply (X2_toJSON_injective Sample.carla
           (User.setCertificateID (JStr "cert-1")
              (User.setEmail (JStr "carla@x.org") (User.setName (JStr "Carla") User.new)))).
  vm_compute. reflexivity.
Defined.

(* ===================================================================== *)
(** ** Further properties: sending the emails *)
(* ===================================================================== *)

(** [sendEmail] on a user with a certificate, step by step. *)
Lemma sendEmail_certified params u w :
  truthy (User._certificateID u) = true ->
  User.sendEmail params u w =
    match DriveApp_getFileById (User._certificateID u) w with
    | (Ok attachment, _) =>
        showFeedback ("Email to " +:+ ToString (User._name u) +:+ " successfully sent")
                     (log (EvSendEmail (User.message u params attachment)) w)
    | (Throw e, _) => (Throw e, w)
    end.
Proof.
  intros Ht. unfold User.sendEmail. rewrite Ht. simpl.
  unfold bind at 1. unfold DriveApp_getFileById.
  destruct (User._certificateID u) as [| | | | id]; try reflexivity.
  destruct (files w !! id); reflexivity.
Qed.

(** One turn of the loop of [sendEmails], with a spreadsheet active and the
    user's certificate, if any, on file. *)
Lemma sendEmail_turn params u w :
  activeSpreadsheet w = true ->
  certificate_on_file w u ->
  exists w',
    User.sendEmail params u w = (Ok tt, w') /\
    activeSpreadsheet w' = true /\ files w' = files w /\
    folders w' = folders w /\ spreadsheets w' = spreadsheets w /\
    sent_mails (trace w') = (sent_mails (trace w) ++ mail_for params u)%list.
Proof.
  intros Hactive Hfile. unfold mail_for.
  destruct (truthy (User._certificateID u)) eqn:Ht.
  - destruct (Hfile Ht) as (id & Hid & f & Hf).
    rewrite (sendEmail_certified params u w Ht), Hid.
    rewrite (getFileById_run id f w Hf), showFeedback_run. simpl. rewrite Hactive.
    eexists. split; [reflexivity |]. simpl.
    rewrite !sent_mails_app. simpl. rewrite !app_nil_r. by repeat split.
  - exists w. rewrite (sendEmail_falsy params u w Ht), app_nil_r. by repeat split.
Qed.

Lemma forEach_sendEmail_ok params users :
  forall bp w,
    activeSpreadsheet w = true ->
    Forall (certificate_on_file w) users ->
    exists w',
      forEach (fun user => liftW (User.sendEmail params user)) users (bp, w)
      = (Ok tt, (bp : BatchProcessor.t, w')) /\
      activeSpreadsheet w' = true /\ files w' = files w /\
      folders w' = folders w /\ spreadsheets w' = spreadsheets w /\
      sent_mails (trace w') =
        (sent_mails (trace w) ++ flat_map (mail_for params) users)%list.
Proof.
  induction users as [| u users IH]; intros bp w Hactive Hall.
  - exists w. simpl. rewrite app_nil_r. by repeat split.
  - apply Forall_cons in Hall as [Hu Hall].
    destruct (sendEmail_turn params u w Hactive Hu)
      as (w1 & Hrun & Hact1 & Hf1 & Hfo1 & Hs1 & Hm1).
    destruct (IH bp w1 Hact1) as (w' & Hloop & Hact & Hf & Hfo & Hs & Hm).
    { eapply Forall_impl; [exact Hall |]. intros v Hv Ht.
      destruct (Hv Ht) as (id & Hid & Hsome). exists id. by rewrite Hf1. }
    exists w'. split.
    + cbn [forEach]. unfold bind, liftW at 1. simpl. rewrite Hrun. exact Hloop.
    + rewrite Hm, Hm1. simpl. rewrite <- app_assoc.
      repeat split; congruence.
Qed.

(** X3.  With a spreadsheet active and every certificate ID that is set
    naming a Drive file, [sendEmails] returns normally after handing the
    mail service one message per user that has a certificate, in list order,
    each with that user's own file attached; users without a certificate are
    passed over.  Drive, the sheets and [_users] are left as they were. *)
Theorem X3_sendEmails_one_mail_per_certified_user :
  forall (params : JsArg) (bp : BatchProcessor.t) (w : World),
    activeSpreadsheet w = true ->
    Forall (certificate_on_file w) (BatchProcessor._users bp) ->
    exists w',
      BatchProcessor.sendEmails params (bp, w) = (Ok tt, (bp, w')) /\
      files w' = files w /\ spreadsheets w' = spreadsheets w /\
      sent_mails (trace w') =
        (sent_mails (trace w) ++
         flat_map (mail_for params) (BatchProcessor._users bp))%list /\
      Forall (fun m => exists u, u ∈ BatchProcessor._users bp /\
                                 m_to m = User._email u /\
                                 JStr <$> m_attachments m = [User._certificateID u])
             (flat_map (mail_for params) (BatchProcessor._users bp)).
Proof.
  intros params bp w Hactive Hall.
  destruct (forEach_sendEmail_ok params (BatchProcessor._users bp) bp w Hactive Hall)
    as (w' & Hloop & _ & Hf & _ & Hs & Hm).
  exists w'. split; [| split; [exact Hf | split; [exact Hs | split; [exact Hm |]]]].
  - unfold BatchProcessor.sendEmails, bind, gets. simpl. exact Hloop.
  - apply Forall_forall. intros m Hin.
    apply list_elem_of_In, in_flat_map in Hin as (u & Hu & Hm').
    exists u. split; [by apply list_elem_of_In |].
    unfold mail_for in Hm'.
    destruct (truthy (User._certificateID u)) eqn:Ht; [| by destruct Hm'].
    destruct Hm' as [<- | []]. split; [reflexivity |]. simpl.
    rewrite Forall_forall in Hall.
    destruct (Hall u (proj2 (list_elem_of_In _ _) Hu) Ht) as (id & -> & _).
    reflexivity.
Qed.

(** X3 at the sample world: Ana has no certificate, Carla has one. *)
Lemma X3_witness :
  exists w',
    BatchProcessor.sendEmails Sample.emailData (Sample.processor_loaded, Sample.world)
    = (Ok tt, (Sample.processor_loaded, w')) /\
    sent_mails (trace w') = [User.message Sample.carla Sample.emailData "cert-1"].
Proof.
  destruct (X3_sendEmails_one_mail_per_certified_user
              Sample.emailData Sample.processor_loaded Sample.world)
    as (w' & Hrun & _ & _ & Hm & _).
  - reflexivity.
  - repeat constructor.
    + intros Ht. vm_compute in Ht. discriminate.
    + intros _. exists "cert-1". split; [reflexivity |]. eexists. vm_compute. reflexivity.
  - exists w'. split; [exact Hrun | exact Hm].
Defined.

(** A loop over two stretches of an array. *)
Lemma forEach_app {S A} (f : A -> M S unit) (l1 l2 : list A) (s : S) :
  forEach f (l1 ++ l2) s =
    match forEach f l1 s with
    | (Ok _, s') => forEach f l2 s'
    | (Throw e, s') => (Throw e, s')
    end.
Proof.
  revert s. induction l1 as [| x l1 IH]; intros s; [reflexivity |].
  simpl. unfold bind. destruct (f x s) as [[[] | e] s1]; [apply IH | reflexivity].
Qed.

Lemma sendEmails_unfold params bp w :
  BatchProcessor.sendEmails params (bp, w) =
    forEach (fun user => liftW (User.sendEmail params user))
            (BatchProcessor._users bp) (bp, w).
Proof. reflexivity. Qed.

(** X4.  When the script is not bound to a spreadsheet, [sendEmails] gets as
    far as the first user that has a certificate: that user's message is
    handed to the mail service, then the toast of [showFeedback] fails with
    a [TypeError], and no later user is mailed. *)
Theorem X4_sendEmails_without_active_spreadsheet :
  forall (params : JsArg) (bp : BatchProcessor.t) (w : World)
         (pre post : list User.t) (u : User.t) (id : string),
    activeSpreadsheet w = false ->
    BatchProcessor._users bp = (pre ++ u :: post)%list ->
    Forall (fun v => truthy (User._certificateID v) = false) pre ->
    User._certificateID u = JStr id -> id <> "" ->
    is_Some (files w !! id) ->
    exists w',
      BatchProcessor.sendEmails params (bp, w) =
        (Throw (TypeError "Cannot read properties of null (reading 'toast')"),
         (bp, w')) /\
      sent_mails (trace w') = (sent_mails (trace w) ++ [User.message u params id])%list.
Proof.
  intros params bp w pre post u id Hactive Husers Hpre Hid Hne [f Hf].
  rewrite sendEmails_unfold, Husers, forEach_app.
  assert (Hskip : forEach (fun user => liftW (User.sendEmail params user)) pre (bp, w)
                  = (Ok tt, (bp, w))).
  { clear Husers. induction Hpre as [| v pre Hv _ IH]; [reflexivity |].
    cbn [forEach]. unfold bind, liftW at 1. simpl.
    by rewrite (sendEmail_falsy params v w Hv). }
  rewrite Hskip. cbn [forEach]. unfold bind, liftW at 1. simpl.
  assert (Ht : truthy (User._certificateID u) = true)
    by (rewrite Hid; by apply truthy_JStr).
  rewrite (sendEmail_certified params u w Ht), Hid, (getFileById_run id f w Hf).
  rewrite showFeedback_run. simpl. rewrite Hactive.
  eexists. split; [reflexivity |]. simpl.
  rewrite !sent_mails_app. simpl. by rewrite !app_nil_r.
Qed.

(** X4 at the sample world with no spreadsheet active: Ana is passed over,
    Carla's message goes out, the call fails. *)
Lemma X4_witness :
  exists w',
    BatchProcessor.sendEmails Sample.emailData
      (Sample.processor_loaded,
       mkWorld (spreadsheets Sample.world) false (files Sample.world)
               (folders Sample.world) [])
    = (Throw (TypeError "Cannot read properties of null (reading 'toast')"),
       (Sample.processor_loaded, w')) /\
    sent_mails (trace w') = [User.message Sample.carla Sample.emailData "cert-1"].
Proof.
  apply (X4_sendEmails_without_active_spreadsheet
           Sample.emailData Sample.processor_loaded
           (mkWorld (spreadsheets Sample.world) false (files Sample.world)
                    (folders Sample.world) [])
           [Sample.ana] [] Sample.carla "cert-1").
  - reflexivity.
  - reflexivity.
  - repeat constructor.
  - reflexivity.
  - discriminate.
  - eexists. vm_compute. reflexivity.
Defined.

(** X5.  [sendEmails] stops at the first user whose certificate ID is set
    but names no Drive file: the lookup of the attachment raises, the users
    before it have been mailed (those that have a certificate), and neither
    that user nor any user after it is. *)
Theorem X5_sendEmails_stops_at_missing_file :
  forall (params : JsArg) (bp : BatchProcessor.t) (w : World)
         (pre post : list User.t) (u : User.t),
    activeSpreadsheet w = true ->
    BatchProcessor._users bp = (pre ++ u :: post)%list ->
    Forall (certificate_on_file w) pre ->
    truthy (User._certificateID u) = true ->
    (forall id, User._certificateID u = JStr id -> files w !! id = None) ->
    exists msg w',
      BatchProcessor.sendEmails params (bp, w) = (Throw (ServiceError msg), (bp, w')) /\
      sent_mails (trace w') =
        (sent_mails (trace w) ++ flat_map (mail_for params) pre)%list.
Proof.
  intros params bp w pre post u Hactive Husers Hpre Ht Hnone.
  rewrite sendEmails_unfold, Husers, forEach_app.
  destruct (forEach_sendEmail_ok params pre bp w Hactive Hpre)
    as (w1 & Hloop & _ & Hf1 & _ & _ & Hm1).
  rewrite Hloop. cbn [forEach]. unfold bind, liftW at 1. simpl.
  rewrite (sendEmail_certified params u w1 Ht).
  unfold DriveApp_getFileById.
  destruct (User._certificateID u) as [| | | | id] eqn:Hid;
    try (eexists _, w1; split; [reflexivity | exact Hm1]).
  rewrite Hf1, (Hnone id eq_refl).
  eexists _, w1. split; [reflexivity | exact Hm1].
Qed.

(** X5 at the sample world, with a user whose certificate was never
    stored placed before Carla. *)
Lemma X5_witness :
  exists msg w',
    BatchProcessor.sendEmails Sample.emailData
      (BatchProcessor.set_users
         [Sample.ana; User.setCertificateID (JStr "gone") Sample.ana; Sample.carla]
         Sample.processor,
       Sample.world)
    = (Throw (ServiceError msg),
       (BatchProcessor.set_users
          [Sample.ana; User.setCertificateID (JStr "gone") Sample.ana; Sample.carla]
          Sample.processor,
        w')) /\
    sent_mails (trace w') = [].
Proof.
  apply (X5_sendEmails_stops_at_missing_file
           Sample.emailData
           (BatchProcessor.set_users
              [Sample.ana; User.setCertificateID (JStr "gone") Sample.ana; Sample.carla]
              Sample.processor)
           Sample.world [Sample.ana] [Sample.carla]
           (User.setCertificateID (JStr "gone") Sample.ana)).
  - reflexivity.
  - reflexivity.
  - repeat constructor. intros Ht. vm_compute in Ht. discriminate.
  - reflexivity.
  - intros id Hid. injection Hid as <-. vm_compute. reflexivity.
Defined.

(* ===================================================================== *)
(** ** Further properties: creating certificates *)
(* ===================================================================== *)

(** *** What a run never touches *)

Lemma same_outside_drive_refl w : same_outside_drive w w.
Proof. by repeat split. Qed.

Lemma same_outside_drive_trans w1 w2 w3 :
  same_outside_drive w1 w2 -> same_outside_drive w2 w3 -> same_outside_drive w1 w3.
Proof. intros (? & ? & ?) (? & ? & ?). repeat split; congruence. Qed.

Lemma drive_only_ret {A} (a : A) : drive_only (ret a).
Proof. intros w. apply same_outside_drive_refl. Qed.

Lemma drive_only_throw {A} e : drive_only (@throw World A e).
Proof. intros w. apply same_outside_drive_refl. Qed.

Lemma drive_only_gets {A} (f : World -> A) : drive_only (gets f).
Proof. intros w. apply same_outside_drive_refl. Qed.

Lemma drive_only_emit e : drive_only (emit e).
Proof. intros w. by repeat split. Qed.

Lemma drive_only_put_file id f : drive_only (modify (put_file id f)).
Proof. intros w. by repeat split. Qed.

Lemma drive_only_bind {A B} (m : M World A) (k : A -> M World B) :
  drive_only m -> (forall a, drive_only (k a)) -> drive_only (bind m k).
Proof.
  intros Hm Hk w. unfold bind. specialize (Hm w).
  destruct (m w) as [[a | e] w1]; simpl in *; [| exact Hm].
  eapply same_outside_drive_trans; [exact Hm | apply Hk].
Qed.

Lemma drive_only_with_file {A} fid (k : File -> M World A) :
  (forall f, drive_only (k f)) -> drive_only (with_file fid k).
Proof.
  intros Hk w. unfold with_file.
  destruct (files w !! fid); [apply Hk | apply same_outside_drive_refl].
Qed.

Ltac solve_drive_only :=
  repeat first
    [ apply drive_only_with_file; intros ?
    | apply drive_only_bind; [| intros ?]
    | apply drive_only_ret | apply drive_only_throw | apply drive_only_gets
    | apply drive_only_emit | apply drive_only_put_file ].

Lemma drive_only_getFolderById id : drive_only (DriveApp_getFolderById id).
Proof.
  intros w. unfold DriveApp_getFolderById.
  case_bool_decide; apply same_outside_drive_refl.
Qed.

Lemma drive_only_getFileById id : drive_only (DriveApp_getFileById id).
Proof.
  intros w. unfold DriveApp_getFileById.
  destruct id as [| | | | s]; try apply same_outside_drive_refl.
  destruct (files w !! s); apply same_outside_drive_refl.
Qed.

Lemma drive_only_makeCopy fid : drive_only (File_makeCopy fid).
Proof. unfold File_makeCopy. solve_drive_only. Qed.

Lemma drive_only_moveTo fid folder : drive_only (File_moveTo fid folder).
Proof. unfold File_moveTo. solve_drive_only. Qed.

Lemma drive_only_setName fid name : drive_only (File_setName fid name).
Proof. unfold File_setName. solve_drive_only. Qed.

Lemma drive_only_getAs fid mime : drive_only (File_getAs fid mime).
Proof. unfold File_getAs. solve_drive_only. Qed.

Lemma drive_only_createFile folder b : drive_only (Folder_createFile folder b).
Proof. unfold Folder_createFile. solve_drive_only. Qed.

Lemma drive_only_setTrashed fid t : drive_only (File_setTrashed fid t).
Proof. unfold File_setTrashed. solve_drive_only. Qed.

Lemma drive_only_batchUpdate rs pid : drive_only (Slides_batchUpdate rs pid).
Proof.
  unfold Slides_batchUpdate. apply drive_only_with_file. intros f.
  destruct (apply_requests rs (f_texts f)); solve_drive_only.
Qed.

Lemma drive_only_showFeedback feedback : drive_only (showFeedback feedback).
Proof.
  unfold showFeedback.
  apply drive_only_bind; [apply drive_only_emit | intros _].
  apply drive_only_bind; [apply drive_only_gets | intros active].
  destruct active; solve_drive_only.
Qed.

Lemma drive_only_in_liftW {X A} (m : M World A) :
  drive_only m -> drive_only_in (@liftW X World A m).
Proof. intros Hm x w. unfold liftW. simpl. specialize (Hm w). by destruct (m w). Qed.

Lemma drive_only_in_bind {X A B} (m : M (X * World) A) (k : A -> M (X * World) B) :
  drive_only_in m -> (forall a, drive_only_in (k a)) -> drive_only_in (bind m k).
Proof.
  intros Hm Hk x w. unfold bind. specialize (Hm x w).
  destruct (m (x, w)) as [[a | e] [x1 w1]]; simpl in *; [| exact Hm].
  eapply same_outside_drive_trans; [exact Hm | apply Hk].
Qed.

Lemma drive_only_in_gets {X A} (f : X * World -> A) : drive_only_in (gets f).
Proof. intros x w. apply same_outside_drive_refl. Qed.

Lemma drive_only_in_modify_fst {X} (f : X -> X) :
  drive_only_in (modify (fun xw : X * World => (f (fst xw), snd xw))).
Proof. intros x w. apply same_outside_drive_refl. Qed.

Lemma drive_only_in_createCertificate cfg :
  drive_only_in (Certificate.createCertificate cfg).
Proof.
  unfold Certificate.createCertificate.
  repeat first
    [ apply drive_only_in_bind; [| intros ?]
    | apply drive_only_in_gets
    | apply drive_only_in_modify_fst
    | apply drive_only_in_liftW ].
  - apply drive_only_getFolderById.
  - apply drive_only_getFileById.
  - apply drive_only_makeCopy.
  - apply drive_only_moveTo.
  - apply drive_only_setName.
  - apply drive_only_batchUpdate.
  - apply drive_only_getAs.
  - apply drive_only_createFile.
  - apply drive_only_setTrashed.
  - apply drive_only_showFeedback.
Qed.

(** One turn of the loop of [createAllCertificates], whatever its
    completion: the user keeps its name and email, and nothing but Drive
    and the trace changes. *)
Lemma create_for_keeps cfg d user w :
  User._name (BatchProcessor.create_for cfg d (user, w)).2.1 = User._name user /\
  User._email (BatchProcessor.create_for cfg d (user, w)).2.1 = User._email user /\
  same_outside_drive w (BatchProcessor.create_for cfg d (user, w)).2.2.
Proof.
  pose proof (drive_only_in_createCertificate cfg
                (BatchProcessor.configured_for d user) w) as Hframe.
  unfold BatchProcessor.create_for, bind, gets, scoped, modify. simpl.
  destruct (Certificate.createCertificate cfg (BatchProcessor.configured_for d user, w))
    as [[[] | e] [c' w']]; simpl in *;
    (split; [reflexivity |]; split; [reflexivity |]; exact Hframe).
Qed.

Lemma forEachObj_create_for_keeps cfg d users :
  forall w,
    User._name <$> (forEachObj (BatchProcessor.create_for cfg d) users w).2.1
    = User._name <$> users /\
    User._email <$> (forEachObj (BatchProcessor.create_for cfg d) users w).2.1
    = User._email <$> users /\
    same_outside_drive w (forEachObj (BatchProcessor.create_for cfg d) users w).2.2.
Proof.
  induction users as [| u users IH]; intros w.
  - simpl. split; [reflexivity |]. split; [reflexivity |]. apply same_outside_drive_refl.
  - cbn [forEachObj].
    destruct (create_for_keeps cfg d u w) as (Hn & He & Hw).
    destruct (BatchProcessor.create_for cfg d (u, w)) as [[[] | e] [u' w1]];
      simpl in Hn, He, Hw.
    + destruct (IH w1) as (Hns & Hes & Hws).
      destruct (forEachObj (BatchProcessor.create_for cfg d) users w1)
        as [o [users' w']]; cbn [fst snd] in *.
      rewrite !fmap_cons.
      split; [by rewrite Hn, Hns |]. split; [by rewrite He, Hes |].
      eapply same_outside_drive_trans; eauto.
    + cbn [fst snd]. rewrite !fmap_cons. by rewrite Hn, He.
Qed.

(** X6.  [createAllCertificates], however it ends (normally, or with the
    exception of some step for some user), keeps the users in place: same
    number, same order, same names and emails; it changes no setting of the
    processor, no sheet and no folder.  Only certificate IDs, Drive files
    and the trace can differ afterwards. *)
Theorem X6_createAllCertificates_keeps_the_roster :
  forall (cfg : Config) (bp : BatchProcessor.t) (w : World),
    let r := BatchProcessor.createAllCertificates cfg (bp, w) in
    User._name <$> BatchProcessor._users r.2.1 = User._name <$> BatchProcessor._users bp /\
    User._email <$> BatchProcessor._users r.2.1 = User._email <$> BatchProcessor._users bp /\
    r.2.1 = BatchProcessor.set_users (BatchProcessor._users r.2.1) bp /\
    spreadsheets r.2.2 = spreadsheets w /\ folders r.2.2 = folders w.
Proof.
  intros cfg bp w. cbn zeta.
  destruct (forEachObj_create_for_keeps cfg (BatchProcessor._deletePresentations bp)
              (BatchProcessor._users bp) w) as (Hn & He & Hs & Hf & _).
  unfold BatchProcessor.createAllCertificates. simpl.
  destruct (forEachObj _ (BatchProcessor._users bp) w) as [o [users' w']]; simpl in *.
  by repeat split.
Qed.

(** X7.  Without the destination folder, or without the template,
    [createCertificate] fails at its first or second step: it ends with the
    exception of the lookup and has made no copy, stored nothing and
    assigned no certificate ID. *)
Theorem X7_createCertificate_needs_folder_and_template :
  forall (cfg : Config) (c : Certificate.t) (w : World),
    DESTINATION_FOLDER_ID cfg ∉ folders w \/
    files w !! BASE_PRESENTATION_ID cfg = None ->
    exists msg,
      Certificate.createCertificate cfg (c, w) = (Throw (ServiceError msg), (c, w)).
Proof.
  intros cfg c w Hmissing.
  unfold Certificate.createCertificate.
  unfold bind at 1. unfold gets at 1. cbn [fst snd].
  rewrite bind_liftW.
  destruct (decide (DESTINATION_FOLDER_ID cfg ∈ folders w)) as [Hin | Hout].
  - destruct Hmissing as [Hout | Hnone]; [done |].
    rewrite (getFolderById_run _ _ Hin), bind_liftW.
    unfold DriveApp_getFileById. rewrite Hnone. by eexists.
  - unfold DriveApp_getFolderById. rewrite bool_decide_eq_false_2 by exact Hout.
    by eexists.
Qed.

(** X7 with a configuration that names a folder the sample world lacks. *)
Lemma X7_witness :
  exists msg,
    Certificate.createCertificate (init "tpl" "nowhere" "{{name}}")
      (Certificate.new, Sample.world)
    = (Throw (ServiceError msg), (Certificate.new, Sample.world)).
Proof.
  apply (X7_createCertificate_needs_folder_and_template
           (init "tpl" "nowhere" "{{name}}") Certificate.new Sample.world).
  left. apply (bool_decide_unpack _). vm_compute. exact I.
Defined.

(** X8.  A run of [createCertificate] from a world where the folder and the
    template exist (non-empty placeholder, string as replacement text)
    leaves every file that existed, the template among them, exactly as it
    was: it works on a copy.  It makes two new files in the destination
    folder: the copy, renamed to the certificate name and trashed exactly
    when the flag is set, and the stored document, of the type asked for
    at line 203 and not trashed.  Of the certificate only the ID changes,
    to that of the stored document; this holds also when the feedback at
    the end fails. *)
Theorem X8_createCertificate_on_drive :
  forall (cfg : Config) (c : Certificate.t) (w : World) (template : File)
         (repl : string),
    DESTINATION_FOLDER_ID cfg ∈ folders w ->
    files w !! BASE_PRESENTATION_ID cfg = Some template ->
    PLACEHOLDER cfg <> "" ->
    Certificate._placeholderReplacement c = JStr repl ->
    exists o c' w' stored copy,
      Certificate.createCertificate cfg (c, w) = (o, (c', w')) /\
      c' = Certificate.set_certificateID (Certificate.getCertificateID c') c /\
      files w !! Certificate.getCertificateID c' = None /\
      files w !! newId w = None /\
      newId w <> Certificate.getCertificateID c' /\
      files w' !! Certificate.getCertificateID c' = Some stored /\
      f_mime stored = "application/pdf" /\
      f_parent stored = DESTINATION_FOLDER_ID cfg /\
      f_trashed stored = false /\
      files w' !! newId w = Some copy /\
      f_name copy = Certificate._certificateName c /\
      f_parent copy = DESTINATION_FOLDER_ID cfg /\
      f_trashed copy = Certificate._deletePresentation c /\
      (forall id f, files w !! id = Some f -> files w' !! id = Some f).
Proof.
  intros cfg c w template repl Hdest Hbase Hph Hrepl.
  destruct (createCertificate_run cfg c w template repl Hdest Hbase Hph Hrepl)
    as (pdf & w' & Hrun & Hne & Hpdf & Hstored & Hcopy & Hframe & _).
  destruct (newId_fresh w) as [Hfresh _].
  eexists _, _, w', _, _. split; [exact Hrun |].
  split; [reflexivity |]. split; [exact Hpdf |]. split; [exact Hfresh |].
  split; [exact Hne |]. split; [exact Hstored |].
  do 3 (split; [reflexivity |]). split; [exact Hcopy |].
  do 3 (split; [reflexivity |]).
  intros id f Hf. rewrite Hframe; [exact Hf | |]; intros ->; congruence.
Qed.

(** X8 at the sample world, for Ana. *)
Lemma X8_witness :
  exists o c' w',
    Certificate.createCertificate Sample.config
      (BatchProcessor.configured_for true Sample.ana, Sample.world) = (o, (c', w')) /\
    files w' !! "tpl" = Some Sample.template /\
    files w' !! "cert-1" = Some Sample.stored /\
    f_trashed <$> files w' !! newId Sample.world = Some true.
Proof.
  destruct (X8_createCertificate_on_drive
              Sample.config (BatchProcessor.configured_for true Sample.ana)
              Sample.world Sample.template "Ana Silva")
    as (o & c' & w' & stored & copy & Hrun & _ & _ & _ & _ & _ & _ & _ & _
        & Hcopy & _ & _ & Htrashed & Hframe).
  - apply (bool_decide_unpack _). vm_compute. exact I.
  - vm_compute. reflexivity.
  - discriminate.
  - reflexivity.
  - exists o, c', w'. split; [exact Hrun |].
    split; [apply Hframe; vm_compute; reflexivity |].
    split; [apply Hframe; vm_compute; reflexivity |].
    rewrite Hcopy. simpl. by rewrite Htrashed.
Defined.

(** X9.  When the script is not bound to a spreadsheet,
    [createAllCertificates] stores the first user's document and then fails
    in the toast of [showFeedback], before line 346 assigns the ID: the call
    ends with a [TypeError], no user has a new certificate ID, no later user
    is processed, and the stored document is left in Drive, referenced by
    nobody. *)
Theorem X9_createAllCertificates_without_active_spreadsheet :
  forall (cfg : Config) (bp : BatchProcessor.t) (w : World) (template : File)
         (u : User.t) (rest : list User.t),
    DESTINATION_FOLDER_ID cfg ∈ folders w ->
    files w !! BASE_PRESENTATION_ID cfg = Some template ->
    PLACEHOLDER cfg <> "" ->
    activeSpreadsheet w = false ->
    BatchProcessor._users bp = u :: rest ->
    is_string (User._name u) ->
    exists pdf w',
      BatchProcessor.createAllCertificates cfg (bp, w) =
        (Throw (TypeError "Cannot read properties of null (reading 'toast')"),
         (bp, w')) /\
      files w !! pdf = None /\
      is_Some (files w' !! pdf) /\
      EvCreateFile (DESTINATION_FOLDER_ID cfg) pdf ∈ trace w' /\
      batch_updates (trace w') =
        (batch_updates (trace w) ++
         [(newId w, [ReplaceAllText (User._name u) (PLACEHOLDER cfg) false])])%list.
Proof.
  intros cfg bp w template u rest Hdest Hbase Hph Hactive Husers Hname.
  destruct (User._name u) as [| | | | s] eqn:Hs; try contradiction.
  destruct (createCertificate_run cfg
              (BatchProcessor.configured_for (BatchProcessor._deletePresentations bp) u)
              w template s Hdest Hbase Hph)
    as (pdf & w' & Hrun & _ & Hpdf & Hstored & _ & _ & _ & _ & _ & Htr).
  { simpl. unfold User.getName. by rewrite Hs. }
  rewrite Hactive in Hrun, Htr.
  exists pdf, w'. split; [| split; [exact Hpdf | split; [by rewrite Hstored | split]]].
  - unfold BatchProcessor.createAllCertificates. simpl. rewrite Husers.
    cbn [forEachObj].
    unfold BatchProcessor.create_for, bind, gets, scoped. simpl.
    rewrite Hrun. simpl. rewrite <- Husers. by rewrite set_users_same.
  - rewrite Htr. apply elem_of_app. right. simpl.
    do 5 apply list_elem_of_further. apply list_elem_of_here.
  - rewrite Htr, batch_updates_app. f_equal. simpl.
    unfold Certificate.request. simpl. unfold User.getName. by rewrite Hs.
Qed.

(** X9 at the sample world with no spreadsheet active. *)
Lemma X9_witness :
  exists pdf w',
    BatchProcessor.createAllCertificates Sample.config
      (Sample.processor_loaded,
       mkWorld (spreadsheets Sample.world) false (files Sample.world)
               (folders Sample.world) [])
    = (Throw (TypeError "Cannot read properties of null (reading 'toast')"),
       (Sample.processor_loaded, w')) /\
    is_Some (files w' !! pdf) /\
    files Sample.world !! pdf = None.
Proof.
  destruct (X9_createAllCertificates_without_active_spreadsheet
              Sample.config Sample.processor_loaded
              (mkWorld (spreadsheets Sample.world) false (files Sample.world)
                       (folders Sample.world) [])
              Sample.template Sample.ana [Sample.carla])
    as (pdf & w' & Hrun & Hnew & Hstored & _).
  - apply (bool_decide_unpack _). vm_compute. exact I.
  - vm_compute. reflexivity.
  - discriminate.
  - reflexivity.
  - reflexivity.
  - exact I.
  - exists pdf, w'. split; [exact Hrun |]. split; [exact Hstored | exact Hnew].
Defined.

(** *** The identifiers Drive hands out *)

Lemma pretty_N_go_nonempty x s : s <> "" -> pretty_N_go x s <> "".
Proof.
  revert s. induction (N.lt_wf_0 x) as [x _ IH]; intros s Hs.
  destruct (decide (x = 0)%N) as [-> | Hx].
  - by rewrite pretty_N_go_0.
  - rewrite pretty_N_go_step by lia. apply IH; [apply N.div_lt; lia | discriminate].
Qed.

Lemma pretty_nat_nonempty (n : nat) : pretty n <> "".
Proof.
  unfold pretty, pretty_nat, pretty, pretty_N.
  destruct (decide (N.of_nat n = 0%N)); [discriminate |].
  rewrite pretty_N_go_step by lia. apply pretty_N_go_nonempty. discriminate.
Qed.

Lemma search_pretty (xs : list string) :
  forall (n : nat) (acc : Acc (fun n1 n2 : nat => (n2 < n1)%nat /\ pretty (n1 - 1)%nat ∈ xs) n),
    exists m : nat,
      Fix_F (fun _ => string) (search_infinite_go pretty xs) acc = pretty m.
Proof.
  fix FIX 2. intros n [a]. simpl. unfold search_infinite_go at 1.
  destruct (decide (pretty n ∈ xs)); [apply FIX | by exists n].
Qed.

Lemma fresh_list_pretty (xs : list string) : exists n : nat, fresh xs = pretty n.
Proof. apply search_pretty. Qed.

(** A new identifier is never the empty string. *)
Lemma newId_nonempty w : newId w <> "".
Proof.
  unfold newId.
  destruct (fresh_list_pretty (elements (dom (files w) ∪ folders w))) as [n Hn].
  change (fresh (dom (files w) ∪ folders w))
    with (fresh (elements (dom (files w) ∪ folders w))).
  rewrite Hn. apply pretty_nat_nonempty.
Qed.

(** The certificate ID after a run is an identifier Drive handed out. *)
Lemma createCertificate_new_id cfg c w template repl :
  DESTINATION_FOLDER_ID cfg ∈ folders w ->
  files w !! BASE_PRESENTATION_ID cfg = Some template ->
  PLACEHOLDER cfg <> "" ->
  Certificate._placeholderReplacement c = JStr repl ->
  Certificate.getCertificateID (Certificate.createCertificate cfg (c, w)).2.1 <> "".
Proof.
  intros Hdest Hbase Hph Hrepl.
  unfold Certificate.createCertificate.
  unfold bind at 1. unfold gets at 1. cbn [fst snd].
  rewrite bind_liftW, (getFolderById_run _ _ Hdest).
  rewrite bind_liftW, (getFileById_run _ _ _ Hbase).
  rewrite bind_liftW, (makeCopy_run _ _ _ Hbase).
  set (copy := newId w).
  rewrite bind_liftW. erewrite moveTo_run by (simpl; apply lookup_insert_eq).
  rewrite bind_liftW. erewrite setName_run by (simpl; apply lookup_insert_eq).
  unfold Certificate.request. rewrite Hrepl.
  rewrite bind_liftW. erewrite batchUpdate_run by (simpl; apply lookup_insert_eq || exact Hph).
  rewrite bind_liftW. erewrite getAs_run by (simpl; apply lookup_insert_eq).
  cbn [f_name f_mime f_parent f_texts f_trashed b_name b_mime b_texts].
  rewrite bind_liftW.
  match goal with
  | |- context [Folder_createFile _ _ ?W] => set (w5 := W)
  end.
  rewrite createFile_run.
  unfold bind at 1. unfold modify at 1. cbn [fst snd].
  unfold bind, liftW. cbn [fst snd].
  destruct (File_setTrashed copy (Certificate._deletePresentation c) _) as [[? | ?] ?];
    [| cbn; apply newId_nonempty].
  destruct (showFeedback _ _) as [? ?]. cbn. apply newId_nonempty.
Qed.

Lemma create_for_run_full cfg d template user w :
  ready cfg template w ->
  PLACEHOLDER cfg <> "" ->
  is_string (User._name user) ->
  exists pdf w',
    BatchProcessor.create_for cfg d (user, w) =
      (Ok tt, (User.setCertificateID (JStr pdf) user, w')) /\
    ready cfg template w' /\
    spreadsheets w' = spreadsheets w /\
    keeps_files w w' /\
    made_between cfg w w' pdf /\
    trace w' =
      (trace w ++
       Certificate.certificate_events
         cfg (BatchProcessor.configured_for d user) (newId w) pdf)%list.
Proof.
  intros (Hdest & Hbase & Hactive) Hph Hname.
  destruct (User._name user) as [| | | | s] eqn:Hs; try contradiction.
  assert (Hrepl : Certificate._placeholderReplacement
                    (BatchProcessor.configured_for d user) = JStr s).
  { simpl. unfold User.getName. by rewrite Hs. }
  pose proof (createCertificate_new_id cfg _ w template s Hdest Hbase Hph Hrepl) as Hid.
  destruct (createCertificate_run cfg (BatchProcessor.configured_for d user) w
              template s Hdest Hbase Hph Hrepl)
    as (pdf & w' & Hrun & Hne & Hpdf & Hstored & _ & Hframe & Hfolders & Hsheets
        & Hact & Htr).
  rewrite Hrun in Hid. simpl in Hid.
  destruct (newId_fresh w) as [Hfresh _].
  assert (Hkeeps : keeps_files w w').
  { intros id f Hf. rewrite Hframe; [exact Hf | |]; intros ->; congruence. }
  exists pdf, w'.
  split; [| split; [split; [| split] | split; [| split; [| split]]]].
  - unfold BatchProcessor.create_for, bind, gets, scoped, modify. simpl.
    rewrite Hrun, Hactive. reflexivity.
  - by rewrite Hfolders.
  - by apply Hkeeps.
  - congruence.
  - exact Hsheets.
  - exact Hkeeps.
  - split; [exact Hid |]. split; [exact Hpdf |]. eexists. by split; [exact Hstored |].
  - rewrite Htr, Hactive. reflexivity.
Qed.

Lemma forEachObj_create_for_full cfg d template users :
  PLACEHOLDER cfg <> "" ->
  Forall (fun u => is_string (User._name u)) users ->
  forall w,
    ready cfg template w ->
    exists (ids : list (string * string)) w',
      length ids = length users /\
      forEachObj (BatchProcessor.create_for cfg d) users w =
        (Ok tt,
         (zip_with (fun u id => User.setCertificateID (JStr id.2) u) users ids, w')) /\
      ready cfg template w' /\
      spreadsheets w' = spreadsheets w /\
      keeps_files w w' /\
      Forall (made_between cfg w w') ids.*2 /\
      NoDup ids.*2.
Proof.
  intros Hph. induction 1 as [| user users Hname _ IH]; intros w Hready.
  - exists [], w.
    split; [reflexivity |]. split; [reflexivity |]. split; [exact Hready |].
    split; [reflexivity |]. split; [by intros id f Hf |]. split; constructor.
  - destruct (create_for_run_full cfg d template user w Hready Hph Hname)
      as (pdf & w1 & Hrun & Hready1 & Hs1 & Hk1 & Hmade1 & _).
    destruct (IH w1 Hready1) as (ids & w' & Hlen & Hloop & Hready' & Hs & Hk & Hmade & Hnd).
    exists ((newId w, pdf) :: ids), w'.
    split; [simpl; by rewrite Hlen |].
    split; [cbn [forEachObj]; by rewrite Hrun, Hloop |].
    split; [exact Hready' |]. split; [congruence |].
    split; [intros id f Hf; by apply Hk, Hk1 |].
    destruct Hmade1 as (Hne1 & Hnone1 & f1 & Hf1 & Hp1 & Ht1).
    split; [| rewrite fmap_cons; apply NoDup_cons; split; [| exact Hnd]].
    + rewrite fmap_cons. apply Forall_cons. split.
      * split; [exact Hne1 |]. split; [exact Hnone1 |].
        exists f1. split; [by apply Hk |]. by split.
      * eapply Forall_impl; [exact Hmade |].
        intros id (Hne & Hnone & f & Hf & Hp & Ht).
        split; [exact Hne |]. split; [| by exists f].
        destruct (files w !! id) as [f0 |] eqn:Hf0; [| reflexivity].
        apply Hk1 in Hf0. congruence.
    + simpl. intros Hin. rewrite Forall_forall in Hmade.
      destruct (Hmade pdf Hin) as (_ & Hnone & _). congruence.
Qed.

(** X10.  From a world where the folder and the template exist and a
    spreadsheet is active (non-empty placeholder, string names),
    [createAllCertificates] gives every user a certificate of its own: the
    IDs assigned are pairwise different and not empty, none of them named a
    file before, and at the end each names a document in the destination
    folder that is not trashed.  Every file that existed before, the
    template among them, is unchanged. *)
Theorem X10_createAllCertificates_one_document_each :
  forall (cfg : Config) (bp : BatchProcessor.t) (w : World) (template : File),
    DESTINATION_FOLDER_ID cfg ∈ folders w ->
    files w !! BASE_PRESENTATION_ID cfg = Some template ->
    activeSpreadsheet w = true ->
    PLACEHOLDER cfg <> "" ->
    Forall (fun u => is_string (User._name u)) (BatchProcessor._users bp) ->
    exists (pdfs : list string) (bp' : BatchProcessor.t) (w' : World),
      BatchProcessor.createAllCertificates cfg (bp, w) = (Ok tt, (bp', w')) /\
      User._certificateID <$> BatchProcessor._users bp' = JStr <$> pdfs /\
      length pdfs = length (BatchProcessor._users bp) /\
      NoDup pdfs /\
      Forall (made_between cfg w w') pdfs /\
      keeps_files w w'.
Proof.
  intros cfg bp w template Hdest Hbase Hactive Hph Hnames.
  destruct (forEachObj_create_for_full cfg (BatchProcessor._deletePresentations bp)
              template (BatchProcessor._users bp) Hph Hnames w)
    as (ids & w' & Hlen & Hloop & _ & _ & Hk & Hmade & Hnd).
  { split; [exact Hdest | split; [exact Hbase | exact Hactive]]. }
  exists ids.*2,
         (BatchProcessor.set_users
            (zip_with (fun u id => User.setCertificateID (JStr id.2) u)
                      (BatchProcessor._users bp) ids) bp),
         w'.
  split; [unfold BatchProcessor.createAllCertificates; simpl; by rewrite Hloop |].
  split; [| split; [by rewrite length_fmap | by repeat split]].
  simpl. clear -Hlen. revert ids Hlen.
  induction (BatchProcessor._users bp) as [| u us IH]; intros [| id ids] Hlen;
    try discriminate; [reflexivity |].
  cbn [zip_with]. rewrite !fmap_cons. cbn [snd]. f_equal.
  apply IH. simpl in Hlen. lia.
Qed.

(** X10 at the sample world, for Ana and Carla. *)
Lemma X10_witness :
  exists (pdfs : list string) bp' w',
    BatchProcessor.createAllCertificates Sample.config
      (Sample.processor_loaded, Sample.world) = (Ok tt, (bp', w')) /\
    User._certificateID <$> BatchProcessor._users bp' = JStr <$> pdfs /\
    length pdfs = 2%nat /\ NoDup pdfs /\
    files w' !! "tpl" = Some Sample.template.
Proof.
  destruct (X10_createAllCertificates_one_document_each
              Sample.config Sample.processor_loaded Sample.world Sample.template)
    as (pdfs & bp' & w' & Hrun & Hids & Hlen & Hnd & _ & Hk).
  - apply (bool_decide_unpack _). vm_compute. exact I.
  - vm_compute. reflexivity.
  - reflexivity.
  - discriminate.
  - repeat constructor.
  - exists pdfs, bp', w'. split; [exact Hrun |]. split; [exact Hids |].
    split; [exact Hlen |]. split; [exact Hnd |]. apply Hk. vm_compute. reflexivity.
Defined.

(* ===================================================================== *)
(** ** Further properties: loading and saving *)
(* ===================================================================== *)

Lemma recipient_of_row_shape n e c row :
  loaded_shape (BatchProcessor.recipient_of_row n e c row).
Proof.
  unfold loaded_shape, BatchProcessor.recipient_of_row, trimmed.
  eexists _, _, _. split; [reflexivity |]. repeat split; apply trim_clean.
Qed.

Lemma forEach_load_row_shape n e c data :
  forall bp w,
    Forall loaded_shape (BatchProcessor._users bp) ->
    Forall loaded_shape
           (BatchProcessor._users
              (forEach (BatchProcessor.load_row n e c) data (bp, w)).2.1).
Proof.
  induction data as [| row data IH]; intros bp w Hall; [exact Hall |].
  cbn [forEach]. unfold bind. rewrite load_row_spec.
  destruct (BatchProcessor.skipped n e row); [by apply IH |].
  destruct (BatchProcessor.has_toString (arr_get row c)); [| exact Hall].
  apply IH. simpl. apply Forall_app. split; [exact Hall |].
  apply Forall_singleton, recipient_of_row_shape.
Qed.

(** X11.  [getUsersFromSheet] only pushes users whose name, email and
    certificate ID are strings without white space at either end: if every
    user of [_users] is of that form before the call, every user is of that
    form after it, however the call ends. *)
Theorem X11_getUsersFromSheet_pushes_trimmed_strings :
  forall (bp : BatchProcessor.t) (w : World),
    Forall loaded_shape (BatchProcessor._users bp) ->
    Forall loaded_shape
           (BatchProcessor._users (BatchProcessor.getUsersFromSheet (bp, w)).2.1).
Proof.
  intros bp w Hall. rewrite getUsersFromSheet_unfold.
  destruct (spreadsheets w !! BatchProcessor._spreadsheetID bp) as [book |];
    [| exact Hall].
  destruct (book !! BatchProcessor._sheetName bp) as [g |]; [| exact Hall].
  destruct (data_range_values g) as [| headers data]; [exact Hall |].
  by apply forEach_load_row_shape.
Qed.

(** X11 at the sample roster, whose second row has an email with spaces
    around it. *)
Lemma X11_witness :
  Forall loaded_shape
         (BatchProcessor._users
            (BatchProcessor.getUsersFromSheet (Sample.processor, Sample.world)).2.1).
Proof.
  apply (X11_getUsersFromSheet_pushes_trimmed_strings Sample.processor Sample.world).
  simpl. constructor.
Defined.

Lemma trimStart_all_ws s : all_ws s = true -> trimStart s = "".
Proof.
  induction s as [| c s IH]; [reflexivity |]. simpl.
  intros H. apply andb_prop in H as [-> Hs]. by apply IH.
Qed.

(** X12.  The guard of line 306 looks at the cell before it is trimmed: a
    row whose name cell holds white space only passes it (with an email and
    a certificate cell that has a string value), and the user pushed has the
    empty string as name. *)
Theorem X12_blank_name_is_loaded :
  forall (n e c : Z) (row : list JsVal) (s : string) (bp : BatchProcessor.t) (w : World),
    arr_get row n = JStr s -> s <> "" -> all_ws s = true ->
    truthy (arr_get row e) = true ->
    BatchProcessor.has_toString (arr_get row c) = true ->
    exists user,
      BatchProcessor.load_row n e c row (bp, w) =
        (Ok tt, (BatchProcessor.set_users (BatchProcessor._users bp ++ [user]) bp, w)) /\
      User._name user = JStr "" /\
      User._email user = JStr (trim (ToString (arr_get row e))).
Proof.
  intros n e c row s bp w Hn Hne Hws He Hc.
  eexists. rewrite load_row_spec. unfold BatchProcessor.skipped.
  rewrite Hn, He, Hc. apply truthy_JStr in Hne. rewrite Hne. simpl.
  split; [reflexivity |]. simpl. rewrite Hn. simpl.
  unfold trim. by rewrite trimStart_all_ws.
Qed.

(** X12 at a row whose name is two spaces. *)
Lemma X12_witness :
  exists user,
    BatchProcessor.load_row 0 1 2 [JStr "  "; JStr "x@x.org"; JStr ""]
      (Sample.processor, Sample.world) =
      (Ok tt, (BatchProcessor.set_users [user] Sample.processor, Sample.world)) /\
    User._name user = JStr "".
Proof.
  destruct (X12_blank_name_is_loaded 0 1 2 [JStr "  "; JStr "x@x.org"; JStr ""] "  "
              Sample.processor Sample.world)
    as (user & Hrun & Hname & _).
  - reflexivity.
  - discriminate.
  - reflexivity.
  - reflexivity.
  - reflexivity.
  - exists user. split; [exact Hrun | exact Hname].
Defined.

(** X13.  When the spreadsheet opens but has no sheet of the configured
    name, [getSheetByName] answers [null] and both [getUsersFromSheet] and
    [saveUsersToSheet] end with the [TypeError] of their first call on it;
    [_users] and the world are as they were. *)
Theorem X13_missing_sheet :
  forall (bp : BatchProcessor.t) (w : World) (book : gmap string (list (list JsVal))),
    spreadsheets w !! BatchProcessor._spreadsheetID bp = Some book ->
    book !! BatchProcessor._sheetName bp = None ->
    BatchProcessor.getUsersFromSheet (bp, w) =
      (Throw (TypeError "Cannot read properties of null (reading 'getDataRange')"),
       (bp, w)) /\
    BatchProcessor.saveUsersToSheet (bp, w) =
      (Throw (TypeError "Cannot read properties of null (reading 'getRange')"),
       (bp, w)).
Proof.
  intros bp w book Hb Hg.
  rewrite getUsersFromSheet_unfold, saveUsersToSheet_unfold, Hb, Hg. by split.
Qed.

(** X13 at the sample world, asked for a sheet it does not have. *)
Lemma X13_witness :
  BatchProcessor.saveUsersToSheet
    (BatchProcessor.setSheetName "Sheet2" Sample.processor_loaded, Sample.world)
  = (Throw (TypeError "Cannot read properties of null (reading 'getRange')"),
     (BatchProcessor.setSheetName "Sheet2" Sample.processor_loaded, Sample.world)).
Proof.
  apply (X13_missing_sheet
           (BatchProcessor.setSheetName "Sheet2" Sample.processor_loaded)
           Sample.world {["Sheet1" := Sample.roster]}).
  - vm_compute. reflexivity.
  - vm_compute. reflexivity.
Defined.

Lemma data_range_single_row g :
  (getLastRow g <= 1)%nat -> exists headers, data_range_values g = [headers].
Proof.
  intros Hle. unfold data_range_values, range_values.
  replace (Nat.max 1 (getLastRow g)) with 1%nat by lia.
  simpl. by eexists.
Qed.

(** X14.  On a sheet with content in the first row at most (a header row
    alone, or nothing at all), [getUsersFromSheet] returns normally and
    pushes nothing. *)
Theorem X14_getUsersFromSheet_header_only :
  forall (bp : BatchProcessor.t) (w : World) (book : gmap string (list (list JsVal)))
         (g : list (list JsVal)),
    spreadsheets w !! BatchProcessor._spreadsheetID bp = Some book ->
    book !! BatchProcessor._sheetName bp = Some g ->
    (getLastRow g <= 1)%nat ->
    BatchProcessor.getUsersFromSheet (bp, w) = (Ok tt, (bp, w)).
Proof.
  intros bp w book g Hb Hg Hle.
  destruct (data_range_single_row g Hle) as [headers Hv].
  by rewrite getUsersFromSheet_unfold, Hb, Hg, Hv.
Qed.

(** X14 at a sheet that holds a header row and two empty rows. *)
Lemma X14_witness :
  BatchProcessor.getUsersFromSheet
    (Sample.processor,
     mkWorld {["ss" := {["Sheet1" := [[JStr "Name"; JStr "Email"];
                                      [JStr ""; JStr ""]; [JStr ""; JStr ""]]]}]}
             true ∅ ∅ [])
  = (Ok tt,
     (Sample.processor,
      mkWorld {["ss" := {["Sheet1" := [[JStr "Name"; JStr "Email"];
                                       [JStr ""; JStr ""]; [JStr ""; JStr ""]]]}]}
              true ∅ ∅ [])).
Proof.
  apply (X14_getUsersFromSheet_header_only
           Sample.processor _
           {["Sheet1" := [[JStr "Name"; JStr "Email"];
                          [JStr ""; JStr ""]; [JStr ""; JStr ""]]]}
           [[JStr "Name"; JStr "Email"]; [JStr ""; JStr ""]; [JStr ""; JStr ""]]).
  - vm_compute. reflexivity.
  - vm_compute. reflexivity.
  - vm_compute. lia.
Defined.

(** X15.  When none of the three configured headers is in the live header
    row, every row [saveUsersToSheet] builds is empty, the range it asks for
    has no column, and the call ends with the exception of [getRange]:
    nothing is written. *)
Theorem X15_saveUsersToSheet_no_header_resolved :
  forall (bp : BatchProcessor.t) (w : World) (book : gmap string (list (list JsVal)))
         (g : list (list JsVal)),
    BatchProcessor._users bp <> [] ->
    spreadsheets w !! BatchProcessor._spreadsheetID bp = Some book ->
    book !! BatchProcessor._sheetName bp = Some g ->
    indexOf (BatchProcessor.live_headers g) (BatchProcessor._namesColumnHeader bp)
    = (-1)%Z ->
    indexOf (BatchProcessor.live_headers g) (BatchProcessor._emailsColumnHeader bp)
    = (-1)%Z ->
    indexOf (BatchProcessor.live_headers g) (BatchProcessor._certificatesIDColumnHeader bp)
    = (-1)%Z ->
    Forall (fun user => BatchProcessor.build_row (-1) (-1) (-1) user = [])
           (BatchProcessor._users bp) /\
    BatchProcessor.saveUsersToSheet (bp, w) =
      (Throw (ServiceError "invalid range"), (bp, w)).
Proof.
  intros bp w book g Hne Hb Hg Hn He Hc.
  split; [apply Forall_forall; by intros user _ |].
  rewrite saveUsersToSheet_unfold, Hb, Hg. cbv zeta. rewrite Hn, He, Hc.
  destruct (BatchProcessor._users bp) as [| u us]; [done |].
  reflexivity.
Qed.

(** X15 at the sample roster, with three headers it does not have. *)
Lemma X15_witness :
  BatchProcessor.saveUsersToSheet
    (BatchProcessor.setCertificatesIDColumnHeader (JStr "Id")
       (BatchProcessor.setEmailsColumnHeader (JStr "Mail")
          (BatchProcessor.setNamesColumnHeader (JStr "Who") Sample.processor_loaded)),
     Sample.world)
  = (Throw (ServiceError "invalid range"),
     (BatchProcessor.setCertificatesIDColumnHeader (JStr "Id")
        (BatchProcessor.setEmailsColumnHeader (JStr "Mail")
           (BatchProcessor.setNamesColumnHeader (JStr "Who") Sample.processor_loaded)),
      Sample.world)).
Proof.
  apply (X15_saveUsersToSheet_no_header_resolved
           (BatchProcessor.setCertificatesIDColumnHeader (JStr "Id")
              (BatchProcessor.setEmailsColumnHeader (JStr "Mail")
                 (BatchProcessor.setNamesColumnHeader (JStr "Who") Sample.processor_loaded)))
           Sample.world {["Sheet1" := Sample.roster]} Sample.roster).
  - discriminate.
  - vm_compute. reflexivity.
  - vm_compute. reflexivity.
  - vm_compute. reflexivity.
  - vm_compute. reflexivity.
  - vm_compute. reflexivity.
Defined.

(* ===================================================================== *)
(** ** Further properties: the operations in sequence *)
(* ===================================================================== *)

Lemma extent_le_length {A} (blank : A -> bool) l : (extent blank l <= length l)%nat.
Proof.
  induction l as [| x l IH]; simpl; [lia |].
  destruct (extent blank l); [destruct (blank x); lia | lia].
Qed.

Lemma getLastColumn_le_widest g :
  (getLastColumn g <= foldr (fun row m => Nat.max (length row) m) 0 g)%nat.
Proof.
  unfold getLastColumn. induction g as [| row g IH]; simpl; [lia |].
  pose proof (extent_le_length is_blank row). lia.
Qed.

(** The header row [saveUsersToSheet] reads is the one [getUsersFromSheet]
    reads, followed by the cells to the right of the data range. *)
Lemma live_headers_extend g headers data :
  data_range_values g = headers :: data ->
  exists ext, BatchProcessor.live_headers g = (headers ++ ext)%list.
Proof.
  unfold data_range_values, range_values, BatchProcessor.live_headers, getMaxColumns.
  intros Hv.
  destruct (Nat.max 1 (getLastRow g)) as [| R] eqn:HR; [lia |].
  simpl in Hv. injection Hv as <- _.
  pose proof (getLastColumn_le_widest g) as Hle.
  set (C := Nat.max 1 (getLastColumn g)).
  set (W := Nat.max 1 (foldr (fun row m => Nat.max (length row) m) 0%nat g)).
  exists (map (fun c => cellAt g 0 c) (seq C (W - C))).
  rewrite <- map_app, <- seq_app. f_equal. f_equal. lia.
Qed.

Lemma indexOf_from_app_found l ext x i :
  (0 <= i)%Z -> (0 <= indexOf_from l x i)%Z ->
  indexOf_from (l ++ ext) x i = indexOf_from l x i.
Proof.
  revert i. induction l as [| y l IH]; intros i Hi Hfound; simpl in *; [lia |].
  destruct (strict_eq y x); [reflexivity |]. apply IH; [lia | exact Hfound].
Qed.

Lemma indexOf_app_found l ext x :
  (0 <= indexOf l x)%Z -> indexOf (l ++ ext) x = indexOf l x.
Proof. intros H. by apply indexOf_from_app_found. Qed.

(** [saveUsersToSheet] when there is a user, a sheet and a resolved header:
    one write, and the world after it. *)
Lemma saveUsersToSheet_run bp w book g :
  BatchProcessor._users bp <> [] ->
  spreadsheets w !! BatchProcessor._spreadsheetID bp = Some book ->
  book !! BatchProcessor._sheetName bp = Some g ->
  let headers := BatchProcessor.live_headers g in
  let n := indexOf headers (BatchProcessor._namesColumnHeader bp) in
  let e := indexOf headers (BatchProcessor._emailsColumnHeader bp) in
  let c := indexOf headers (BatchProcessor._certificatesIDColumnHeader bp) in
  let width := BatchProcessor.row_width n e c in
  let rows := map (BatchProcessor.build_row n e c) (BatchProcessor._users bp) in
  (1 <= width)%nat ->
  BatchProcessor.saveUsersToSheet (bp, w) =
    (Ok tt,
     (bp,
      mkWorld
        (<[BatchProcessor._spreadsheetID bp :=
             <[BatchProcessor._sheetName bp := write_range g 1 0 width rows]> book]>
           (spreadsheets w))
        (activeSpreadsheet w) (files w) (folders w)
        (trace w ++
         [EvSetValues (BatchProcessor._spreadsheetID bp) (BatchProcessor._sheetName bp)
                      2 1 (length (BatchProcessor._users bp)) width rows]))).
Proof.
  intros Hne Hb Hg headers n e c width rows Hw.
  assert (Hlens : Forall (fun r : Row => length r = width) rows).
  { apply Forall_forall. intros r Hin. apply list_elem_of_fmap in Hin as (u & -> & _).
    by apply length_build_row. }
  rewrite saveUsersToSheet_unfold, Hb, Hg. cbv zeta.
  fold headers. fold n e c. fold rows.
  destruct (BatchProcessor._users bp) as [| u us] eqn:Hus; [done |].
  unfold rows at 1. cbn [map].
  rewrite (length_build_row n e c u). fold width.
  unfold liftW, bind, Sheet_getRange. simpl.
  destruct width as [| width'] eqn:Hwidth; [lia |]. unfold ret.
  erewrite (Range_setValues_run
              (BatchProcessor._spreadsheetID bp, BatchProcessor._sheetName bp)
              2 1 (S (length (map (BatchProcessor.build_row n e c) us))) (S width') rows
              w book g Hb Hg); [| | exact Hlens].
  - simpl. rewrite length_map. reflexivity.
  - unfold rows. simpl. rewrite !length_map. reflexivity.
Qed.

(** A cell that passes the guard of line 306, or has a string value, sits
    at a resolved index. *)
Lemma truthy_arr_get_resolved row headers x :
  truthy (arr_get row (indexOf headers x)) = true -> (0 <= indexOf headers x)%Z.
Proof.
  pose proof (indexOf_ge headers x) as Hge. intros Ht.
  destruct (decide (indexOf headers x = (-1)%Z)) as [Heq | Hne]; [| lia].
  rewrite Heq in Ht. discriminate.
Qed.

Lemma has_toString_arr_get_resolved row headers x :
  BatchProcessor.has_toString (arr_get row (indexOf headers x)) = true ->
  (0 <= indexOf headers x)%Z.
Proof.
  pose proof (indexOf_ge headers x) as Hge. intros Ht.
  destruct (decide (indexOf headers x = (-1)%Z)) as [Heq | Hne]; [| lia].
  rewrite Heq in Ht. discriminate.
Qed.

Lemma passes_guard_skipped n e row :
  negb (BatchProcessor.skipped n e row) = passes_guard n e row.
Proof.
  unfold BatchProcessor.skipped, passes_guard.
  by rewrite negb_orb, !negb_involutive.
Qed.

(** X16.  The three calls of the README in sequence, on a new processor.
    When the rows that pass the guard have a certificate cell with a string
    value and there is at least one of them, and the folder, the template
    and an active spreadsheet are there (non-empty placeholder):
    [getUsersFromSheet], [createAllCertificates] and [saveUsersToSheet] all
    return normally, and afterwards the certificate column holds, in row
    2 + i, the ID of the document made for the i-th row that passed the
    guard.  The documents are new, pairwise different and on file.  The
    row written is counted among the loaded rows, not among the rows of the
    sheet. *)
Theorem X16_load_create_save :
  forall (cfg : Config) (bp : BatchProcessor.t) (w : World)
         (book : gmap string (list (list JsVal))) (g : list (list JsVal))
         (headers : list JsVal) (data : list (list JsVal)) (template : File),
    BatchProcessor._users bp = [] ->
    spreadsheets w !! BatchProcessor._spreadsheetID bp = Some book ->
    book !! BatchProcessor._sheetName bp = Some g ->
    data_range_values g = headers :: data ->
    let n := indexOf headers (BatchProcessor._namesColumnHeader bp) in
    let e := indexOf headers (BatchProcessor._emailsColumnHeader bp) in
    let c := indexOf headers (BatchProcessor._certificatesIDColumnHeader bp) in
    let loaded := List.filter (passes_guard n e) data in
    Forall (fun row => passes_guard n e row = true ->
                       BatchProcessor.has_toString (arr_get row c) = true) data ->
    loaded <> [] ->
    ready cfg template w ->
    PLACEHOLDER cfg <> "" ->
    exists bp1 bp2 w2 w3 g3 (pdfs : list string),
      BatchProcessor.getUsersFromSheet (bp, w) = (Ok tt, (bp1, w)) /\
      BatchProcessor.createAllCertificates cfg (bp1, w) = (Ok tt, (bp2, w2)) /\
      BatchProcessor.saveUsersToSheet (bp2, w2) = (Ok tt, (bp2, w3)) /\
      spreadsheets w3 !! BatchProcessor._spreadsheetID bp
        ≫= (.!! BatchProcessor._sheetName bp) = Some g3 /\
      length pdfs = length loaded /\
      NoDup pdfs /\
      forall i pdf,
        pdfs !! i = Some pdf ->
        cellAt g3 (1 + i) (Z.to_nat c) = JStr pdf /\
        files w !! pdf = None /\ is_Some (files w3 !! pdf).
Proof.
  intros cfg bp w book g headers data template Husers Hb Hg Hv n e c loaded
         Hall Hsome Hready Hph.
  set (d := BatchProcessor._deletePresentations bp).
  set (users1 := map (BatchProcessor.recipient_of_row n e c) loaded).
  set (bp1 := BatchProcessor.set_users users1 bp).
  (* load *)
  assert (Hload : BatchProcessor.getUsersFromSheet (bp, w) = (Ok tt, (bp1, w))).
  { rewrite getUsersFromSheet_unfold, Hb, Hg, Hv. fold n e c.
    rewrite forEach_load_row_ok.
    - rewrite Husers. simpl.
      change bp1 with
        (BatchProcessor.set_users
           (map (BatchProcessor.recipient_of_row n e c)
                (List.filter (passes_guard n e) data)) bp).
      do 4 f_equal. apply List.filter_ext. intros row. apply passes_guard_skipped.
    - eapply Forall_impl; [exact Hall |].
      intros row Hrow Hs. apply Hrow. rewrite <- passes_guard_skipped. by rewrite Hs. }
  (* create *)
  assert (Hnames : Forall (fun u => is_string (User._name u)) users1).
  { apply Forall_forall. intros u Hin.
    apply list_elem_of_fmap in Hin as (row & -> & _). exact I. }
  destruct (forEachObj_create_for_full cfg d template users1 Hph Hnames w Hready)
    as (ids & w2 & Hlen & Hloop & _ & Hs2 & _ & Hmade & Hnd).
  set (users2 := zip_with (fun u id => User.setCertificateID (JStr id.2) u) users1 ids).
  set (bp2 := BatchProcessor.set_users users2 bp1).
  assert (Hcreate : BatchProcessor.createAllCertificates cfg (bp1, w) = (Ok tt, (bp2, w2))).
  { unfold BatchProcessor.createAllCertificates. simpl. fold d. by rewrite Hloop. }
  (* the three columns are resolved *)
  assert (Hpos : (0 < length users1)%nat).
  { unfold users1. rewrite length_map. generalize Hsome. generalize loaded.
    intros [| r l] H; [done | simpl; lia]. }
  assert (Hex : exists row0, In row0 loaded).
  { generalize Hsome. generalize loaded. intros [| r l] H; [done | exists r; by left]. }
  destruct Hex as [row0 Hrow0].
  apply filter_In in Hrow0 as [Hin0 Hpass0].
  assert (Hc0 : BatchProcessor.has_toString (arr_get row0 c) = true).
  { rewrite Forall_forall in Hall. apply Hall; [by apply list_elem_of_In | exact Hpass0]. }
  apply andb_prop in Hpass0 as [Hn0 He0].
  apply truthy_arr_get_resolved in Hn0, He0.
  apply has_toString_arr_get_resolved in Hc0.
  fold n in Hn0. fold e in He0. fold c in Hc0.
  destruct (live_headers_extend g headers data Hv) as [ext Hext].
  (* save *)
  assert (Hlen2 : length users2 = length users1).
  { unfold users2. rewrite length_zip_with. lia. }
  assert (Hwidth : (1 <= BatchProcessor.row_width n e c)%nat)
    by (unfold BatchProcessor.row_width; lia).
  pose proof (saveUsersToSheet_run bp2 w2 book g) as Hsave.
  cbv zeta in Hsave. simpl in Hsave.
  rewrite Hext in Hsave.
  rewrite !indexOf_app_found in Hsave by assumption.
  fold n e c in Hsave.
  specialize (Hsave ltac:(intros Hnil; rewrite Hnil in Hlen2; simpl in Hlen2; lia)
                    ltac:(by rewrite Hs2) Hg Hwidth).
  eexists bp1, bp2, w2, _, _, ids.*2.
  split; [exact Hload |]. split; [exact Hcreate |]. split; [exact Hsave |].
  split; [simpl; rewrite lookup_insert_eq; simpl; rewrite lookup_insert_eq; reflexivity |].
  split; [rewrite length_fmap, Hlen; unfold users1; apply length_map |].
  split; [exact Hnd |].
  intros i pdf Hi.
  rewrite list_lookup_fmap in Hi.
  destruct (ids !! i) as [id |] eqn:Hid; [| discriminate].
  injection Hi as <-.
  assert (Hlt : (i < length users1)%nat).
  { rewrite <- Hlen. by apply lookup_lt_Some in Hid. }
  destruct (lookup_lt_is_Some_2 users1 i Hlt) as [u1 Hu1].
  assert (Hu2 : users2 !! i = Some (User.setCertificateID (JStr id.2) u1)).
  { unfold users2. rewrite lookup_zip_with, Hu1. simpl. by rewrite Hid. }
  rewrite Forall_forall in Hmade.
  destruct (Hmade id.2) as (_ & Hnone & f & Hf & _).
  { apply list_elem_of_fmap. exists id. split; [reflexivity |].
    by apply list_elem_of_lookup_2 in Hid. }
  split; [| split; [exact Hnone | simpl; by rewrite Hf]].
  rewrite cellAt_write_range, length_map, Hlen2.
  assert (((1 <=? 1 + i) && (1 + i <? 1 + length users1) &&
           (0 <=? Z.to_nat c) && (Z.to_nat c <? 0 + BatchProcessor.row_width n e c))%nat
          = true) as ->.
  { unfold BatchProcessor.row_width.
    repeat (apply andb_true_intro; split); (apply Nat.leb_le || apply Nat.ltb_lt); lia. }
  replace (1 + i - 1)%nat with i by lia.
  rewrite list_lookup_fmap, Hu2. simpl.
  rewrite Nat.sub_0_r, row_item_build_row.
  rewrite bool_decide_eq_true_2 by (split; [exact Hc0 | reflexivity]).
  reflexivity.
Qed.

(** X16 at the sample world: Ana and Carla pass the guard, Bob does not, so
    Carla's new ID goes to row 3, the row Bob is on. *)
Lemma X16_witness :
  exists bp1 bp2 w2 w3 g3 (pdfs : list string),
    BatchProcessor.getUsersFromSheet (Sample.processor, Sample.world)
    = (Ok tt, (bp1, Sample.world)) /\
    BatchProcessor.createAllCertificates Sample.config (bp1, Sample.world)
    = (Ok tt, (bp2, w2)) /\
    BatchProcessor.saveUsersToSheet (bp2, w2) = (Ok tt, (bp2, w3)) /\
    spreadsheets w3 !! "ss" ≫= (.!! "Sheet1") = Some g3 /\
    length pdfs = 2%nat /\
    forall i pdf, pdfs !! i = Some pdf -> cellAt g3 (1 + i) 2 = JStr pdf.
Proof.
  destruct (X16_load_create_save
              Sample.config Sample.processor Sample.world
              {["Sheet1" := Sample.roster]} Sample.roster
              [JStr "Name"; JStr "Email"; JStr "Certificate ID"]
              (tail Sample.roster) Sample.template)
    as (bp1 & bp2 & w2 & w3 & g3 & pdfs & Hload & Hcreate & Hsave & Hg3 & Hlen & _ & Hcells).
  - reflexivity.
  - vm_compute. reflexivity.
  - vm_compute. reflexivity.
  - vm_compute. reflexivity.
  - repeat constructor.
  - vm_compute. discriminate.
  - split; [apply (bool_decide_unpack _); vm_compute; exact I |].
    split; [vm_compute; reflexivity | reflexivity].
  - discriminate.
  - exists bp1, bp2, w2, w3, g3, pdfs.
    split; [exact Hload |]. split; [exact Hcreate |]. split; [exact Hsave |].
    split; [exact Hg3 |]. split; [exact Hlen |].
    intros i pdf Hi. by destruct (Hcells i pdf Hi) as [Hcell _].
Defined.

Lemma mail_for_made cfg w w' params pdf u :
  made_between cfg w w' pdf ->
  mail_for params (User.setCertificateID (JStr pdf) u)
  = [User.message (User.setCertificateID (JStr pdf) u) params pdf]
  /\ certificate_on_file w' (User.setCertificateID (JStr pdf) u).
Proof.
  intros (Hne & _ & f & Hf & _). unfold mail_for, certificate_on_file. simpl.
  apply truthy_JStr in Hne. simpl in Hne. rewrite Hne.
  split; [reflexivity |]. intros _. exists pdf. by rewrite Hf.
Qed.

(** X17.  [createAllCertificates] followed by [sendEmails], from a world
    where the folder, the template and an active spreadsheet are there
    (non-empty placeholder, string names): both return normally, and the
    second hands the mail service exactly one message per user, in list
    order, to the user's email and with the document just made for that
    user as its only attachment; the documents are pairwise different, and
    each is new in Drive, in the destination folder and not trashed. *)
Theorem X17_create_then_send :
  forall (cfg : Config) (params : JsArg) (bp : BatchProcessor.t) (w : World)
         (template : File),
    DESTINATION_FOLDER_ID cfg ∈ folders w ->
    files w !! BASE_PRESENTATION_ID cfg = Some template ->
    activeSpreadsheet w = true ->
    PLACEHOLDER cfg <> "" ->
    Forall (fun u => is_string (User._name u)) (BatchProcessor._users bp) ->
    exists (pdfs : list string) (bp' : BatchProcessor.t) (w' w'' : World),
      BatchProcessor.createAllCertificates cfg (bp, w) = (Ok tt, (bp', w')) /\
      BatchProcessor.sendEmails params (bp', w') = (Ok tt, (bp', w'')) /\
      length pdfs = length (BatchProcessor._users bp) /\
      NoDup pdfs /\
      sent_mails (trace w'') =
        (sent_mails (trace w') ++
         zip_with (fun u pdf => User.message (User.setCertificateID (JStr pdf) u) params pdf)
                  (BatchProcessor._users bp) pdfs)%list /\
      Forall (made_between cfg w w') pdfs.
Proof.
  intros cfg params bp w template Hdest Hbase Hactive Hph Hnames.
  destruct (forEachObj_create_for_full cfg (BatchProcessor._deletePresentations bp)
              template (BatchProcessor._users bp) Hph Hnames w)
    as (ids & w' & Hlen & Hloop & (_ & _ & Hactive') & _ & _ & Hmade & Hnd).
  { split; [exact Hdest | split; [exact Hbase | exact Hactive]]. }
  set (users' := zip_with (fun u id => User.setCertificateID (JStr id.2) u)
                          (BatchProcessor._users bp) ids) in *.
  assert (Hmails : flat_map (mail_for params) users' =
                   zip_with (fun u pdf =>
                               User.message (User.setCertificateID (JStr pdf) u) params pdf)
                            (BatchProcessor._users bp) ids.*2
                   /\ Forall (certificate_on_file w') users').
  { unfold users'. clear Hloop Hlen Hnd users'. revert ids Hmade.
    induction (BatchProcessor._users bp) as [| u us IH]; intros ids Hmade.
    - split; [reflexivity | constructor].
    - destruct ids as [| id ids]; [split; [reflexivity | constructor] |].
      rewrite fmap_cons in Hmade. apply Forall_cons in Hmade as [Hid Hmade].
      inversion Hnames as [| ? ? Hu Hus]; subst.
      destruct (IH Hus ids Hmade) as [Hm Hf].
      destruct (mail_for_made cfg w w' params id.2 u Hid) as [Hm1 Hf1].
      cbn [zip_with flat_map]. rewrite fmap_cons. cbn [zip_with].
      rewrite Hm1, Hm. split; [reflexivity |]. by constructor. }
  destruct Hmails as [Hmails Hfiles].
  destruct (forEach_sendEmail_ok params users'
              (BatchProcessor.set_users users' bp) w' Hactive' Hfiles)
    as (w'' & Hsend & _ & _ & _ & _ & Hm).
  exists ids.*2, (BatchProcessor.set_users users' bp), w', w''.
  split; [unfold BatchProcessor.createAllCertificates; simpl; by rewrite Hloop |].
  split; [rewrite sendEmails_unfold; exact Hsend |].
  split; [by rewrite length_fmap |]. split; [exact Hnd |].
  split; [by rewrite Hm, Hmails | exact Hmade].
Qed.

(** X17 at the sample world, for Ana and Carla. *)
Lemma X17_witness :
  exists (pdfs : list string) bp' w' w'',
    BatchProcessor.createAllCertificates Sample.config
      (Sample.processor_loaded, Sample.world) = (Ok tt, (bp', w')) /\
    BatchProcessor.sendEmails Sample.emailData (bp', w') = (Ok tt, (bp', w'')) /\
    length pdfs = 2%nat /\
    length (sent_mails (trace w'')) = 2%nat.
Proof.
  destruct (X17_create_then_send
              Sample.config Sample.emailData Sample.processor_loaded Sample.world
              Sample.template)
    as (pdfs & bp' & w' & w'' & Hcreate & Hsend & Hlen & _ & Hm & _).
  - apply (bool_decide_unpack _). vm_compute. exact I.
  - vm_compute. reflexivity.
  - reflexivity.
  - discriminate.
  - repeat constructor.
  - exists pdfs, bp', w', w''.
    split; [exact Hcreate |]. split; [exact Hsend |]. split; [exact Hlen |].
    rewrite Hm, length_app, length_zip_with.
    assert (Hnone : sent_mails (trace w') = []).
    { pose proof (f_equal (fun r => sent_mails (trace r.2.2)) Hcreate) as H.
      simpl in H. rewrite <- H. vm_compute. reflexivity. }
    rewrite Hnone, Hlen. reflexivity.
Defined.

(** X18.  [saveUsersToSheet], however it ends, leaves [_users] and the
    settings, Drive, the folders and the mail already sent as they were; it
    changes no sheet but the configured one, and there it leaves the header
    row as it was. *)
Theorem X18_saveUsersToSheet_touches_one_sheet :
  forall (bp : BatchProcessor.t) (w : World),
    let r := BatchProcessor.saveUsersToSheet (bp, w) in
    r.2.1 = bp /\ files r.2.2 = files w /\ folders r.2.2 = folders w /\
    sent_mails (trace r.2.2) = sent_mails (trace w) /\
    (forall ss sh,
       (ss, sh) <> (BatchProcessor._spreadsheetID bp, BatchProcessor._sheetName bp) ->
       spreadsheets r.2.2 !! ss ≫= (.!! sh) = spreadsheets w !! ss ≫= (.!! sh)) /\
    (forall g g',
       spreadsheets w !! BatchProcessor._spreadsheetID bp
         ≫= (.!! BatchProcessor._sheetName bp) = Some g ->
       spreadsheets r.2.2 !! BatchProcessor._spreadsheetID bp
         ≫= (.!! BatchProcessor._sheetName bp) = Some g' ->
       forall k, cellAt g' 0 k = cellAt g 0 k).
Proof.
  intros bp w. cbn zeta.
  assert (Hsame : forall o,
             let r := (o : Outcome unit, (bp, w)) in
             r.2.1 = bp /\ files r.2.2 = files w /\ folders r.2.2 = folders w /\
             sent_mails (trace r.2.2) = sent_mails (trace w) /\
             (forall ss sh,
                (ss, sh) <> (BatchProcessor._spreadsheetID bp, BatchProcessor._sheetName bp) ->
                spreadsheets r.2.2 !! ss ≫= (.!! sh) = spreadsheets w !! ss ≫= (.!! sh)) /\
             (forall g g',
                spreadsheets w !! BatchProcessor._spreadsheetID bp
                  ≫= (.!! BatchProcessor._sheetName bp) = Some g ->
                spreadsheets r.2.2 !! BatchProcessor._spreadsheetID bp
                  ≫= (.!! BatchProcessor._sheetName bp) = Some g' ->
                forall k, cellAt g' 0 k = cellAt g 0 k)).
  { intros o. cbn. do 4 (split; [reflexivity |]). split; [reflexivity |].
    intros g g' Hg Hg' k. congruence. }
  rewrite saveUsersToSheet_unfold.
  destruct (spreadsheets w !! BatchProcessor._spreadsheetID bp) as [book |] eqn:Hb;
    [| apply Hsame].
  destruct (book !! BatchProcessor._sheetName bp) as [g |] eqn:Hg; [| apply Hsame].
  cbv zeta.
  destruct (map _ (BatchProcessor._users bp)) as [| row0 rows]; [apply Hsame |].
  unfold liftW, bind, Sheet_getRange. cbn [fst snd].
  destruct ((1 <=? 2) && (1 <=? 1) && (1 <=? length (row0 :: rows))
            && (1 <=? length row0))%nat; [| apply Hsame].
  unfold ret, Range_setValues, with_grid. cbn [rg_sheet rg_row rg_col rg_numRows rg_numCols fst snd].
  rewrite Hb. cbn [mbind option_bind]. rewrite Hg.
  destruct (Nat.eqb (length (row0 :: rows)) (length (row0 :: rows)) &&
            forallb (fun row : Row => Nat.eqb (length row) (length row0)) (row0 :: rows));
    [| unfold throw; cbv beta iota; cbn [fst snd];
       do 4 (split; [reflexivity |]); split; [reflexivity |];
       intros g0 g' Hg0 Hg' k; rewrite Hb in Hg'; cbn [mbind option_bind] in Hg';
       congruence].
  unfold bind, set_grid, emit, modify, log. cbn [fst snd spreadsheets files folders trace
    activeSpreadsheet]. rewrite Hb. cbn [default].
  split; [reflexivity |]. split; [reflexivity |]. split; [reflexivity |].
  split; [rewrite sent_mails_app; simpl; apply app_nil_r |]. split.
  - intros ss sh Hne.
    destruct (decide (ss = BatchProcessor._spreadsheetID bp)) as [-> | Hss].
    + rewrite lookup_insert_eq, Hb. cbn [mbind option_bind].
      rewrite lookup_insert_ne; [reflexivity | congruence].
    + by rewrite lookup_insert_ne.
  - intros g0 g' Hg0 Hg' k.
    rewrite lookup_insert_eq in Hg'. cbn [mbind option_bind] in *.
    rewrite lookup_insert_eq in Hg'.
    injection Hg0 as <-. injection Hg' as <-.
    by rewrite cellAt_write_range.
Qed.

(** X19.  [sendEmails] keeps no record of what it sent: run twice in a row
    (spreadsheet active, certificates on file), it hands the mail service the
    same messages a second time, in the same order. *)
Theorem X19_sendEmails_twice_sends_twice :
  forall (params : JsArg) (bp : BatchProcessor.t) (w : World),
    activeSpreadsheet w = true ->
    Forall (certificate_on_file w) (BatchProcessor._users bp) ->
    exists w1 w2,
      BatchProcessor.sendEmails params (bp, w) = (Ok tt, (bp, w1)) /\
      BatchProcessor.sendEmails params (bp, w1) = (Ok tt, (bp, w2)) /\
      sent_mails (trace w2) =
        (sent_mails (trace w) ++
         flat_map (mail_for params) (BatchProcessor._users bp) ++
         flat_map (mail_for params) (BatchProcessor._users bp))%list.
Proof.
  intros params bp w Hactive Hall.
  destruct (forEach_sendEmail_ok params (BatchProcessor._users bp) bp w Hactive Hall)
    as (w1 & Hrun1 & Hact1 & Hf1 & _ & _ & Hm1).
  destruct (forEach_sendEmail_ok params (BatchProcessor._users bp) bp w1 Hact1)
    as (w2 & Hrun2 & _ & _ & _ & _ & Hm2).
  { eapply Forall_impl; [exact Hall |]. intros u Hu Ht.
    destruct (Hu Ht) as (id & Hid & Hsome). exists id. by rewrite Hf1. }
  exists w1, w2. rewrite !sendEmails_unfold.
  split; [exact Hrun1 |]. split; [exact Hrun2 |].
  by rewrite Hm2, Hm1, <- app_assoc.
Qed.

(** X19 at the sample world: Carla is mailed twice. *)
Lemma X19_witness :
  exists w1 w2,
    BatchProcessor.sendEmails Sample.emailData (Sample.processor_loaded, Sample.world)
    = (Ok tt, (Sample.processor_loaded, w1)) /\
    BatchProcessor.sendEmails Sample.emailData (Sample.processor_loaded, w1)
    = (Ok tt, (Sample.processor_loaded, w2)) /\
    sent_mails (trace w2) =
      [User.message Sample.carla Sample.emailData "cert-1";
       User.message Sample.carla Sample.emailData "cert-1"].
Proof.
  apply (X19_sendEmails_twice_sends_twice
           Sample.emailData Sample.processor_loaded Sample.world).
  - reflexivity.
  - repeat constructor.
    + intros Ht. vm_compute in Ht. discriminate.
    + intros _. exists "cert-1". split; [reflexivity |]. eexists. vm_compute. reflexivity.
Defined.

(** X20.  In a row built by [saveUsersToSheet] the three assignments are
    made in the order name, email, certificate ID, so where two headers
    resolve to the same column the later value is the one written: the
    certificate ID is always at its column when that is resolved, the email
    is at its column unless the certificate ID took it, and the name is at
    its column unless one of the other two took it.  A header that is not
    found puts nothing in the row. *)
Theorem X20_build_row_later_assignment_wins :
  forall (n e c : Z) (user : User.t),
    let row := BatchProcessor.build_row n e c user in
    ((0 <= c)%Z ->
     BatchProcessor.row_item row (Z.to_nat c) = Some (User.getCertificateID user)) /\
    ((0 <= e)%Z -> e <> c ->
     BatchProcessor.row_item row (Z.to_nat e) = Some (User.getEmail user)) /\
    ((0 <= n)%Z -> n <> e -> n <> c ->
     BatchProcessor.row_item row (Z.to_nat n) = Some (User.getName user)) /\
    ((n < 0)%Z -> (e < 0)%Z -> (c < 0)%Z -> row = []).
Proof.
  intros n e c user row. subst row.
  split; [| split; [| split]].
  - intros H0. rewrite row_item_build_row.
    by rewrite bool_decide_eq_true_2.
  - intros H0 Hne. rewrite row_item_build_row.
    rewrite bool_decide_eq_false_2 by lia. by rewrite bool_decide_eq_true_2.
  - intros H0 Hne1 Hne2. rewrite row_item_build_row.
    rewrite !bool_decide_eq_false_2 by lia. by rewrite bool_decide_eq_true_2.
  - intros Hn He Hc. unfold BatchProcessor.build_row, arr_set.
    apply Z.ltb_lt in Hn, He, Hc. by rewrite Hn, He, Hc.
Qed.

(** X20 with the email header and the certificate header on one column. *)
Lemma X20_witness :
  BatchProcessor.row_item (BatchProcessor.build_row 0 1 1 Sample.carla) 1
  = Some (JStr "cert-1")
  /\ BatchProcessor.row_item (BatchProcessor.build_row 0 1 1 Sample.carla) 0
     = Some (JStr "Carla").
Proof.
  destruct (X20_build_row_later_assignment_wins 0 1 1 Sample.carla) as (Hc & _ & Hn & _).
  split; [apply Hc; lia | apply Hn; lia].
Defined.
